(** * JMC: certificate protocol, tag-file merge, item and event built-ins

    A shallow embedding of [src/jmc/compile.py] and
    [src/jmc/compile/command/jmc_function_mixin.py].

    Conventions of the embedding:
    - a Python [str] is a [string] of one-byte characters (the certificate,
      the criteria and the tag entries of a datapack are ASCII);
    - a Python [dict] that is iterated is an insertion-ordered association
      list ([dict V]); dictionaries that are only looked up are [gmap]s;
    - a [pathlib.Path] is the list of its components, read from the root
      of the modelled file tree (no [..] and no symbolic links);
    - code with effects runs in the monad [M]: a world (file tree, the
      class attributes of [DataPack], the [Header] singleton, the log of
      file-system effects) is threaded through, and a raised exception
      stops the run and keeps the world reached so far. *)

From Stdlib Require Import Ascii String.
From stdpp Require Import gmap strings list.

Set Warnings "-register-all".

(** ** Python string primitives *)

Module Py.

(** [s.split(sep)] for a one-character separator: never the empty list. *)
Fixpoint split_on (sep : ascii) (s : string) : list string :=
  match s with
  | EmptyString => [ EmptyString ]
  | String c s' =>
      if Ascii.eqb c sep then EmptyString :: split_on sep s'
      else match split_on sep s' with
           | [] => [ String c EmptyString ]
           | w :: ws => String c w :: ws
           end
  end.

(** [str.isspace] on one-byte characters: TAB..CR, FS..US and the space. *)
Definition is_space (c : ascii) : bool :=
  let n := nat_of_ascii c in
  ((9 <=? n) && (n <=? 13)) || ((28 <=? n) && (n <=? 32)).

Fixpoint lstrip (s : string) : string :=
  match s with
  | EmptyString => EmptyString
  | String c s' => if is_space c then lstrip s' else s
  end.

Fixpoint rstrip (s : string) : string :=
  match s with
  | EmptyString => EmptyString
  | String c s' =>
      match rstrip s' with
      | EmptyString => if is_space c then EmptyString else String c EmptyString
      | r => String c r
      end
  end.

(** [s.strip()] *)
Definition strip (s : string) : string := rstrip (lstrip s).

(** [sep.join(l)] *)
Definition join (sep : string) (l : list string) : string := String.concat sep l.

(** [s.startswith(p)] *)
Definition startswith (s p : string) : bool := String.prefix p s.

(** [s[n:]] *)
Fixpoint drop (n : nat) (s : string) : string :=
  match n, s with
  | S n', String _ s' => drop n' s'
  | _, _ => s
  end.

(** [s[:-n]] for [n > 0] *)
Definition drop_last (n : nat) (s : string) : string :=
  String.substring 0 (String.length s - n) s.

(** [s.replace(old, new)] for a non-empty [old]: the occurrences are
    replaced from the left and do not overlap; [skip] counts the
    characters of an occurrence that was just replaced. *)
Fixpoint replace_from (old new : string) (skip : nat) (s : string) : string :=
  match s with
  | EmptyString => EmptyString
  | String c s' =>
      match skip with
      | S k => replace_from old new k s'
      | O =>
          if String.prefix old s
          then new +:+ replace_from old new (String.length old - 1) s'
          else String c (replace_from old new 0 s')
      end
  end.

Definition replace (old new s : string) : string := replace_from old new 0 s.

Definition lower_char (c : ascii) : ascii :=
  let n := nat_of_ascii c in
  if (65 <=? n) && (n <=? 90) then ascii_of_nat (n + 32) else c.

(** [s.lower()] *)
Fixpoint lower (s : string) : string :=
  match s with
  | EmptyString => EmptyString
  | String c s' => String (lower_char c) (lower s')
  end.

(** Truth value of a [str]. *)
Definition truthy (s : string) : bool :=
  match s with EmptyString => false | _ => true end.

End Py.

(** ** Insertion-ordered dictionaries *)

Abbreviation dict V := (list (string * V)).

Fixpoint dict_get {V} (k : string) (d : dict V) : option V :=
  match d with
  | [] => None
  | (k', v) :: d' => if String.eqb k' k then Some v else dict_get k d'
  end.

(** [d[k] = v]: an existing key keeps its place, a new one goes last. *)
Fixpoint dict_set {V} (k : string) (v : V) (d : dict V) : dict V :=
  match d with
  | [] => [ (k, v) ]
  | (k', v') :: d' =>
      if String.eqb k' k then (k', v) :: d' else (k', v') :: dict_set k v d'
  end.

Definition dict_mem {V} (k : string) (d : dict V) : bool :=
  match dict_get k d with Some _ => true | None => false end.


(** ** Tokens, exceptions, JSON values *)

(** Modelled from the spec: the token of the tokenizer module, which is not
    among the sources; a kind, the literal text and the source position. *)
Inductive TokenType : Type :=
  | KEYWORD | OPERATOR | STRING | NUMBER | PAREN
  | PAREN_ROUND | PAREN_SQUARE | PAREN_CURLY | FUNC.

Record Token : Type := mkToken {
  token_type : TokenType;
  token_string : string;
  token_line : nat;
  token_col : nat
}.

Inductive os_error : Type :=
  | FileNotFoundError | FileExistsError | NotADirectoryError | IsADirectoryError.

Inductive exn : Type :=
  | JMCBuildError (msg : string)
  | JMCValueError (msg : string) (token : Token)
  | JMCSyntaxError (msg : string) (token : Token)
  | OSError (e : os_error)
  | ValueError
  | KeyError (key : string)
  | TypeError
  | AttributeError
  | UnboundLocalError (name : string).

(** A value of [json.loads]; numbers are the integers. *)
Inductive json : Type :=
  | JNull
  | JBool (b : bool)
  | JNum (n : Z)
  | JStr (s : string)
  | JArr (items : list json)
  | JObj (fields : list (string * json)).

(** Truth value of a JSON value, as [if json:] tests it. *)
Definition json_truthy (j : json) : bool :=
  match j with
  | JNull => false
  | JBool b => b
  | JNum n => negb (n =? 0)%Z
  | JStr s => Py.truthy s
  | JArr l => match l with [] => false | _ => true end
  | JObj d => match d with [] => false | _ => true end
  end.

(** Results of code that may raise. *)
Definition Res (A : Type) : Type := exn + A.

Definition res_bind {A B} (m : Res A) (f : A → Res B) : Res B :=
  match m with inl e => inl e | inr a => f a end.

Notation "'let?' x := m 'in' k" := (res_bind m (λ x, k))
  (at level 10, x name, m at level 100, k at level 200).

Fixpoint res_map {A B} (f : A → Res B) (l : list A) : Res (list B) :=
  match l with
  | [] => inr []
  | x :: l' => let? y := f x in let? ys := res_map f l' in inr (y :: ys)
  end.

(** [d[k]] *)
Definition getitem {V} (k : string) (d : dict V) : Res V :=
  match dict_get k d with Some v => inr v | None => inl (KeyError k) end.

(** ** The file tree *)

Inductive node : Type :=
  | File (content : string)
  | Dir (entries : gmap string node).

Definition path : Type := list string.

(** [Path(s)]: the components of [s], empty ones and [.] dropped. *)
Definition Path (s : string) : path :=
  filter (λ c, c ≠ "" ∧ c ≠ ".") (Py.split_on "/"%char s).

(** [p / s] *)
Definition path_join (p : path) (s : string) : path := p ++ Path s.

Infix "//" := path_join (at level 40, left associativity).

(** [p.parent] *)
Definition parent (p : path) : path := removelast p.

Fixpoint fs_lookup (p : path) (n : node) : option node :=
  match p with
  | [] => Some n
  | c :: p' =>
      match n with
      | File _ => None
      | Dir m => match m !! c with Some n' => fs_lookup p' n' | None => None end
      end
  end.

(** [shutil.rmtree]: the directory at [p] with all it holds. *)
Fixpoint fs_rmtree (p : path) (n : node) : os_error + node :=
  match n with
  | File _ => inl NotADirectoryError
  | Dir m =>
      match p with
      | [] => inl NotADirectoryError
      | c :: p' =>
          match m !! c with
          | None => inl FileNotFoundError
          | Some n' =>
              match p' with
              | [] =>
                  match n' with
                  | Dir _ => inr (Dir (delete c m))
                  | File _ => inl NotADirectoryError
                  end
              | _ :: _ =>
                  match fs_rmtree p' n' with
                  | inr n'' => inr (Dir (<[c := n'']> m))
                  | inl e => inl e
                  end
              end
          end
      end
  end.

(** A chain of new directories [c1/c2/...], the last one empty. *)
Definition fresh_dirs (p : path) : node :=
  foldr (λ c n, Dir {[ c := n ]}) (Dir ∅) p.

(** [Path.mkdir(parents=True, exist_ok=...)] *)
Fixpoint fs_mkdir (exist_ok : bool) (p : path) (n : node) : os_error + node :=
  match n with
  | File _ => inl (match p with [] => FileExistsError | _ => NotADirectoryError end)
  | Dir m =>
      match p with
      | [] => if exist_ok then inr n else inl FileExistsError
      | c :: p' =>
          match m !! c with
          | None => inr (Dir (<[c := fresh_dirs p']> m))
          | Some n' =>
              match fs_mkdir exist_ok p' n' with
              | inr n'' => inr (Dir (<[c := n'']> m))
              | inl e => inl e
              end
          end
      end
  end.

(** [open('w+')] followed by one [write]: the file is created or replaced;
    its directory has to exist. *)
Fixpoint fs_write (p : path) (s : string) (n : node) : os_error + node :=
  match n with
  | File _ => inl NotADirectoryError
  | Dir m =>
      match p with
      | [] => inl IsADirectoryError
      | c :: p' =>
          match p' with
          | [] =>
              match m !! c with
              | Some (Dir _) => inl IsADirectoryError
              | _ => inr (Dir (<[c := File s]> m))
              end
          | _ :: _ =>
              match m !! c with
              | None => inl FileNotFoundError
              | Some n' =>
                  match fs_write p' s n' with
                  | inr n'' => inr (Dir (<[c := n'']> m))
                  | inl e => inl e
                  end
              end
          end
      end
  end.

(** The effects on the file tree, in the order they happen. *)
Inductive event : Type :=
  | EvIsDir (p : path)
  | EvIsFile (p : path)
  | EvRead (p : path)
  | EvRmtree (p : path)
  | EvMkdir (p : path)
  | EvWrite (p : path) (content : string).

(** ** The output model and the world of one compilation *)

(** The five reserved names, class attributes of [DataPack]. *)
Record Names : Type := mkNames {
  LOAD_NAME : string;
  TICK_NAME : string;
  PRIVATE_NAME : string;
  VAR_NAME : string;
  INT_NAME : string
}.

(** Modelled from the spec: the output model [DataPack] (datapack module,
    not among the sources). A function is its ordered command list, it
    counts as true when it has a command, and its [content] is the
    commands joined by newlines. *)
Record DataPack : Type := mkDataPack {
  namespace : string;
  functions : dict (list string);
  jsons : dict json;
  scoreboards : gmap string string;
  private_functions : gmap string (gmap string (list string));
  ticks : list string;
  used_command : gset (string * list string)
}.

Definition Function_content (commands : list string) : string :=
  Py.join (String "010"%char EmptyString) commands.

Definition Function_truthy (commands : list string) : bool :=
  match commands with [] => false | _ => true end.

(** What [compile.py] imports and is not among the sources: the header
    parser, the lexer (which reads the sources and builds the output
    model), [DataPack.build], and Python's [json] and [int]. *)
Class Externals : Type := {
  Header : Type;
  Header_clear : Header;
  Header_add_file_read : path → Header → Header;
  parse_header : string → path → path → Header → Res Header;
  Lexer : dict string → Names → Header → node → Res DataPack;
  DataPack_build : Names → DataPack → DataPack;
  json_loads : string → option json;
  json_dumps : json → string;
  py_int : string → option Z
}.

Section World.
Context {ext : Externals}.

Record World : Type := mkWorld {
  fs : node;
  names : Names;
  header : Header;
  trace : list event
}.

Definition set_fs (t : node) (w : World) : World :=
  mkWorld t (names w) (header w) (trace w).

Definition set_names (n : Names) (w : World) : World :=
  mkWorld (fs w) n (header w) (trace w).

Definition set_header (h : Header) (w : World) : World :=
  mkWorld (fs w) (names w) h (trace w).

Definition log (e : event) (w : World) : World :=
  mkWorld (fs w) (names w) (header w) (trace w ++ [e]).

(** Computations over the world that may raise. *)
Definition M (A : Type) : Type := World → World * Res A.

Definition ret {A} (a : A) : M A := λ w, (w, inr a).

Definition raise {A} (e : exn) : M A := λ w, (w, inl e).

Definition bind {A B} (m : M A) (f : A → M B) : M B :=
  λ w, match m w with
       | (w', inr a) => f a w'
       | (w', inl e) => (w', inl e)
       end.

Definition lift {A} (r : Res A) : M A := λ w, (w, r).

Definition get_names : M Names := λ w, (w, inr (names w)).

Definition put_names (n : Names) : M unit := λ w, (set_names n w, inr tt).

(** [try: m except ValueError: h] *)
Definition except_ValueError {A} (m : Res A) (h : A) : Res A :=
  match m with
  | inl ValueError => inr h
  | r => r
  end.

End World.

Notation "'let*' x := m 'in' k" := (bind m (λ x, k))
  (at level 10, x name, m at level 100, k at level 200).
Notation "m ;;; k" := (bind m (λ _, k))
  (at level 100, k at level 200, right associativity).

Section FileOps.
Context {ext : Externals}.

(** [p.is_dir()] *)
Definition is_dir (p : path) : M bool := λ w,
  (log (EvIsDir p) w,
   inr match fs_lookup p (fs w) with Some (Dir _) => true | _ => false end).

(** [p.is_file()] *)
Definition is_file (p : path) : M bool := λ w,
  (log (EvIsFile p) w,
   inr match fs_lookup p (fs w) with Some (File _) => true | _ => false end).

(** [with p.open('r') as file: file.read()] *)
Definition read_text (p : path) : M string := λ w,
  match fs_lookup p (fs w) with
  | Some (File s) => (log (EvRead p) w, inr s)
  | Some (Dir _) => (w, inl (OSError IsADirectoryError))
  | None => (w, inl (OSError FileNotFoundError))
  end.

(** [rmtree(p.resolve().as_posix())] *)
Definition rmtree (p : path) : M unit := λ w,
  match fs_rmtree p (fs w) with
  | inr t => (log (EvRmtree p) (set_fs t w), inr tt)
  | inl e => (w, inl (OSError e))
  end.

(** [p.mkdir(parents=True, exist_ok=...)] *)
Definition mkdir (exist_ok : bool) (p : path) : M unit := λ w,
  match fs_mkdir exist_ok p (fs w) with
  | inr t => (log (EvMkdir p) (set_fs t w), inr tt)
  | inl e => (w, inl (OSError e))
  end.

(** [with p.open('w+') as file: file.write(s)] *)
Definition write_text (p : path) (s : string) : M unit := λ w,
  match fs_write p s (fs w) with
  | inr t => (log (EvWrite p s) (set_fs t w), inr tt)
  | inl e => (w, inl (OSError e))
  end.

(** [for x in l: body(x)] *)
Fixpoint for_each {A} (l : list A) (body : A → M unit) : M unit :=
  match l with
  | [] => ret tt
  | x :: l' => body x ;;; for_each l' body
  end.

End FileOps.

(** ** compile.py *)

Section Compile.
Context {ext : Externals}.

Definition JMC_CERT_FILE_NAME : string := "jmc.txt".

Definition newline : string := String "010"%char EmptyString.

(** [p.as_posix()] *)
Definition as_posix (p : path) : string := Py.join "/" p.

(** [config[k]] *)
Definition config_get (config : dict string) (k : string) : M string :=
  lift (getitem k config).

Definition cert_config_to_string (cert_config : dict string) : string :=
  Py.join newline (map (λ kv, kv.1 +:+ "=" +:+ kv.2) cert_config).

(** The loop of [string_to_cert_config]: [key, value = line.split('=')]
    raises [ValueError] unless the line has exactly one [=]. *)
Fixpoint cert_lines (lines : list string) (cert_config : dict string)
  : Res (dict string) :=
  match lines with
  | [] => inr cert_config
  | line :: rest =>
      match Py.split_on "="%char line with
      | [key; value] =>
          cert_lines rest (dict_set (Py.strip key) (Py.strip value) cert_config)
      | _ => inl ValueError
      end
  end.

Definition string_to_cert_config (s : string) : Res (dict string) :=
  cert_lines (Py.split_on "010"%char s) [].

Definition make_cert (cert_config : dict string) (p : path) : M unit :=
  mkdir false (parent p) ;;;
  write_text p (cert_config_to_string cert_config).

Definition cert_of_names (n : Names) : dict string :=
  [ ("LOAD", LOAD_NAME n); ("TICK", TICK_NAME n); ("PRIVATE", PRIVATE_NAME n);
    ("VAR", VAR_NAME n); ("INT", INT_NAME n) ].

Definition get_cert : M (dict string) :=
  let* n := get_names in ret (cert_of_names n).

(** [d.get(k, default)] *)
Definition dict_get_default (k : string) (d : dict string) (dflt : string) : string :=
  default dflt (dict_get k d).

(** The five assignments to the class attributes in [read_cert]. *)
Definition adopt_names (cert_config : dict string) (old : Names) : Names :=
  {| LOAD_NAME := dict_get_default "LOAD" cert_config (LOAD_NAME old);
     TICK_NAME := dict_get_default "TICK" cert_config (TICK_NAME old);
     PRIVATE_NAME := dict_get_default "PRIVATE" cert_config (PRIVATE_NAME old);
     VAR_NAME := dict_get_default "VAR" cert_config (VAR_NAME old);
     INT_NAME := dict_get_default "INT" cert_config (INT_NAME old) |}.

Definition cert_not_found_msg : string :=
  JMC_CERT_FILE_NAME +:+ " file not found in namespace folder." +:+ newline
  +:+ " To prevent accidental overriding of your datapack please delete the namespace folder yourself.".

Definition read_cert (config : dict string) : M unit :=
  let* output := config_get config "output" in
  let* ns := config_get config "namespace" in
  let namespace_folder := Path output // "data" // ns in
  let cert_file := namespace_folder // JMC_CERT_FILE_NAME in
  let* old_names := get_names in
  let* present := is_dir namespace_folder in
  let* cert_config :=
    (if present then
       let* certified := is_file cert_file in
       if negb certified then raise (JMCBuildError cert_not_found_msg)
       else
         let* cert_str := read_text cert_file in
         let* cert_config :=
           lift (except_ValueError (string_to_cert_config cert_str) []) in
         put_names (adopt_names cert_config old_names) ;;;
         let* cert_config := get_cert in
         rmtree namespace_folder ;;;
         ret cert_config
     else ret (cert_of_names old_names)) in
  make_cert cert_config cert_file.

Definition read_header (config : dict string) : M unit :=
  let* target := config_get config "target" in
  let header_file := Path (Py.drop_last 4 target +:+ ".hjmc") in
  let* target' := config_get config "target" in
  let parent_target := parent (Path target') in
  let* found := is_file header_file in
  if found then
    (λ w, (set_header (Header_add_file_read header_file (header w)) w, inr tt)) ;;;
    let* header_str := read_text header_file in
    (λ w, match parse_header header_str header_file parent_target (header w) with
          | inr h => (set_header h w, inr tt)
          | inl e => (w, inl e)
          end)
  else ret tt.

(** [json[k]] *)
Definition json_getitem (j : json) (k : string) : Res json :=
  match j with
  | JObj d => getitem k d
  | _ => inl TypeError
  end.

Fixpoint chars (s : string) : list string :=
  match s with
  | EmptyString => []
  | String c s' => String c EmptyString :: chars s'
  end.

(** [for value in j]: the items of a list, the characters of a string,
    the keys of an object. *)
Definition json_iter (j : json) : Res (list json) :=
  match j with
  | JArr l => inr l
  | JStr s => inr (JStr <$> chars s)
  | JObj d => inr (JStr <$> d.*1)
  | _ => inl TypeError
  end.

(** [[value for value in values
      if not value.startswith(config["namespace"]+':')]] *)
Fixpoint strip_namespace (config : dict string) (values : list json)
  : Res (list json) :=
  match values with
  | [] => inr []
  | value :: rest =>
      match value with
      | JStr s =>
          let? ns := getitem "namespace" config in
          let? rest' := strip_namespace config rest in
          inr (if Py.startswith s (ns +:+ ":") then rest' else value :: rest')
      | _ => inl AttributeError
      end
  end.

(** The body of the [try] of [read_func_tag], after [loads]. *)
Definition strip_tag_values (config : dict string) (j : json) : Res json :=
  let? values := json_getitem j "values" in
  let? values := json_iter values in
  let? kept := strip_namespace config values in
  match j with
  | JObj d => inr (JObj (dict_set "values" (JArr kept) d))
  | _ => inl TypeError
  end.

Definition malformed_json_msg (p : path) : string :=
  "MalformedJsonException: Cannot parse " +:+ as_posix p
  +:+ ". Deleting the file to reset.".

Definition values_not_found_msg (p : path) : string :=
  String "034"%char ("values" +:+ String "034"%char (" key not found in " +:+ as_posix p
  +:+ ". Deleting the file to reset.")).

Definition read_func_tag (p : path) (config : dict string) : M json :=
  let* found := is_file p in
  if found then
    let* content := read_text p in
    match json_loads content with
    | None => raise (JMCBuildError (malformed_json_msg p))
    | Some j =>
        match strip_tag_values config j with
        | inl (KeyError _) => raise (JMCBuildError (values_not_found_msg p))
        | r => lift r
        end
    end
  else ret (JObj [ ("values", JArr []) ]).

(** [j["values"].append(ref)] *)
Definition append_value (j : json) (ref : string) : Res json :=
  let? values := json_getitem j "values" in
  match j, values with
  | JObj d, JArr l => inr (JObj (dict_set "values" (JArr (l ++ [JStr ref])) d))
  | _, _ => inl AttributeError
  end.

(** Lines 181-200 of [build]: the two function tags of the engine. *)
Definition write_function_tags (datapack : DataPack) (config : dict string) : M unit :=
  let* output := config_get config "output" in
  let output_folder := Path output in
  let* ns := config_get config "namespace" in
  let functions_tags_folder :=
    output_folder // "data" // "minecraft" // "tags" // "functions" in
  mkdir true functions_tags_folder ;;;
  let load_tag := functions_tags_folder // "load.json" in
  let tick_tag := functions_tags_folder // "tick.json" in
  let* load_json := read_func_tag load_tag config in
  let* tick_json := read_func_tag tick_tag config in
  let* n := get_names in
  let* ns' := config_get config "namespace" in
  let* load_json := lift (append_value load_json (ns' +:+ ":" +:+ LOAD_NAME n)) in
  write_text load_tag (json_dumps load_json) ;;;
  let* n := get_names in
  if match dict_get (TICK_NAME n) (functions datapack) with
     | Some f => Function_truthy f
     | None => false
     end
  then
    let* ns' := config_get config "namespace" in
    let* tick_json := lift (append_value tick_json (ns' +:+ ":" +:+ TICK_NAME n)) in
    write_text tick_tag (json_dumps tick_json)
  else ret tt.

(** Lines 202-215 of [build]: the files of the namespace. *)
Definition write_namespace_files (datapack : DataPack) (config : dict string) : M unit :=
  let* output := config_get config "output" in
  let* ns := config_get config "namespace" in
  let namespace_folder := Path output // "data" // ns in
  for_each (functions datapack) (λ kv,
    let p := namespace_folder // "functions" // (kv.1 +:+ ".mcfunction") in
    let content := Function_content kv.2 in
    if Py.truthy content then
      mkdir true (parent p) ;;; write_text p content
    else ret tt) ;;;
  for_each (jsons datapack) (λ kv,
    let p := namespace_folder // (kv.1 +:+ ".json") in
    if json_truthy kv.2 then
      mkdir true (parent p) ;;; write_text p (json_dumps kv.2)
    else ret tt).

(** Lines 217-223 of [build]: the file is opened, hence emptied, before
    the manifest is computed. *)
Definition write_pack_mcmeta (config : dict string) : M unit :=
  let* output := config_get config "output" in
  let p := Path output // "pack.mcmeta" in
  write_text p "" ;;;
  let* pack_format := config_get config "pack_format" in
  let* n := lift (match py_int pack_format with
                  | Some n => inr n
                  | None => inl ValueError
                  end) in
  let* description := config_get config "description" in
  write_text p (json_dumps
    (JObj [ ("pack", JObj [ ("pack_format", JNum n);
                             ("description", JStr description) ]) ])).

Definition build (datapack : DataPack) (config : dict string) : M unit :=
  let* n := get_names in
  let datapack := DataPack_build n datapack in
  write_function_tags datapack config ;;;
  write_namespace_files datapack config ;;;
  write_pack_mcmeta config.

(** [Header.clear()] *)
Definition clear_header : M unit := λ w, (set_header Header_clear w, inr tt).

(** [Lexer(config).datapack] *)
Definition run_lexer (config : dict string) : M DataPack :=
  λ w, (w, Lexer config (names w) (header w) (fs w)).

Definition compile (config : dict string) (debug : bool) : M unit :=
  clear_header ;;;
  read_cert config ;;;
  read_header config ;;;
  let* datapack := run_lexer config in
  build datapack config.

End Compile.

(** ** jmc_function_mixin.py *)

Record Item : Type := mkItem {
  item_type : string;
  nbt : string;
  raw_nbt : dict Token
}.

(** The state of a built-in: the evaluated arguments and the token of
    each raw argument ([self.args], [self.raw_args[k].token]). *)
Record JMCFunction : Type := mkJMCFunction {
  args : dict string;
  raw_args : dict Token
}.

(** What the mixins call and is not among the sources. The formatter
    stands for [str(FormattedText(raw, token, tokenizer, datapack,
    is_default_no_italic=True, is_allow_score_selector=False))], and
    [format_text] for [self.format_text(key, is_default_no_italic=True,
    is_allow_score_selector=False)]. *)
Class Builtins : Type := {
  parse_list : Token → Res (list string);
  FormattedText : string → Token → Res string;
  format_text : JMCFunction → string → Res string;
  parse_js_obj : Token → Res (dict Token);
  token_dict_to_raw_js_object : dict Token → Res string;
  hash_string_to_string : string → nat → string;
  private_function_call : string → string → string → string
}.

Section Mixins.
Context {bi : Builtins}.

Definition already_inside (key : string) (token : Token) : exn :=
  JMCValueError (key +:+ " is already inside the nbt") token.

(** [for key, value_token in modify_nbt.items(): ...]: the overlay of the
    overrides, which stops at the first key already present. *)
Fixpoint overlay_nbt (error_token : option Token) (modify_nbt nbt : dict Token)
  : Res (dict Token) :=
  match modify_nbt with
  | [] => inr nbt
  | (key, value_token) :: rest =>
      if dict_mem key nbt
      then inl (already_inside key (default value_token error_token))
      else overlay_nbt error_token rest (dict_set key value_token nbt)
  end.

Definition create_new_item (item : Item) (modify_nbt : option (dict Token))
    (error_token : option Token) : Res Item :=
  let item_type := item_type item in
  let nbt := raw_nbt item in
  let modify_nbt := default [] modify_nbt in
  let? nbt := overlay_nbt error_token modify_nbt nbt in
  let? raw := token_dict_to_raw_js_object nbt in
  inr (mkItem item_type raw nbt).

Definition excluded_key (key : string) : bool :=
  bool_decide (key ∈ ["custom_name"; "lore"]).

(** Lines 98-102 of [create_item]; [final_nbt] is [None] while the local
    variable is unbound. *)
Fixpoint copy_nbt (nbt : dict Token) (final_nbt : option (dict Token))
  : Res (option (dict Token)) :=
  match nbt with
  | [] => inr final_nbt
  | (key, value) :: rest =>
      if excluded_key key then copy_nbt rest final_nbt
      else match final_nbt with
           | None => inl (UnboundLocalError "final_nbt")
           | Some f => copy_nbt rest (Some (dict_set key value f))
           end
  end.

Definition nonempty {A} (l : list A) : bool :=
  match l with [] => false | _ => true end.

(** Lines 57-65 of [create_item]: the formatted lore lines. *)
Definition read_lore (self : JMCFunction) (lore_param : string) : Res (list string) :=
  let? lore_arg := getitem lore_param (args self) in
  if Py.truthy lore_arg then
    let? lore_token := getitem lore_param (raw_args self) in
    let? lores := parse_list lore_token in
    res_map (λ lore,
      let? lore_token := getitem lore_param (raw_args self) in
      FormattedText lore lore_token) lores
  else inr [].

(** Lines 67-68 of [create_item]: the raw NBT object. *)
Definition read_nbt (self : JMCFunction) (nbt_param : string) : Res (dict Token) :=
  let? nbt_arg := getitem nbt_param (args self) in
  if Py.truthy nbt_arg then
    let? nbt_token := getitem nbt_param (raw_args self) in
    parse_js_obj nbt_token
  else inr [].

(** Lines 81-87 of [create_item]: the component of the display name. *)
Definition read_display_name (self : JMCFunction) (display_name_param : string)
  : Res (list string) :=
  let? display_name := getitem display_name_param (args self) in
  if Py.truthy display_name then
    let? name_text := format_text self display_name_param in
    inr (if Py.truthy name_text then ["custom_name=" +:+ name_text] else [])
  else inr [].

Definition strip_minecraft (item_type : string) : string :=
  if Py.startswith item_type "minecraft:" then Py.drop 10 item_type
  else item_type.

Definition create_item (self : JMCFunction)
    (item_type_param display_name_param lore_param nbt_param : string)
    (modify_nbt : option (dict Token)) : Res Item :=
  let modify_nbt := default [] modify_nbt in
  let? item_type := getitem item_type_param (args self) in
  let item_type := strip_minecraft item_type in
  let? lore_json := read_lore self lore_param in
  let? nbt := read_nbt self nbt_param in
  let? nbt := overlay_nbt None modify_nbt nbt in
  let? bracket_components := read_display_name self display_name_param in
  let bracket_components :=
    if nonempty lore_json
    then bracket_components ++ ["lore=[" +:+ Py.join "," lore_json +:+ "]"]
    else bracket_components in
  let bracket_notation :=
    if nonempty bracket_components
    then "[" +:+ Py.join "," bracket_components +:+ "]"
    else "" in
  let final_nbt : option (dict Token) :=
    if nonempty bracket_components then Some [] else None in
  let? final_nbt :=
    (if nonempty nbt then copy_nbt nbt final_nbt else inr final_nbt) in
  match final_nbt with
  | None => inl (UnboundLocalError "final_nbt")
  | Some final_nbt =>
      let? raw := token_dict_to_raw_js_object final_nbt in
      inr (mkItem (item_type +:+ bracket_notation) raw final_nbt)
  end.

(** Modelled from the spec: [JMCFunction.is_never_used], the test of the
    deduplication table keyed by the category and the parameters; the
    first use of a key records it. *)
Definition is_never_used (call_string : string) (parameters : list string)
    (dp : DataPack) : bool * DataPack :=
  if decide ((call_string, parameters) ∈ used_command dp) then (false, dp)
  else (true,
        mkDataPack (namespace dp) (functions dp) (jsons dp) (scoreboards dp)
          (private_functions dp) (ticks dp)
          ({[ (call_string, parameters) ]} ∪ used_command dp)).

(** Modelled from the spec: [DataPack.add_objective], which registers an
    objective with its criterion. *)
Definition add_objective (objective criteria : string) (dp : DataPack) : DataPack :=
  mkDataPack (namespace dp) (functions dp) (jsons dp)
    (<[objective := criteria]> (scoreboards dp))
    (private_functions dp) (ticks dp) (used_command dp).

Definition set_private_function (name count : string) (commands : list string)
    (dp : DataPack) : DataPack :=
  mkDataPack (namespace dp) (functions dp) (jsons dp) (scoreboards dp)
    (<[name := <[count := commands]> (default ∅ (private_functions dp !! name))]>
       (private_functions dp))
    (ticks dp) (used_command dp).

(** Modelled from the spec: [DataPack.add_raw_private_function], which
    registers the commands as the private function [count] of the
    category [name] and returns the call of that function (the external
    [private_function_call] of the namespace, the category and the key). *)
Definition add_raw_private_function (name : string) (commands : list string)
    (count : string) (dp : DataPack) : string * DataPack :=
  (private_function_call (namespace dp) name count,
   set_private_function name count commands dp).

(** Modelled from the spec: [DataPack.add_tick_command], which appends
    to the commands run every tick. *)
Definition add_tick_command (command : string) (dp : DataPack) : DataPack :=
  mkDataPack (namespace dp) (functions dp) (jsons dp) (scoreboards dp)
    (private_functions dp) (ticks dp ++ [command]) (used_command dp).

Definition add_events (criteria : string) (commands : list string)
    (dp : DataPack) : Res DataPack :=
  let criteria := Py.replace "minecraft." "" criteria in
  let count := Py.replace ":" "_" (Py.lower criteria) in
  let '(never_used, dp) := is_never_used "on_event" [criteria] dp in
  if never_used then
    let objective := "on_event_" +:+ hash_string_to_string criteria 7 in
    let dp := add_objective objective criteria dp in
    let '(func_call, dp) :=
      add_raw_private_function "on_event"
        (("scoreboard players set @s " +:+ objective +:+ " 0") :: commands)
        count dp in
    inr (add_tick_command
           ("execute as @a[scores={" +:+ objective +:+ "=1..}] at @s run "
            +:+ func_call) dp)
  else
    match private_functions dp !! "on_event" with
    | None => inl (KeyError "on_event")
    | Some category =>
        match category !! count with
        | None => inl (KeyError count)
        | Some func =>
            inr (set_private_function "on_event" count (func ++ commands) dp)
        end
    end.

Definition add_event (criteria command : string) (dp : DataPack) : Res DataPack :=
  add_events criteria [command] dp.

End Mixins.

(** ** Sample instances of the external parts

    Small stand-ins for the parts that are not among the sources, to run
    the embedding on concrete inputs. *)

Definition dquote : string := String "034"%char EmptyString.

Definition quoted (s : string) : string := dquote +:+ s +:+ dquote.

Definition sample_text (s : string) : string :=
  "{" +:+ quoted "text" +:+ ":" +:+ quoted s +:+ "," +:+ quoted "italic" +:+ ":false}".

Definition sample_token (s : string) : Token := mkToken STRING s 1 1.

Definition sample_builtins : Builtins := {|
  parse_list := λ t, inr (Py.split_on ","%char (token_string t));
  FormattedText := λ s _, inr (sample_text s);
  format_text := λ self key, let? s := getitem key (args self) in inr (sample_text s);
  parse_js_obj := λ t,
    inr ((λ k, (k, sample_token k)) <$> Py.split_on ","%char (token_string t));
  token_dict_to_raw_js_object := λ d,
    inr ("{" +:+ Py.join "," ((λ kv, kv.1 +:+ ":" +:+ token_string kv.2) <$> d) +:+ "}");
  hash_string_to_string := λ s n, String.substring 0 n (Py.lower s);
  private_function_call := λ ns name count,
    "function " +:+ ns +:+ ":__private__/" +:+ name +:+ "/" +:+ count
|}.

Definition empty_datapack (ns : string) : DataPack :=
  mkDataPack ns [] [] ∅ ∅ [] ∅.

(** Sample instance of the parts [compile.py] imports. A tag file is
    written as [values=a,b,...], [{}] is the object without fields and
    anything else does not parse; the lexer turns the lines of the target
    file into the commands of the function [main]. *)

Fixpoint digits (s : string) (acc : Z) : option Z :=
  match s with
  | EmptyString => Some acc
  | String c s' =>
      match Ascii.is_nat c with
      | Some d => digits s' (10 * acc + Z.of_nat d)%Z
      | None => None
      end
  end.

Definition sample_int (s : string) : option Z :=
  match s with EmptyString => None | _ => digits s 0 end.

Definition sample_json_atom (j : json) : string :=
  match j with
  | JStr s => s
  | JArr l => Py.join "," ((λ x, match x with JStr s => s | _ => "?" end) <$> l)
  | _ => "?"
  end.

Definition sample_dumps (j : json) : string :=
  match j with
  | JObj d => Py.join ";" ((λ kv, kv.1 +:+ "=" +:+ sample_json_atom kv.2) <$> d)
  | _ => sample_json_atom j
  end.

Definition sample_loads (s : string) : option json :=
  if Py.startswith s "values=" then
    Some (JObj [ ("values", JArr (JStr <$> Py.split_on ","%char (Py.drop 7 s))) ])
  else if bool_decide (s = "{}") then Some (JObj [])
  else None.

Definition sample_lexer (config : dict string) (n : Names) (h : unit) (t : node)
  : Res DataPack :=
  let? target := getitem "target" config in
  let? ns := getitem "namespace" config in
  match fs_lookup (Path target) t with
  | Some (File source) =>
      inr (mkDataPack ns [ ("main", Py.split_on "010"%char source) ] [] ∅ ∅ [] ∅)
  | _ => inl (OSError FileNotFoundError)
  end.

Definition sample_externals : Externals := {|
  Header := unit;
  Header_clear := tt;
  Header_add_file_read := λ _ h, h;
  parse_header := λ _ _ _ h, inr h;
  Lexer := sample_lexer;
  DataPack_build := λ _ dp, dp;
  json_loads := sample_loads;
  json_dumps := sample_dumps;
  py_int := sample_int
|}.

Definition sample_names : Names :=
  mkNames "__load__" "__tick__" "__private__" "__variable__" "__int__".

Definition sample_config : dict string :=
  [ ("target", "main.jmc"); ("output", "out"); ("namespace", "this_ns");
    ("pack_format", "10"); ("description", "sample") ].

Definition sample_tag_folder (load tick : option string) : gmap string node :=
  list_to_map
    (omap (λ kv, (λ s, (kv.1, File s)) <$> kv.2)
       [ ("load.json", load); ("tick.json", tick) ]).

(** A tree with the source [main.jmc] and the output folder [out]: the
    namespace [this_ns] with the given entries, when there are any, and
    the folder of the function tags with the two tag files. *)
Definition sample_tree (entries : option (gmap string node))
    (load tick : option string) : node :=
  let tags : gmap string node :=
    {[ "minecraft" := Dir {[ "tags" := Dir {[ "functions" :=
         Dir (sample_tag_folder load tick) ]} ]} ]} in
  Dir {[ "main.jmc" := File "say hi";
         "out" := Dir {[ "data" :=
           Dir match entries with
               | Some e => <[ "this_ns" := Dir e ]> tags
               | None => tags
               end ]} ]}.

Definition sample_world (t : node) : World (ext := sample_externals) :=
  mkWorld (ext := sample_externals) t sample_names tt [].

Definition sample_namespace : path := ["out"; "data"; "this_ns"].

Definition sample_tag_path : path :=
  ["out"; "data"; "minecraft"; "tags"; "functions"].

(** The certificate of an earlier build with names of its own. *)
Definition earlier_names : Names := mkNames "load" "tick" "private" "var" "int".

Definition earlier_cert : string :=
  "LOAD=load" +:+ String "010"%char
  ("TICK=tick" +:+ String "010"%char
  ("PRIVATE=private" +:+ String "010"%char
  ("VAR=var" +:+ String "010"%char "INT=int"))).

Definition certified_entries : gmap string node :=
  {[ "jmc.txt" := File earlier_cert; "old.txt" := File "x" ]}.

Definition malformed_entries : gmap string node :=
  {[ "jmc.txt" := File "LOAD"; "old.txt" := File "x" ]}.

Definition uncertified_entries : gmap string node :=
  {[ "old.txt" := File "x" ]}.

Definition world_certified : World (ext := sample_externals) :=
  sample_world (sample_tree (Some certified_entries)
    (Some "values=other_ns:foo,this_ns:old")
    (Some "values=this_ns:tick,other_ns:t")).

Definition world_malformed : World (ext := sample_externals) :=
  sample_world (sample_tree (Some malformed_entries) None None).

Definition world_uncertified : World (ext := sample_externals) :=
  sample_world (sample_tree (Some uncertified_entries) None None).

(** An output model with a tick function, and one without. *)
Definition datapack_with_tick : DataPack :=
  mkDataPack "this_ns" [ ("main", ["say hi"]); ("__tick__", ["say tick"]) ]
    [] ∅ ∅ [] ∅.

Definition datapack_without_tick : DataPack :=
  mkDataPack "this_ns" [ ("main", ["say hi"]) ] [] ∅ ∅ [] ∅.

(** Arguments of the item built-in. *)
Definition stick_named : JMCFunction :=
  mkJMCFunction
    [ ("itemType", "minecraft:stick"); ("displayName", "Excalibur");
      ("lore", ""); ("nbt", "") ]
    [ ("displayName", sample_token "Excalibur") ].

Definition stick_named_nbt : JMCFunction :=
  mkJMCFunction
    [ ("itemType", "minecraft:stick"); ("displayName", "Excalibur");
      ("lore", ""); ("nbt", "{...}") ]
    [ ("displayName", sample_token "Excalibur");
      ("nbt", sample_token "custom_name,Damage") ].

Definition stick_plain : JMCFunction :=
  mkJMCFunction
    [ ("itemType", "stick"); ("displayName", ""); ("lore", ""); ("nbt", "") ]
    [].

Definition damaged_item : Item :=
  mkItem "stick" "{Damage:1}" [ ("Damage", sample_token "1") ].

(** ** Notions used in the statements *)

(** Does the character occur in the string? *)
Fixpoint occurs (c : ascii) (s : string) : bool :=
  match s with
  | EmptyString => false
  | String d s' => Ascii.eqb d c || occurs c s'
  end.

(** A string that is empty or starts with a character that is no blank. *)
Definition no_lead (s : string) : Prop :=
  match s with
  | EmptyString => True
  | String c _ => Py.is_space c = false
  end.

(** A reserved name that a certificate line can carry: no [=], no line
    break, no blank at either end. *)
Definition clean_name (v : string) : Prop :=
  occurs "="%char v = false ∧ occurs "010"%char v = false ∧ Py.strip v = v.

(** The merge of a tag file in the words of the specification: the
    entries of this namespace are removed, the others are kept as they
    are, and the reference of this compilation is appended. *)
Definition merged_values (ns : string) (existing : list string) (ref : string)
  : list string :=
  filter (λ v, Py.startswith v (ns +:+ ":") = false) existing ++ [ref].

(** The object with the field [values] set to the given entries. *)
Definition with_values (d : dict json) (entries : list string) : json :=
  JObj (dict_set "values" (JArr (JStr <$> entries)) d).

Section TagStates.
Context {ext : Externals}.

(** A tag file that is either missing, or an object (fields [d]) whose
    [values] is a list of strings [vs]. *)
Definition tag_entries (t : node) (p : path) (d : dict json) (vs : list string)
  : Prop :=
  (fs_lookup p t = None ∧ d = [] ∧ vs = [])
  ∨ (∃ s, fs_lookup p t = Some (File s)
          ∧ json_loads s = Some (JObj d)
          ∧ dict_get "values" d = Some (JArr (JStr <$> vs))).

(** A tag file that does not parse, or parses to an object without
    [values]. *)
Definition tag_broken (t : node) (p : path) : Prop :=
  ∃ s, fs_lookup p t = Some (File s)
       ∧ (json_loads s = None
          ∨ ∃ d, json_loads s = Some (JObj d) ∧ dict_get "values" d = None).

Definition has_tick_function (n : Names) (dp : DataPack) : bool :=
  match dict_get (TICK_NAME n) (functions dp) with
  | Some f => Function_truthy f
  | None => false
  end.

End TagStates.

(** The order the specification gives to the protocol: whatever is
    written into the namespace, the certificate apart, is written before
    the certificate is. *)
Definition cert_written_last (namespace_folder cert_file : path) (tr : list event)
  : Prop :=
  ∀ i j p s s',
    tr !! i = Some (EvWrite cert_file s) →
    tr !! j = Some (EvWrite p s') →
    namespace_folder `prefix_of` p → p ≠ cert_file → j < i.

Section Traces.
Context {ext : Externals}.

(** A computation that only adds to the log of effects. *)
Definition trace_grows {A} (m : M A) : Prop :=
  ∀ w, trace w `prefix_of` trace (m w).1.

End Traces.

Section EventNames.
Context {bi : Builtins}.

(** The criterion after the vendor prefix is removed, the key of the
    private function, the objective and its two commands. *)
Definition event_criteria (criteria : string) : string :=
  Py.replace "minecraft." "" criteria.

Definition event_count (criteria : string) : string :=
  Py.replace ":" "_" (Py.lower (event_criteria criteria)).

Definition event_objective (criteria : string) : string :=
  "on_event_" +:+ hash_string_to_string (event_criteria criteria) 7.

Definition event_reset (criteria : string) : string :=
  "scoreboard players set @s " +:+ event_objective criteria +:+ " 0".

Definition event_dispatch (ns criteria : string) : string :=
  "execute as @a[scores={" +:+ event_objective criteria +:+ "=1..}] at @s run "
  +:+ private_function_call ns "on_event" (event_count criteria).

Definition on_event_functions (dp : DataPack) : gmap string (list string) :=
  default ∅ (private_functions dp !! "on_event").

End EventNames.

(** ** Notions and sample inputs of the further properties *)

(** The content of the file at [q], when a file is there. *)
Definition file_at (q : path) (t : node) : option string :=
  match fs_lookup q t with
  | Some (File s) => Some s
  | _ => None
  end.

(** A configuration whose target is not in the sample tree: the sample
    lexer rejects it. *)
Definition config_absent_target : dict string :=
  [ ("target", "absent.jmc"); ("output", "out"); ("namespace", "this_ns");
    ("pack_format", "10"); ("description", "sample") ].

(** The sample tree before any build: no namespace folder yet; and one
    where a regular file has the name of the namespace. *)
Definition world_fresh : World (ext := sample_externals) :=
  sample_world (sample_tree None None None).

Definition world_namespace_is_file : World (ext := sample_externals) :=
  sample_world
    (Dir {[ "main.jmc" := File "say hi";
            "out" := Dir {[ "data" := Dir {[ "this_ns" := File "x" ]} ]} ]}).

(** The sample parts with a [json.loads] that also knows the array [[]]
    and an object whose [values] holds a number. *)
Definition odd_loads (s : string) : option json :=
  if bool_decide (s = "[]") then Some (JArr [])
  else if bool_decide (s = "values=1") then
    Some (JObj [ ("values", JArr [JNum 1]) ])
  else sample_loads s.

Definition odd_externals : Externals := {|
  Header := unit;
  Header_clear := tt;
  Header_add_file_read := λ _ h, h;
  parse_header := λ _ _ _ h,
    inl (JMCSyntaxError "bad header" (sample_token "#"));
  Lexer := sample_lexer;
  DataPack_build := λ _ dp, dp;
  json_loads := odd_loads;
  json_dumps := sample_dumps;
  py_int := sample_int
|}.

Definition odd_world (load : string) : World (ext := odd_externals) :=
  mkWorld (ext := odd_externals)
    (sample_tree None (Some load) None) sample_names tt [].

(** A tree with a header file next to the source. *)
Definition tree_with_header : node :=
  Dir {[ "main.jmc" := File "say hi"; "main.hjmc" := File "#define A" ]}.

(** An output model in which every criterion that was bound has its
    private function. *)
Definition events_consistent (dp : DataPack) : Prop :=
  ∀ criteria,
    ("on_event", [criteria]) ∈ used_command dp →
    is_Some (on_event_functions dp !! Py.replace ":" "_" (Py.lower criteria)).

Definition item_with_overrides : JMCFunction :=
  mkJMCFunction
    [ ("itemType", "minecraft:stick"); ("displayName", "");
      ("lore", "a,b"); ("nbt", "{...}") ]
    [ ("lore", sample_token "a,b"); ("nbt", sample_token "Damage,lore") ].

(** * Properties *)

(** ** The string primitives on small inputs *)

Example split_cert_line :
  Py.split_on "="%char "LOAD=__load__" = ["LOAD"; "__load__"].
Proof. reflexivity. Qed.

Example split_three : Py.split_on "="%char "a=b=c" = ["a"; "b"; "c"].
Proof. reflexivity. Qed.

Example split_empty : Py.split_on "="%char "" = [""].
Proof. reflexivity. Qed.

Example strip_both : Py.strip "  a b  " = "a b".
Proof. reflexivity. Qed.

Example replace_vendor :
  Py.replace "minecraft." "" "minecraft.custom:minecraft.jump" = "custom:jump".
Proof. reflexivity. Qed.

Example replace_no_overlap : Py.replace "aa" "b" "aaa" = "ba".
Proof. reflexivity. Qed.

Example lower_colon :
  Py.replace ":" "_" (Py.lower "Custom:Jump") = "custom_jump".
Proof. reflexivity. Qed.

Example cert_of_earlier_names :
  cert_config_to_string (cert_of_names earlier_names) = earlier_cert.
Proof. reflexivity. Qed.

Example cert_with_empty_line_is_malformed :
  string_to_cert_config ("LOAD=a" +:+ newline) = inl ValueError.
Proof. reflexivity. Qed.

Example path_of_string : Path "./out//pack/" = ["out"; "pack"].
Proof. reflexivity. Qed.

(** ** Dictionaries *)

Section DictFacts.
Context {V : Type}.
Implicit Types (d : list (string * V)) (k : string) (v : V).

Lemma dict_get_set_eq k v d : dict_get k (dict_set k v d) = Some v.
Proof.
  induction d as [|[k' v'] d IH]; simpl.
  - by rewrite String.eqb_refl.
  - destruct (String.eqb k' k) eqn:E; simpl; rewrite E; done.
Qed.

Lemma dict_get_set_ne k k' v d :
  k ≠ k' → dict_get k' (dict_set k v d) = dict_get k' d.
Proof.
  intros Hne. induction d as [|[k0 v0] d IH]; simpl.
  - destruct (String.eqb k k') eqn:E; [|done].
    apply String.eqb_eq in E. done.
  - destruct (String.eqb k0 k) eqn:E; simpl.
    + apply String.eqb_eq in E. subst k0.
      destruct (String.eqb k k') eqn:E'; [|done].
      apply String.eqb_eq in E'. done.
    + by rewrite IH.
Qed.

Lemma dict_get_None k d : dict_get k d = None ↔ k ∉ d.*1.
Proof.
  induction d as [|[k' v'] d IH]; simpl.
  - split; [intros _; apply not_elem_of_nil | done].
  - rewrite not_elem_of_cons. destruct (String.eqb k' k) eqn:E.
    + apply String.eqb_eq in E. split; [done | intros [? _]; congruence].
    + apply String.eqb_neq in E. rewrite IH. split; [intros Hd; split; [congruence | done] | by intros [_ Hd]].
Qed.

Lemma dict_mem_true k d : dict_mem k d = true ↔ k ∈ d.*1.
Proof.
  unfold dict_mem. destruct (dict_get k d) eqn:E.
  - split; [intros _ | done].
    destruct (decide (k ∈ d.*1)) as [|Hn]; [done|].
    apply dict_get_None in Hn. congruence.
  - apply dict_get_None in E. split; [done | intros; contradiction].
Qed.

Lemma dict_set_fresh k v d : k ∉ d.*1 → dict_set k v d = d ++ [(k, v)].
Proof.
  induction d as [|[k' v'] d IH]; simpl; [done|].
  rewrite not_elem_of_cons. intros [Hne Hd].
  destruct (String.eqb k' k) eqn:E.
  - apply String.eqb_eq in E. congruence.
  - by rewrite IH.
Qed.

End DictFacts.

(** ** Item construction *)

Section ItemFacts.
Context {bi : Builtins}.

Lemma overlay_nbt_conflict error_token (modify_nbt nbt : dict Token) :
  NoDup modify_nbt.*1 →
  (∃ k, k ∈ modify_nbt.*1 ∧ dict_mem k nbt = true) →
  ∃ k v, (k, v) ∈ modify_nbt ∧ dict_mem k nbt = true ∧
    overlay_nbt error_token modify_nbt nbt
    = inl (already_inside k (default v error_token)).
Proof.
  revert nbt. induction modify_nbt as [|[key value] rest IH]; intros nbt Hnd [k [Hk Hin]].
  - by apply elem_of_nil in Hk.
  - simpl in *. apply NoDup_cons in Hnd as [Hfresh Hnd].
    destruct (dict_mem key nbt) eqn:Hmem.
    + exists key, value. split; [left | done].
    + apply elem_of_cons in Hk as [-> | Hk]; [congruence|].
      assert (k ≠ key) as Hne by (intros ->; done).
      destruct (IH (dict_set key value nbt) Hnd) as (k' & v' & Hkv & Hmem' & Hres).
      { exists k. split; [done|]. unfold dict_mem in *.
        by rewrite dict_get_set_ne. }
      exists k', v'. split; [by right|]. split; [|done].
      assert (k' ≠ key) as Hne'.
      { intros ->. apply Hfresh. apply list_elem_of_fmap. by exists (key, v'). }
      unfold dict_mem in *. by rewrite dict_get_set_ne in Hmem'.
Qed.

Lemma copy_nbt_unbound (nbt : dict Token) (f : dict Token) :
  copy_nbt nbt None ≠ inr (Some f).
Proof.
  induction nbt as [|[key value] rest IH]; simpl; [done|].
  by destruct (excluded_key key).
Qed.

Lemma copy_nbt_bound (nbt f : dict Token) :
  NoDup (f.*1 ++ nbt.*1) →
  copy_nbt nbt (Some f)
  = inr (Some (f ++ filter (λ kv, excluded_key kv.1 = false) nbt)).
Proof.
  revert f. induction nbt as [|[key value] rest IH]; intros f Hnd; simpl in Hnd.
  - simpl. by rewrite app_nil_r.
  - rewrite filter_cons. simpl. destruct (excluded_key key) eqn:E.
    + rewrite decide_False by done. apply IH.
      apply NoDup_app in Hnd as (H1 & H2 & H3). apply NoDup_app.
      split; [done|]. apply NoDup_cons in H3 as [_ H3]. split; [|done].
      intros x Hx Hx'. apply (H2 x Hx). by right.
    + rewrite decide_True by done.
      apply NoDup_app in Hnd as (H1 & H2 & H3).
      apply NoDup_cons in H3 as [H3 H4].
      rewrite dict_set_fresh by (intros Hin; apply (H2 key Hin); left).
      rewrite IH.
      * by rewrite <- app_assoc.
      * rewrite fmap_app. simpl. apply NoDup_app. split; [|split; [|done]].
        -- apply NoDup_app. split; [done|]. split; [|apply NoDup_singleton].
           intros x Hx Hx'. apply list_elem_of_singleton in Hx' as ->.
           apply (H2 key Hx). left.
        -- intros x Hx Hx'. apply elem_of_app in Hx as [Hx | Hx].
           ++ apply (H2 x Hx). by right.
           ++ apply list_elem_of_singleton in Hx as ->. done.
Qed.

(** The item built when a display name is given and formats to a
    non-empty text: the components go into the bracket suffix and the raw
    NBT is stored without its [custom_name] and [lore] entries. *)
Lemma create_item_named (self : JMCFunction)
    (item_type_param display_name_param lore_param nbt_param : string)
    (ty display_name name_text raw : string) (lore_json : list string)
    (raw_object : dict Token) :
  getitem item_type_param (args self) = inr ty →
  read_lore self lore_param = inr lore_json →
  read_nbt self nbt_param = inr raw_object →
  NoDup raw_object.*1 →
  getitem display_name_param (args self) = inr display_name →
  Py.truthy display_name = true →
  format_text self display_name_param = inr name_text →
  Py.truthy name_text = true →
  token_dict_to_raw_js_object
    (filter (λ kv, excluded_key kv.1 = false) raw_object) = inr raw →
  create_item self item_type_param display_name_param lore_param nbt_param None
  = inr (mkItem
       (strip_minecraft ty +:+ "[" +:+
        Py.join "," (("custom_name=" +:+ name_text) ::
                     (if nonempty lore_json
                      then ["lore=[" +:+ Py.join "," lore_json +:+ "]"]
                      else []))
        +:+ "]")
       raw
       (filter (λ kv, excluded_key kv.1 = false) raw_object)).
Proof.
  intros Hty Hlore Hnbt Hnd Hdn Hdnt Hfmt Hnt Hraw.
  unfold create_item, read_display_name.
  rewrite Hty, Hlore, Hnbt, Hdn. simpl. rewrite Hdnt, Hfmt. simpl. rewrite Hnt.
  assert (copy_nbt raw_object (Some [])
          = inr (Some (filter (λ kv, excluded_key kv.1 = false) raw_object))) as Hcopy
    by (rewrite copy_nbt_bound; [done | by simpl]).
  destruct lore_json as [|l ls]; simpl.
  - destruct raw_object as [|kv rest].
    + simpl. rewrite filter_nil in Hraw. by rewrite Hraw.
    + unfold nonempty. rewrite Hcopy. simpl. by rewrite Hraw.
  - destruct raw_object as [|kv rest].
    + simpl. rewrite filter_nil in Hraw. by rewrite Hraw.
    + unfold nonempty. rewrite Hcopy. simpl. by rewrite Hraw.
Qed.

End ItemFacts.

Section ItemClaims.
Context {bi : Builtins}.

(** C4 (the code departs from it): [create_item] is meant to return an
    Item whenever the display name, the lore and the raw NBT are left
    out. The code binds the local [final_nbt] only inside the branch that
    builds the bracket suffix, so with an empty display name and an empty
    lore it never returns an Item, and it raises [UnboundLocalError]
    as soon as the arguments before it were read without error. *)
Theorem create_item_without_components_raises (self : JMCFunction)
    (item_type_param display_name_param lore_param nbt_param : string)
    (modify_nbt : option (dict Token)) :
  getitem display_name_param (args self) = inr "" →
  getitem lore_param (args self) = inr "" →
  (∀ item, create_item self item_type_param display_name_param lore_param
             nbt_param modify_nbt ≠ inr item)
  ∧ (∀ ty raw_object overlaid,
       getitem item_type_param (args self) = inr ty →
       read_nbt self nbt_param = inr raw_object →
       overlay_nbt None (default [] modify_nbt) raw_object = inr overlaid →
       create_item self item_type_param display_name_param lore_param
         nbt_param modify_nbt = inl (UnboundLocalError "final_nbt")).
Proof.
  intros Hdn Hlore.
  assert (read_lore self lore_param = inr []) as Hrl
    by (unfold read_lore; by rewrite Hlore).
  assert (read_display_name self display_name_param = inr []) as Hrd
    by (unfold read_display_name; by rewrite Hdn).
  assert (∀ overlaid : dict Token,
    (if nonempty overlaid then copy_nbt overlaid None else inr None)
    = inr None ∨
    (if nonempty overlaid then copy_nbt overlaid None else inr None)
    = inl (UnboundLocalError "final_nbt")) as Hcopy.
  { intros overlaid. destruct overlaid as [|kv rest]; [by left|].
    unfold nonempty. generalize (kv :: rest). intros l.
    induction l as [|[key value] l IH]; simpl; [by left|].
    destruct (excluded_key key); [done | by right]. }
  split.
  - intros item. unfold create_item. rewrite Hrl, Hrd.
    destruct (getitem item_type_param (args self)) as [e|ty]; [done|]. simpl.
    destruct (read_nbt self nbt_param) as [e|raw_object]; [done|]. simpl.
    destruct (overlay_nbt None (default [] modify_nbt) raw_object)
      as [e|overlaid]; [done|]. simpl.
    by destruct (Hcopy overlaid) as [-> | ->].
  - intros ty raw_object overlaid Hty Hnbt Hov.
    unfold create_item. rewrite Hrl, Hrd, Hty. simpl. rewrite Hnbt. simpl.
    rewrite Hov. simpl. by destruct (Hcopy overlaid) as [-> | ->].
Qed.

(** C8: a stick named Excalibur without raw NBT becomes the item string
    [stick[custom_name=...]], the [minecraft:] prefix gone; and with a
    display name that formats to a non-empty text, a raw NBT object that
    has its own [custom_name] or [lore] raises nothing: the Item is
    returned and its stored NBT is the raw object without those two
    entries. *)
Theorem create_item_display_name :
  (∀ (self : JMCFunction) (name_text raw : string),
     getitem "itemType" (args self) = inr "minecraft:stick" →
     getitem "displayName" (args self) = inr "Excalibur" →
     getitem "lore" (args self) = inr "" →
     getitem "nbt" (args self) = inr "" →
     format_text self "displayName" = inr name_text →
     Py.truthy name_text = true →
     token_dict_to_raw_js_object [] = inr raw →
     ∃ item,
       create_item self "itemType" "displayName" "lore" "nbt" None = inr item
       ∧ item_type item = "stick[" +:+ "custom_name=" +:+ name_text +:+ "]"
       ∧ Py.startswith (item_type item) "stick[" = true
       ∧ raw_nbt item = [])
  ∧ (∀ (self : JMCFunction)
       (item_type_param display_name_param lore_param nbt_param : string)
       (ty display_name name_text raw : string) (lore_json : list string)
       (raw_object : dict Token),
     getitem item_type_param (args self) = inr ty →
     read_lore self lore_param = inr lore_json →
     read_nbt self nbt_param = inr raw_object →
     NoDup raw_object.*1 →
     getitem display_name_param (args self) = inr display_name →
     Py.truthy display_name = true →
     format_text self display_name_param = inr name_text →
     Py.truthy name_text = true →
     token_dict_to_raw_js_object
       (filter (λ kv, excluded_key kv.1 = false) raw_object) = inr raw →
     ∃ item,
       create_item self item_type_param display_name_param lore_param
         nbt_param None = inr item
       ∧ raw_nbt item = filter (λ kv, excluded_key kv.1 = false) raw_object
       ∧ dict_get "custom_name" (raw_nbt item) = None
       ∧ dict_get "lore" (raw_nbt item) = None
       ∧ (∀ k, excluded_key k = false →
            dict_get k (raw_nbt item) = dict_get k raw_object)).
Proof.
  split.
  - intros self name_text raw Hty Hdn Hlore Hnbt Hfmt Hnt Hraw.
    eexists. split.
    + eapply (create_item_named self _ _ "lore" "nbt" _ _ _ _ [] []); eauto.
      * unfold read_lore. by rewrite Hlore.
      * unfold read_nbt. by rewrite Hnbt.
      * apply NoDup_nil_2.
    + simpl. repeat split; reflexivity.
  - intros self itp dnp lp np ty dn name_text raw lore_json raw_object
      Hty Hlore Hnbt Hnd Hdn Hdnt Hfmt Hnt Hraw.
    eexists. split; [by eapply create_item_named|]. simpl.
    assert (∀ k (d : dict Token),
      dict_get k (filter (λ kv, excluded_key kv.1 = false) d)
      = if excluded_key k then None else dict_get k d) as Hget.
    { intros k d. induction d as [|[k' v'] d IH]; simpl.
      - by destruct (excluded_key k).
      - rewrite filter_cons. simpl. destruct (String.eqb k' k) eqn:E.
        + apply String.eqb_eq in E. subst k'.
          destruct (excluded_key k) eqn:Ek.
          * by rewrite decide_False, IH by done.
          * rewrite decide_True by done. simpl. by rewrite String.eqb_refl.
        + case_decide; simpl; [by rewrite E|done]. }
    split; [done|]. split; [by rewrite Hget|]. split; [by rewrite Hget|].
    intros k Hk. by rewrite Hget, Hk.
Qed.

(** C9: an override whose key is already in the NBT it is laid over is
    refused. Copying an Item ([create_new_item]) and building one with
    overrides ([create_item], once lore and raw NBT were read) both raise
    the value error that names a key of the overrides present in that
    NBT, with the error token when one is given and else the token of
    that override; no Item is returned. *)
Theorem override_of_existing_key_raises (modify_nbt : dict Token) :
  NoDup modify_nbt.*1 →
  (∀ (item : Item) (error_token : option Token),
     (∃ k, k ∈ modify_nbt.*1 ∧ dict_mem k (raw_nbt item) = true) →
     ∃ k v, (k, v) ∈ modify_nbt ∧ dict_mem k (raw_nbt item) = true ∧
       create_new_item item (Some modify_nbt) error_token
       = inl (JMCValueError (k +:+ " is already inside the nbt")
                (default v error_token)))
  ∧ (∀ (self : JMCFunction)
       (item_type_param display_name_param lore_param nbt_param ty : string)
       (lore_json : list string) (raw_object : dict Token),
     getitem item_type_param (args self) = inr ty →
     read_lore self lore_param = inr lore_json →
     read_nbt self nbt_param = inr raw_object →
     (∃ k, k ∈ modify_nbt.*1 ∧ dict_mem k raw_object = true) →
     ∃ k v, (k, v) ∈ modify_nbt ∧ dict_mem k raw_object = true ∧
       create_item self item_type_param display_name_param lore_param
         nbt_param (Some modify_nbt)
       = inl (JMCValueError (k +:+ " is already inside the nbt") v)).
Proof.
  intros Hnd. split.
  - intros item error_token Hex.
    destruct (overlay_nbt_conflict error_token modify_nbt (raw_nbt item) Hnd Hex)
      as (k & v & Hin & Hmem & Hres).
    exists k, v. split; [done|]. split; [done|].
    unfold create_new_item. simpl. by rewrite Hres.
  - intros self itp dnp lp np ty lore_json raw_object Hty Hlore Hnbt Hex.
    destruct (overlay_nbt_conflict None modify_nbt raw_object Hnd Hex)
      as (k & v & Hin & Hmem & Hres).
    exists k, v. split; [done|]. split; [done|].
    unfold create_item. rewrite Hty. simpl. rewrite Hlore. simpl.
    rewrite Hnbt. simpl. by rewrite Hres.
Qed.

End ItemClaims.

(** ** Event binding *)

Section EventFacts.
Context {bi : Builtins}.

Lemma add_events_first (criteria : string) (commands : list string) (dp : DataPack) :
  ("on_event", [event_criteria criteria]) ∉ used_command dp →
  add_events criteria commands dp
  = inr (mkDataPack (namespace dp) (functions dp) (jsons dp)
           (<[event_objective criteria := event_criteria criteria]> (scoreboards dp))
           (<["on_event" := <[event_count criteria :=
                                event_reset criteria :: commands]>
                              (on_event_functions dp)]> (private_functions dp))
           (ticks dp ++ [event_dispatch (namespace dp) criteria])
           ({[ ("on_event", [event_criteria criteria]) ]} ∪ used_command dp)).
Proof.
  intros Hnew. unfold add_events, is_never_used.
  fold (event_criteria criteria). rewrite decide_False by done. reflexivity.
Qed.

Lemma add_events_again (criteria : string) (commands func : list string)
    (dp : DataPack) :
  ("on_event", [event_criteria criteria]) ∈ used_command dp →
  on_event_functions dp !! event_count criteria = Some func →
  add_events criteria commands dp
  = inr (mkDataPack (namespace dp) (functions dp) (jsons dp) (scoreboards dp)
           (<["on_event" := <[event_count criteria := func ++ commands]>
                              (on_event_functions dp)]> (private_functions dp))
           (ticks dp) (used_command dp)).
Proof.
  intros Hused Hfunc. unfold add_events, is_never_used.
  fold (event_criteria criteria). rewrite decide_True by done.
  unfold on_event_functions in *. fold (event_count criteria).
  destruct (private_functions dp !! "on_event") as [category|] eqn:Hcat; simpl in *.
  - rewrite Hfunc. unfold set_private_function. by rewrite Hcat.
  - by rewrite lookup_empty in Hfunc.
Qed.

End EventFacts.

Section EventClaims.
Context {bi : Builtins}.

(** C7: the first binding of a criterion (after [minecraft.] is removed)
    registers the objective [on_event_<hash>] for that criterion, stores
    under the category [on_event] a private function whose first command
    sets the score of [@s] back to 0 and whose other commands are the
    given ones in order, and appends one command to the tick list: it runs
    the call of that private function as every player whose score of the
    objective is in [1..]. *)
Theorem add_events_first_binding (criteria : string) (commands : list string)
    (dp : DataPack) :
  let crit := Py.replace "minecraft." "" criteria in
  let count := Py.replace ":" "_" (Py.lower crit) in
  let objective := "on_event_" +:+ hash_string_to_string crit 7 in
  ("on_event", [crit]) ∉ used_command dp →
  ∃ dp',
    add_events criteria commands dp = inr dp'
    ∧ scoreboards dp' = <[objective := crit]> (scoreboards dp)
    ∧ (private_functions dp' !! "on_event") ≫= (λ category, category !! count)
      = Some (("scoreboard players set @s " +:+ objective +:+ " 0") :: commands)
    ∧ (∀ key, key ≠ count →
         (private_functions dp' !! "on_event") ≫= (λ category, category !! key)
         = (private_functions dp !! "on_event") ≫= (λ category, category !! key))
    ∧ ticks dp'
      = ticks dp ++
        [ "execute as @a[scores={" +:+ objective +:+ "=1..}] at @s run "
          +:+ private_function_call (namespace dp) "on_event" count ]
    ∧ ("on_event", [crit]) ∈ used_command dp'.
Proof.
  intros crit count objective Hnew.
  eexists. split; [by apply add_events_first|]. simpl.
  split; [done|]. split; [|split; [|split; [done|set_solver]]].
  - rewrite lookup_insert_eq. simpl. by rewrite lookup_insert_eq.
  - intros key Hkey. rewrite lookup_insert_eq. simpl.
    rewrite lookup_insert_ne by done. unfold on_event_functions.
    destruct (private_functions dp !! "on_event"); [done|].
    simpl. by rewrite lookup_empty.
Qed.

(** C3: two bindings whose criteria agree once [minecraft.] is removed
    add one objective, one private function of the category [on_event]
    and one tick command to the output model: the second binding leaves
    the objectives and the tick list as the first one made them, and the
    one function holds the score reset, then the commands of the first
    binding, then those of the second. *)
Theorem add_events_same_criteria_merge (criteria1 criteria2 : string)
    (commands1 commands2 : list string) (dp : DataPack) :
  let crit := Py.replace "minecraft." "" criteria1 in
  let count := Py.replace ":" "_" (Py.lower crit) in
  let objective := "on_event_" +:+ hash_string_to_string crit 7 in
  Py.replace "minecraft." "" criteria2 = crit →
  ("on_event", [crit]) ∉ used_command dp →
  ∃ dp1 dp2,
    add_events criteria1 commands1 dp = inr dp1
    ∧ add_events criteria2 commands2 dp1 = inr dp2
    ∧ scoreboards dp2 = <[objective := crit]> (scoreboards dp)
    ∧ scoreboards dp2 = scoreboards dp1
    ∧ default ∅ (private_functions dp2 !! "on_event")
      = <[count := ("scoreboard players set @s " +:+ objective +:+ " 0")
                    :: commands1 ++ commands2]>
          (default ∅ (private_functions dp !! "on_event"))
    ∧ (∀ category, category ≠ "on_event" →
         private_functions dp2 !! category = private_functions dp !! category)
    ∧ ticks dp2
      = ticks dp ++
        [ "execute as @a[scores={" +:+ objective +:+ "=1..}] at @s run "
          +:+ private_function_call (namespace dp) "on_event" count ]
    ∧ ticks dp2 = ticks dp1.
Proof.
  intros crit count objective Hsame Hnew.
  eexists. eexists. split; [by apply add_events_first|].
  split.
  - eapply add_events_again.
    + unfold event_criteria. rewrite Hsame. simpl. set_solver.
    + unfold on_event_functions, event_count, event_criteria. simpl.
      rewrite Hsame, lookup_insert_eq. simpl. apply lookup_insert_eq.
  - simpl. split; [done|]. split; [done|]. split; [|split; [|done]].
    + rewrite lookup_insert_eq. simpl.
      unfold on_event_functions, event_count, event_criteria. simpl.
      rewrite Hsame, lookup_insert_eq. simpl.
      by rewrite insert_insert_eq.
    + intros category Hcat. by rewrite !lookup_insert_ne by done.
Qed.

End EventClaims.

(** ** The file tree *)

Section TreeFacts.
Implicit Types (p : path) (t n : node) (m : gmap string node) (c f s : string).

Lemma fs_lookup_app p q t :
  fs_lookup (p ++ q) t = fs_lookup p t ≫= fs_lookup q.
Proof.
  revert t. induction p as [|c p IH]; intros t; simpl; [done|].
  destruct t as [s|m]; [done|]. destruct (m !! c); [apply IH | done].
Qed.

Lemma fs_lookup_child p c t m :
  fs_lookup p t = Some (Dir m) → fs_lookup (p ++ [c]) t = m !! c.
Proof.
  intros H. rewrite fs_lookup_app, H. simpl. by destruct (m !! c).
Qed.

Lemma fs_lookup_under_file p c t s :
  fs_lookup p t = Some (File s) → fs_lookup (p ++ [c]) t = None.
Proof. intros H. by rewrite fs_lookup_app, H. Qed.

Lemma fs_lookup_under_none p q t :
  fs_lookup p t = None → fs_lookup (p ++ q) t = None.
Proof. intros H. by rewrite fs_lookup_app, H. Qed.

(** [mkdir(parents=True, exist_ok=True)] of a directory that is there
    changes nothing. *)
Lemma fs_mkdir_present p t m :
  fs_lookup p t = Some (Dir m) → fs_mkdir true p t = inr t.
Proof.
  revert t. induction p as [|c p IH]; intros t H; simpl in *.
  - by simplify_eq.
  - destruct t as [s|m0]; [done|]. destruct (m0 !! c) as [n|] eqn:Hc; [|done].
    rewrite (IH n H). by rewrite insert_id.
Qed.

Lemma fs_write_cons c p s m :
  p ≠ [] →
  fs_write (c :: p) s (Dir m)
  = match m !! c with
    | None => inl FileNotFoundError
    | Some n' =>
        match fs_write p s n' with
        | inr n'' => inr (Dir (<[c := n'']> m))
        | inl e => inl e
        end
    end.
Proof. by destruct p. Qed.

Lemma fs_rmtree_cons c p m :
  p ≠ [] →
  fs_rmtree (c :: p) (Dir m)
  = match m !! c with
    | None => inl FileNotFoundError
    | Some n' =>
        match fs_rmtree p n' with
        | inr n'' => inr (Dir (<[c := n'']> m))
        | inl e => inl e
        end
    end.
Proof. by destruct p. Qed.

Lemma fs_mkdir_cons exist_ok c p m :
  fs_mkdir exist_ok (c :: p) (Dir m)
  = match m !! c with
    | None => inr (Dir (<[c := fresh_dirs p]> m))
    | Some n' =>
        match fs_mkdir exist_ok p n' with
        | inr n'' => inr (Dir (<[c := n'']> m))
        | inl e => inl e
        end
    end.
Proof. done. Qed.

Lemma fs_lookup_cons c p m :
  fs_lookup (c :: p) (Dir m)
  = match m !! c with Some n' => fs_lookup p n' | None => None end.
Proof. done. Qed.

(** Writing a file into a directory that is there. *)
Lemma fs_write_child p c s t m :
  fs_lookup p t = Some (Dir m) →
  (∀ m', m !! c ≠ Some (Dir m')) →
  ∃ t', fs_write (p ++ [c]) s t = inr t'
        ∧ fs_lookup p t' = Some (Dir (<[c := File s]> m)).
Proof.
  revert t. induction p as [|c0 p IH]; intros t H Hc; simpl in H.
  - simplify_eq. simpl. destruct (m !! c) as [[?|m']|] eqn:E; eauto.
    by destruct (Hc m').
  - destruct t as [?|m0]; [done|]. destruct (m0 !! c0) as [n|] eqn:Hc0; [|done].
    destruct (IH n H Hc) as (n' & Hw & Hl).
    assert (fs_write ((c0 :: p) ++ [c]) s (Dir m0) = inr (Dir (<[c0 := n']> m0))) as ->.
    { rewrite <- app_comm_cons, fs_write_cons by (by destruct p).
      by rewrite Hc0, Hw. }
    eexists. split; [done|]. simpl. by rewrite lookup_insert_eq.
Qed.

(** Deleting a directory, creating it again and writing one file into it:
    the three steps of [read_cert] on a certified namespace succeed and
    leave the directory with that file alone. *)
Lemma fs_regenerate p f s t m :
  p ≠ [] →
  fs_lookup p t = Some (Dir m) →
  ∃ t1 t2 t3,
    fs_rmtree p t = inr t1
    ∧ fs_mkdir false p t1 = inr t2
    ∧ fs_write (p ++ [f]) s t2 = inr t3
    ∧ fs_lookup p t3 = Some (Dir {[ f := File s ]}).
Proof.
  revert t. induction p as [|c p IH]; intros t Hne H; [done|].
  simpl in H. destruct t as [?|m0]; [done|].
  destruct (m0 !! c) as [n|] eqn:Hc; [|done].
  destruct p as [|c' p'].
  - simpl in H. simplify_eq. simpl. rewrite Hc.
    exists (Dir (delete c m0)). rewrite lookup_delete_eq. simpl.
    exists (Dir (<[c := Dir ∅]> (delete c m0))),
      (Dir (<[c := Dir (<[f := File s]> ∅)]> (<[c := Dir ∅]> (delete c m0)))).
    split; [done|]. split; [done|].
    rewrite !lookup_insert_eq, lookup_empty.
    split; [done|]. by rewrite insert_empty.
  - destruct (IH n) as (n1 & n2 & n3 & H1 & H2 & H3 & H4); [done|done|].
    exists (Dir (<[c := n1]> m0)), (Dir (<[c := n2]> (<[c := n1]> m0))),
      (Dir (<[c := n3]> (<[c := n2]> (<[c := n1]> m0)))).
    split; [|split; [|split]].
    + rewrite fs_rmtree_cons by done. by rewrite Hc, H1.
    + rewrite fs_mkdir_cons. by rewrite lookup_insert_eq, H2.
    + rewrite <- app_comm_cons, fs_write_cons by done.
      by rewrite lookup_insert_eq, H3.
    + rewrite fs_lookup_cons. by rewrite lookup_insert_eq.
Qed.

End TreeFacts.

(** ** Strings: split and strip *)

Section StringFacts.
Implicit Types (s a b w : string) (c sep : ascii).

Lemma append_nil_l s : "" +:+ s = s.
Proof. done. Qed.

Lemma append_cons c a b : String c a +:+ b = String c (a +:+ b).
Proof. done. Qed.

Lemma occurs_app c a b : occurs c (a +:+ b) = occurs c a || occurs c b.
Proof.
  induction a as [|d a IH]; [done|].
  rewrite append_cons. simpl. rewrite IH. by destruct (Ascii.eqb d c).
Qed.

Lemma split_on_nonempty sep s : Py.split_on sep s ≠ [].
Proof.
  destruct s as [|c s]; simpl; [done|].
  destruct (Ascii.eqb c sep); [done|]. by destruct (Py.split_on sep s).
Qed.

Lemma split_on_absent sep s : occurs sep s = false → Py.split_on sep s = [s].
Proof.
  induction s as [|c s IH]; simpl; [done|].
  destruct (Ascii.eqb c sep); [done|]. simpl. intros H. by rewrite IH.
Qed.

Lemma split_on_app sep a b :
  occurs sep a = false →
  Py.split_on sep (a +:+ String sep b) = a :: Py.split_on sep b.
Proof.
  induction a as [|c a IH].
  - intros _. rewrite append_nil_l. simpl. by rewrite Ascii.eqb_refl.
  - rewrite append_cons. simpl. destruct (Ascii.eqb c sep); [done|]. simpl.
    intros H. by rewrite IH.
Qed.

(** No piece of a split holds the separator, and a character that the
    string does not have is in none of the pieces. *)
Lemma split_on_pieces sep s w :
  w ∈ Py.split_on sep s → occurs sep w = false.
Proof.
  revert w. induction s as [|c s IH]; intros w; simpl.
  - intros H. by apply list_elem_of_singleton in H as ->.
  - destruct (Ascii.eqb c sep) eqn:E.
    + intros H. apply elem_of_cons in H as [-> | H]; [done | by apply IH].
    + destruct (Py.split_on sep s) as [|w0 ws]; intros H.
      * apply list_elem_of_singleton in H as ->. simpl. by rewrite E.
      * apply elem_of_cons in H as [-> | H].
        -- simpl. rewrite E. simpl. apply IH. left.
        -- apply IH. by right.
Qed.

Lemma split_on_keeps_absent c sep s w :
  occurs c s = false → w ∈ Py.split_on sep s → occurs c w = false.
Proof.
  revert w. induction s as [|d s IH]; intros w; simpl.
  - intros _ H. by apply list_elem_of_singleton in H as ->.
  - intros Hc. apply orb_false_iff in Hc as [Hd Hc].
    destruct (Ascii.eqb d sep).
    + intros H. apply elem_of_cons in H as [-> | H]; [done | by apply IH].
    + destruct (Py.split_on sep s) as [|w0 ws]; intros H.
      * apply list_elem_of_singleton in H as ->. simpl. by rewrite Hd.
      * apply elem_of_cons in H as [-> | H].
        -- simpl. rewrite Hd. simpl. apply IH; [done | left].
        -- apply IH; [done | by right].
Qed.

Lemma lstrip_keeps_absent c s : occurs c s = false → occurs c (Py.lstrip s) = false.
Proof.
  induction s as [|d s IH]; simpl; [done|].
  intros H. apply orb_false_iff in H as [Hd Hs].
  destruct (Py.is_space d); [by apply IH|]. simpl. by rewrite Hd.
Qed.

Lemma rstrip_keeps_absent c s : occurs c s = false → occurs c (Py.rstrip s) = false.
Proof.
  induction s as [|d s IH]; simpl; [done|].
  intros H. apply orb_false_iff in H as [Hd Hs]. specialize (IH Hs).
  destruct (Py.rstrip s) as [|e r].
  - destruct (Py.is_space d); [done|]. simpl. by rewrite Hd.
  - simpl in *. by rewrite Hd.
Qed.

Lemma strip_keeps_absent c s : occurs c s = false → occurs c (Py.strip s) = false.
Proof. intros H. by apply rstrip_keeps_absent, lstrip_keeps_absent. Qed.

Lemma lstrip_no_lead s : no_lead (Py.lstrip s).
Proof.
  induction s as [|c s IH]; simpl; [done|].
  destruct (Py.is_space c) eqn:E; [done | by simpl].
Qed.

Lemma rstrip_no_lead s : no_lead s → no_lead (Py.rstrip s).
Proof.
  destruct s as [|c s]; simpl; [done|]. intros H.
  destruct (Py.rstrip s); [by rewrite H | done].
Qed.

Lemma lstrip_id s : no_lead s → Py.lstrip s = s.
Proof. destruct s as [|c s]; simpl; [done|]. by intros ->. Qed.

Lemma rstrip_idemp s : Py.rstrip (Py.rstrip s) = Py.rstrip s.
Proof.
  induction s as [|c s IH]; simpl; [done|].
  destruct (Py.rstrip s) as [|d r] eqn:E.
  - destruct (Py.is_space c) eqn:Ec; simpl; [done | by rewrite Ec].
  - change (Py.rstrip (String c (String d r))) with
      (match Py.rstrip (String d r) with
       | EmptyString => if Py.is_space c then EmptyString else String c EmptyString
       | r' => String c r'
       end).
    by rewrite IH.
Qed.

Lemma strip_idemp s : Py.strip (Py.strip s) = Py.strip s.
Proof.
  unfold Py.strip.
  rewrite (lstrip_id (Py.rstrip (Py.lstrip s)))
    by apply rstrip_no_lead, lstrip_no_lead.
  apply rstrip_idemp.
Qed.

End StringFacts.

(** ** The certificate *)

Section CertFacts.
Context {ext : Externals}.

Lemma Path_cert : Path JMC_CERT_FILE_NAME = ["jmc.txt"].
Proof. reflexivity. Qed.

Lemma Path_data : Path "data" = ["data"].
Proof. reflexivity. Qed.

Lemma namespace_folder_nonempty (output ns : string) :
  Path output // "data" // ns ≠ [].
Proof.
  unfold path_join. rewrite Path_data. intros H.
  apply app_eq_nil in H as [H _]. by apply app_eq_nil in H as [_ H].
Qed.

(** [string_to_cert_config] raises nothing but [ValueError]. *)
Lemma cert_lines_error lines c e : cert_lines lines c = inl e → e = ValueError.
Proof.
  revert c. induction lines as [|line rest IH]; intros c; simpl; [done|].
  destruct (Py.split_on "=" line) as [|k [|v [|? ?]]];
    try (intros; by simplify_eq).
  apply IH.
Qed.

(** It raises exactly when some line does not split into two at [=]. *)
Lemma cert_lines_malformed lines c :
  cert_lines lines c = inl ValueError
  ↔ ∃ line, line ∈ lines ∧ length (Py.split_on "=" line) ≠ 2.
Proof.
  revert c. induction lines as [|line rest IH]; intros c; simpl.
  - split; [done|]. intros (line & H & _). by apply elem_of_nil in H.
  - destruct (Py.split_on "=" line) as [|k [|v [|? ?]]] eqn:E.
    1,2,4: split; [intros _|done]; exists line; rewrite E; split; [left|done].
    rewrite IH. split.
    + intros (l & Hl & Hlen). exists l. split; [by right | done].
    + intros (l & Hl & Hlen). apply elem_of_cons in Hl as [-> | Hl].
      * by rewrite E in Hlen.
      * by exists l.
Qed.

Lemma dict_get_set_inv {V} (k k' : string) (v x : V) (d : dict V) :
  dict_get k (dict_set k' v d) = Some x → x = v ∨ dict_get k d = Some x.
Proof.
  destruct (decide (k' = k)) as [-> | Hne].
  - rewrite dict_get_set_eq. intros [= ->]. by left.
  - rewrite dict_get_set_ne by done. by right.
Qed.

(** Every value of a parsed certificate can be written back. *)
Lemma cert_lines_clean lines c cfg :
  (∀ line, line ∈ lines → occurs "010" line = false) →
  (∀ k v, dict_get k c = Some v → clean_name v) →
  cert_lines lines c = inr cfg →
  ∀ k v, dict_get k cfg = Some v → clean_name v.
Proof.
  revert c. induction lines as [|line rest IH]; intros c Hlines Hc; simpl.
  - intros [= <-]. done.
  - destruct (Py.split_on "=" line) as [|key [|value [|? ?]]] eqn:E; try done.
    apply IH.
    + intros l Hl. apply Hlines. by right.
    + intros k v Hget. apply dict_get_set_inv in Hget as [-> | Hget]; [|by eapply Hc].
      assert (value ∈ Py.split_on "=" line) as Hin
        by (rewrite E; right; left).
      split; [|split].
      * apply strip_keeps_absent. by eapply split_on_pieces.
      * apply strip_keeps_absent.
        eapply split_on_keeps_absent; [|done]. apply Hlines. left.
      * apply strip_idemp.
Qed.

Lemma string_to_cert_config_clean s cfg k v :
  string_to_cert_config s = inr cfg → dict_get k cfg = Some v → clean_name v.
Proof.
  intros Hparse. eapply cert_lines_clean; [| |exact Hparse].
  - intros line. apply split_on_pieces.
  - done.
Qed.

(** Reading back the certificate that was written for clean names gives
    these names. *)
Lemma cert_roundtrip (n : Names) :
  clean_name (LOAD_NAME n) → clean_name (TICK_NAME n) →
  clean_name (PRIVATE_NAME n) → clean_name (VAR_NAME n) →
  clean_name (INT_NAME n) →
  string_to_cert_config (cert_config_to_string (cert_of_names n))
  = inr (cert_of_names n).
Proof.
  destruct n as [l t p v i]. simpl.
  intros (Hl1 & Hl2 & Hl3) (Ht1 & Ht2 & Ht3) (Hp1 & Hp2 & Hp3)
    (Hv1 & Hv2 & Hv3) (Hi1 & Hi2 & Hi3).
  unfold string_to_cert_config, cert_config_to_string, cert_of_names, Py.join.
  cbn [map String.concat fst snd LOAD_NAME TICK_NAME PRIVATE_NAME VAR_NAME INT_NAME].
  unfold newline.
  assert (∀ key value rest,
    occurs "010" key = false → occurs "010" value = false →
    Py.split_on "010" ((key +:+ "=" +:+ value) +:+ String "010" "" +:+ rest)
    = (key +:+ "=" +:+ value) :: Py.split_on "010" rest) as Hsplit.
  { intros key value rest Hk Hv.
    change (String "010" "" +:+ rest) with (String "010"%char rest).
    apply split_on_app. rewrite !occurs_app, Hk, Hv. done. }
  rewrite !Hsplit by done.
  rewrite (split_on_absent "010" ("INT" +:+ "=" +:+ i))
    by (by rewrite !occurs_app, Hi2).
  assert (∀ key value,
    occurs "=" key = false → occurs "=" value = false →
    Py.split_on "=" (key +:+ "=" +:+ value) = [key; value]) as Hline.
  { intros key value Hk Hv.
    change ("=" +:+ value) with (String "="%char value).
    rewrite split_on_app by done. by rewrite split_on_absent. }
  cbn [cert_lines]. rewrite !Hline by done.
  rewrite Hl3, Ht3, Hp3, Hv3, Hi3. reflexivity.
Qed.

Lemma adopt_cert_of_names (n old : Names) :
  adopt_names (cert_of_names n) old = n.
Proof. by destruct n. Qed.

Lemma adopt_nothing (old : Names) : adopt_names [] old = old.
Proof. by destruct old. Qed.

Lemma adopt_names_five cfg old l t p v i :
  dict_get "LOAD" cfg = Some l → dict_get "TICK" cfg = Some t →
  dict_get "PRIVATE" cfg = Some p → dict_get "VAR" cfg = Some v →
  dict_get "INT" cfg = Some i →
  adopt_names cfg old = mkNames l t p v i.
Proof.
  intros H1 H2 H3 H4 H5. unfold adopt_names, dict_get_default.
  by rewrite H1, H2, H3, H4, H5.
Qed.

End CertFacts.

(** ** The log of effects only grows *)

Section TraceFacts.
Context {ext : Externals}.

Lemma grows_ret {A} (a : A) : trace_grows (ret a).
Proof. intros w. done. Qed.

Lemma grows_raise {A} (e : exn) : trace_grows (raise (A := A) e).
Proof. intros w. done. Qed.

Lemma grows_lift {A} (r : Res A) : trace_grows (lift r).
Proof. intros w. done. Qed.

Lemma grows_bind {A B} (m : M A) (f : A → M B) :
  trace_grows m → (∀ a, trace_grows (f a)) → trace_grows (bind m f).
Proof.
  intros Hm Hf w. unfold bind. specialize (Hm w).
  destruct (m w) as [w' [e|a]]; simpl in *; [done|].
  etrans; [exact Hm | apply Hf].
Qed.

Lemma grows_log (e : event) (w : World) : trace w `prefix_of` trace (log e w).
Proof. simpl. by apply prefix_app_r. Qed.

Lemma grows_is_dir p : trace_grows (is_dir p).
Proof. intros w. apply grows_log. Qed.

Lemma grows_is_file p : trace_grows (is_file p).
Proof. intros w. apply grows_log. Qed.

Lemma grows_read_text p : trace_grows (read_text p).
Proof.
  intros w. unfold read_text.
  destruct (fs_lookup p (fs w)) as [[?|?]|]; try done. apply grows_log.
Qed.

Lemma grows_rmtree p : trace_grows (rmtree p).
Proof.
  intros w. unfold rmtree. destruct (fs_rmtree p (fs w)); [done|].
  simpl. by apply prefix_app_r.
Qed.

Lemma grows_mkdir b p : trace_grows (mkdir b p).
Proof.
  intros w. unfold mkdir. destruct (fs_mkdir b p (fs w)); [done|].
  simpl. by apply prefix_app_r.
Qed.

Lemma grows_write_text p s : trace_grows (write_text p s).
Proof.
  intros w. unfold write_text. destruct (fs_write p s (fs w)); [done|].
  simpl. by apply prefix_app_r.
Qed.

Lemma grows_for_each {A} (l : list A) (body : A → M unit) :
  (∀ x, trace_grows (body x)) → trace_grows (for_each l body).
Proof.
  intros H. induction l as [|x l IH]; simpl; [apply grows_ret|].
  apply grows_bind; [apply H | by intros _].
Qed.

Lemma grows_get_names : trace_grows get_names.
Proof. intros w. done. Qed.

Lemma grows_config_get config k : trace_grows (config_get config k).
Proof. apply grows_lift. Qed.

Lemma grows_read_func_tag p config : trace_grows (read_func_tag p config).
Proof.
  unfold read_func_tag. apply grows_bind; [apply grows_is_file|].
  intros [|]; [|apply grows_ret].
  apply grows_bind; [apply grows_read_text|]. intros content.
  destruct (json_loads content) as [j|]; [|apply grows_raise].
  destruct (strip_tag_values config j) as [[]|]; first [apply grows_raise | apply grows_lift].
Qed.

Lemma grows_read_header config : trace_grows (read_header config).
Proof.
  unfold read_header.
  apply grows_bind; [apply grows_config_get|]. intros target.
  apply grows_bind; [apply grows_config_get|]. intros target'.
  apply grows_bind; [apply grows_is_file|]. intros [|]; [|apply grows_ret].
  apply grows_bind; [by intros w|]. intros _.
  apply grows_bind; [apply grows_read_text|]. intros header_str w.
  by destruct (parse_header _ _ _ _).
Qed.

Lemma grows_write_function_tags dp config :
  trace_grows (write_function_tags dp config).
Proof.
  unfold write_function_tags.
  repeat first
    [ apply grows_bind; [first [ apply grows_config_get | apply grows_mkdir
                                | apply grows_read_func_tag | apply grows_get_names
                                | apply grows_lift | apply grows_write_text ]|]; intros ? ].
  destruct (match dict_get _ _ with Some f => _ | None => _ end); [|apply grows_ret].
  repeat first
    [ apply grows_bind; [first [ apply grows_config_get | apply grows_lift ]|]; intros ? ].
  apply grows_write_text.
Qed.

Lemma grows_write_namespace_files dp config :
  trace_grows (write_namespace_files dp config).
Proof.
  unfold write_namespace_files.
  apply grows_bind; [apply grows_config_get|]. intros output.
  apply grows_bind; [apply grows_config_get|]. intros ns.
  apply grows_bind; [|intros _]; apply grows_for_each; intros [k v]; simpl.
  - destruct (Py.truthy _); [|apply grows_ret].
    apply grows_bind; [apply grows_mkdir | intros _; apply grows_write_text].
  - destruct (json_truthy _); [|apply grows_ret].
    apply grows_bind; [apply grows_mkdir | intros _; apply grows_write_text].
Qed.

Lemma grows_write_pack_mcmeta config : trace_grows (write_pack_mcmeta config).
Proof.
  unfold write_pack_mcmeta.
  repeat first
    [ apply grows_bind; [first [ apply grows_config_get | apply grows_lift
                                | apply grows_write_text ]|]; intros ? ].
  apply grows_write_text.
Qed.

Lemma grows_build dp config : trace_grows (build dp config).
Proof.
  unfold build. apply grows_bind; [apply grows_get_names|]. intros n.
  apply grows_bind; [apply grows_write_function_tags|]. intros _.
  apply grows_bind; [apply grows_write_namespace_files|]. intros _.
  apply grows_write_pack_mcmeta.
Qed.

Lemma grows_parse_and_build config :
  trace_grows (read_header config ;;;
               let* datapack := run_lexer config in build datapack config).
Proof.
  apply grows_bind; [apply grows_read_header|]. intros _.
  apply grows_bind; [by intros w|]. intros dp. apply grows_build.
Qed.

End TraceFacts.

(** ** The certificate protocol *)

Section ProtocolFacts.
Context {ext : Externals}.

(** [read_cert] on a namespace that holds a certificate: the names are
    taken from it (all defaults when it does not parse), the folder is
    removed and made again, and the fresh certificate is its one entry. *)
Lemma read_cert_certified (config : dict string) (w : World)
    (output ns s : string) (m : gmap string node) (nsf : path) :
  getitem "output" config = inr output →
  getitem "namespace" config = inr ns →
  nsf = Path output // "data" // ns →
  fs_lookup nsf (fs w) = Some (Dir m) →
  m !! "jmc.txt" = Some (File s) →
  ∃ w',
    read_cert config w = (w', inr tt)
    ∧ names w'
      = adopt_names
          (match string_to_cert_config s with inr c => c | inl _ => [] end)
          (names w)
    ∧ header w' = header w
    ∧ fs_lookup nsf (fs w')
      = Some (Dir {[ "jmc.txt" :=
                     File (cert_config_to_string (cert_of_names (names w'))) ]})
    ∧ trace w'
      = trace w ++
        [ EvIsDir nsf; EvIsFile (nsf ++ ["jmc.txt"]); EvRead (nsf ++ ["jmc.txt"]);
          EvRmtree nsf; EvMkdir nsf;
          EvWrite (nsf ++ ["jmc.txt"])
            (cert_config_to_string (cert_of_names (names w'))) ].
Proof.
  intros Hout Hns Hnsf Hdir Hcert.
  assert (nsf ≠ []) as Hne by (rewrite Hnsf; apply namespace_folder_nonempty).
  set (adopted := adopt_names
         (match string_to_cert_config s with inr c => c | inl _ => [] end)
         (names w)).
  destruct (fs_regenerate nsf "jmc.txt"
              (cert_config_to_string (cert_of_names adopted)) (fs w) m Hne Hdir)
    as (t1 & t2 & t3 & H1 & H2 & H3 & H4).
  assert (except_ValueError (string_to_cert_config s) []
          = inr (match string_to_cert_config s with inr c => c | inl _ => [] end))
    as Hexc.
  { destruct (string_to_cert_config s) as [e|c] eqn:E; [|done].
    apply cert_lines_error in E. by subst e. }
  unfold read_cert, config_get, lift, bind. rewrite Hout, Hns, <- Hnsf.
  unfold path_join. rewrite Path_cert. clear Hnsf.
  unfold get_names, is_dir. cbn [fs log]. rewrite Hdir.
  unfold is_file. cbn [fs log]. rewrite (fs_lookup_child _ _ _ _ Hdir), Hcert.
  cbn [negb]. unfold read_text. cbn [fs log].
  rewrite (fs_lookup_child _ _ _ _ Hdir), Hcert, Hexc.
  unfold put_names, get_cert, get_names, bind, ret, rmtree.
  cbn [fs log set_names names]. rewrite H1.
  unfold make_cert, bind, mkdir. cbn [fs log set_fs]. unfold parent.
  rewrite removelast_last. fold adopted. rewrite H2.
  unfold write_text. cbn [fs log set_fs]. rewrite H3.
  eexists. split; [done|]. cbn [names header fs trace log set_fs set_names].
  split; [done|]. split; [done|]. split; [done|].
  by rewrite <- !app_assoc.
Qed.

(** [read_cert] on a namespace folder without a certificate file. *)
Lemma read_cert_uncertified (config : dict string) (w : World)
    (output ns : string) (m : gmap string node) (nsf : path) :
  getitem "output" config = inr output →
  getitem "namespace" config = inr ns →
  nsf = Path output // "data" // ns →
  fs_lookup nsf (fs w) = Some (Dir m) →
  (∀ s, m !! "jmc.txt" ≠ Some (File s)) →
  read_cert config w
  = (log (EvIsFile (nsf ++ ["jmc.txt"])) (log (EvIsDir nsf) w),
     inl (JMCBuildError cert_not_found_msg)).
Proof.
  intros Hout Hns Hnsf Hdir Hcert.
  unfold read_cert, config_get, lift, bind. rewrite Hout, Hns, <- Hnsf.
  unfold path_join. rewrite Path_cert. clear Hnsf.
  unfold get_names, is_dir. cbn [fs log]. rewrite Hdir.
  unfold is_file. cbn [fs log]. rewrite (fs_lookup_child _ _ _ _ Hdir).
  destruct (m !! "jmc.txt") as [[s|m']|] eqn:E; [by destruct (Hcert s)|done|done].
Qed.

Lemma compile_unfold (config : dict string) (debug : bool) (w : World) :
  compile config debug w
  = match read_cert config (set_header Header_clear w) with
    | (w1, inr _) =>
        (read_header config ;;;
         let* datapack := run_lexer config in build datapack config) w1
    | (w1, inl e) => (w1, inl e)
    end.
Proof. reflexivity. Qed.

End ProtocolFacts.

Section ProtocolClaims.
Context {ext : Externals}.

(** C1: when the namespace folder exists and holds no file [jmc.txt], the
    compilation stops with the build error that asks to delete the folder
    by hand; up to then it has only tested the folder and the file, so the
    file tree is the one it started from. *)
Theorem compile_refuses_uncertified_namespace (config : dict string)
    (debug : bool) (w : World) (output ns : string) (m : gmap string node) :
  getitem "output" config = inr output →
  getitem "namespace" config = inr ns →
  let namespace_folder := Path output // "data" // ns in
  fs_lookup namespace_folder (fs w) = Some (Dir m) →
  (∀ s, m !! "jmc.txt" ≠ Some (File s)) →
  ∃ w',
    compile config debug w = (w', inl (JMCBuildError cert_not_found_msg))
    ∧ fs w' = fs w
    ∧ names w' = names w
    ∧ trace w'
      = trace w ++ [ EvIsDir namespace_folder;
                     EvIsFile (namespace_folder ++ ["jmc.txt"]) ].
Proof.
  intros Hout Hns nsf Hdir Hcert.
  rewrite compile_unfold.
  rewrite (read_cert_uncertified config _ output ns m nsf) by done.
  eexists. split; [done|]. cbn [fs names trace log set_header].
  split; [done|]. split; [done|]. by rewrite <- app_assoc.
Qed.

(** C2, amended to the order of the code: on a namespace that holds a
    certificate the effects of a compilation start with the test of the
    folder, the test and the reading of the certificate, the removal of
    the folder, its creation and the writing of the fresh certificate, in
    this order; the header, the lexer and [build], which regenerates the
    namespace, run from the world reached then, so all they do comes
    after. Nothing is written or removed before the certificate is read. *)
Theorem compile_certified_order (config : dict string) (debug : bool)
    (w : World) (output ns s : string) (m : gmap string node) :
  getitem "output" config = inr output →
  getitem "namespace" config = inr ns →
  let namespace_folder := Path output // "data" // ns in
  let cert_file := namespace_folder ++ ["jmc.txt"] in
  fs_lookup namespace_folder (fs w) = Some (Dir m) →
  m !! "jmc.txt" = Some (File s) →
  ∃ w1 content rest,
    read_cert config (set_header Header_clear w) = (w1, inr tt)
    ∧ trace w1
      = trace w ++ [ EvIsDir namespace_folder; EvIsFile cert_file;
                     EvRead cert_file; EvRmtree namespace_folder;
                     EvMkdir namespace_folder; EvWrite cert_file content ]
    ∧ content = cert_config_to_string (cert_of_names (names w1))
    ∧ compile config debug w
      = (read_header config ;;;
         let* datapack := run_lexer config in build datapack config) w1
    ∧ trace (compile config debug w).1 = trace w1 ++ rest.
Proof.
  intros Hout Hns nsf cert Hdir Hcert.
  destruct (read_cert_certified config (set_header Header_clear w)
              output ns s m nsf Hout Hns eq_refl Hdir Hcert)
    as (w1 & Hrun & Hnames & Hheader & Hfs & Htrace).
  assert (compile config debug w
          = (read_header config ;;;
             let* datapack := run_lexer config in build datapack config) w1)
    as Hcompile by (by rewrite compile_unfold, Hrun).
  destruct (grows_parse_and_build config w1) as [rest Hrest].
  exists w1, (cert_config_to_string (cert_of_names (names w1))), rest.
  split; [done|]. split; [exact Htrace|]. split; [done|]. split; [done|].
  by rewrite Hcompile.
Qed.

(** C6: a certificate that parses and gives the five names makes them
    the reserved names of this compilation; the folder is removed and
    made again with a fresh certificate that carries these names, and a
    later [read_cert] on a namespace with that certificate adopts the
    same five names, whatever the names were before it. *)
Theorem read_cert_keeps_reserved_names (config : dict string) (w : World)
    (output ns s : string) (m : gmap string node) (cfg : dict string)
    (l t p v i : string) :
  getitem "output" config = inr output →
  getitem "namespace" config = inr ns →
  let namespace_folder := Path output // "data" // ns in
  fs_lookup namespace_folder (fs w) = Some (Dir m) →
  m !! "jmc.txt" = Some (File s) →
  string_to_cert_config s = inr cfg →
  dict_get "LOAD" cfg = Some l → dict_get "TICK" cfg = Some t →
  dict_get "PRIVATE" cfg = Some p → dict_get "VAR" cfg = Some v →
  dict_get "INT" cfg = Some i →
  let kept := mkNames l t p v i in
  let fresh := cert_config_to_string (cert_of_names kept) in
  ∃ w',
    read_cert config w = (w', inr tt)
    ∧ names w' = kept
    ∧ fs_lookup namespace_folder (fs w') = Some (Dir {[ "jmc.txt" := File fresh ]})
    ∧ string_to_cert_config fresh = inr (cert_of_names kept)
    ∧ (∀ (w2 : World) (m2 : gmap string node),
         fs_lookup namespace_folder (fs w2) = Some (Dir m2) →
         m2 !! "jmc.txt" = Some (File fresh) →
         ∃ w3,
           read_cert config w2 = (w3, inr tt)
           ∧ names w3 = kept
           ∧ fs_lookup namespace_folder (fs w3)
             = Some (Dir {[ "jmc.txt" := File fresh ]})).
Proof.
  intros Hout Hns nsf Hdir Hcert Hparse Hl Ht Hp Hv Hi kept fresh.
  assert (string_to_cert_config fresh = inr (cert_of_names kept)) as Hround.
  { apply cert_roundtrip; simpl; by eapply string_to_cert_config_clean. }
  destruct (read_cert_certified config w output ns s m nsf
              Hout Hns eq_refl Hdir Hcert)
    as (w' & Hrun & Hnames & _ & Hfs & _).
  rewrite Hparse, (adopt_names_five cfg _ l t p v i) in Hnames by done.
  exists w'. split; [done|]. split; [done|].
  split; [by rewrite Hfs, Hnames|]. split; [done|].
  intros w2 m2 Hdir2 Hcert2.
  destruct (read_cert_certified config w2 output ns fresh m2 nsf
              Hout Hns eq_refl Hdir2 Hcert2)
    as (w3 & Hrun3 & Hnames3 & _ & Hfs3 & _).
  rewrite Hround, adopt_cert_of_names in Hnames3.
  exists w3. split; [done|]. split; [done|]. by rewrite Hfs3, Hnames3.
Qed.

(** C10: a certificate with a line that does not split into one key and
    one value at [=] does not stop the compilation: [read_cert] returns,
    the five names stay the ones in force before it (the defaults), the
    folder is removed and made again with a certificate of these names,
    and the compilation goes on with the header, the lexer and [build]. *)
Theorem malformed_certificate_falls_back (config : dict string) (debug : bool)
    (w : World) (output ns s : string) (m : gmap string node) :
  getitem "output" config = inr output →
  getitem "namespace" config = inr ns →
  let namespace_folder := Path output // "data" // ns in
  fs_lookup namespace_folder (fs w) = Some (Dir m) →
  m !! "jmc.txt" = Some (File s) →
  (∃ line, line ∈ Py.split_on "010" s ∧ length (Py.split_on "=" line) ≠ 2) →
  string_to_cert_config s = inl ValueError
  ∧ ∃ w',
      read_cert config (set_header Header_clear w) = (w', inr tt)
      ∧ names w' = names w
      ∧ fs_lookup namespace_folder (fs w')
        = Some (Dir {[ "jmc.txt" :=
                       File (cert_config_to_string (cert_of_names (names w))) ]})
      ∧ compile config debug w
        = (read_header config ;;;
           let* datapack := run_lexer config in build datapack config) w'.
Proof.
  intros Hout Hns nsf Hdir Hcert Hbad.
  assert (string_to_cert_config s = inl ValueError) as Hparse
    by (by apply cert_lines_malformed).
  split; [done|].
  destruct (read_cert_certified config (set_header Header_clear w)
              output ns s m nsf Hout Hns eq_refl Hdir Hcert)
    as (w' & Hrun & Hnames & _ & Hfs & _).
  rewrite Hparse, adopt_nothing in Hnames. simpl in Hnames.
  exists w'. split; [done|]. split; [done|].
  split; [by rewrite Hfs, Hnames|].
  by rewrite compile_unfold, Hrun.
Qed.

End ProtocolClaims.

(** ** The function tags *)

Section TagFacts.
Context {ext : Externals}.

Lemma dict_set_set {V} (k : string) (v v' : V) (d : dict V) :
  dict_set k v' (dict_set k v d) = dict_set k v' d.
Proof.
  induction d as [|[k0 v0] d IH]; simpl.
  - by rewrite String.eqb_refl.
  - destruct (String.eqb k0 k) eqn:E; simpl; rewrite E; [done | by rewrite IH].
Qed.

Lemma strip_namespace_strings (config : dict string) (ns : string)
    (vs : list string) :
  getitem "namespace" config = inr ns →
  strip_namespace config (JStr <$> vs)
  = inr (JStr <$> filter (λ v, Py.startswith v (ns +:+ ":") = false) vs).
Proof.
  intros Hns. induction vs as [|v vs IH]; [done|].
  rewrite fmap_cons, filter_cons. cbn [strip_namespace].
  rewrite Hns, IH. simpl.
  destruct (Py.startswith v (ns +:+ ":")) eqn:E.
  - by rewrite decide_False by done.
  - by rewrite decide_True by done.
Qed.

Lemma append_value_with_values (d : dict json) (l : list string) (ref : string) :
  append_value (with_values d l) ref = inr (with_values d (l ++ [ref])).
Proof.
  unfold append_value, with_values, json_getitem, getitem.
  rewrite dict_get_set_eq. simpl. by rewrite dict_set_set, fmap_app.
Qed.

Lemma read_func_tag_entries (p : path) (config : dict string) (w : World)
    (ns : string) (d : dict json) (vs : list string) :
  getitem "namespace" config = inr ns →
  tag_entries (fs w) p d vs →
  ∃ w',
    read_func_tag p config w
    = (w', inr (with_values d
                  (filter (λ v, Py.startswith v (ns +:+ ":") = false) vs)))
    ∧ fs w' = fs w ∧ names w' = names w.
Proof.
  intros Hns [(Hnone & -> & ->) | (s & Hfile & Hloads & Hvalues)].
  - unfold read_func_tag, bind, is_file. rewrite Hnone. by eexists.
  - unfold read_func_tag, bind, is_file, read_text. cbn [fs log].
    rewrite Hfile. cbn [fs log]. rewrite Hfile, Hloads.
    unfold strip_tag_values, json_getitem, getitem. rewrite Hvalues.
    cbn [res_bind json_iter]. rewrite (strip_namespace_strings _ ns) by done.
    cbn [res_bind]. by eexists.
Qed.

Lemma read_func_tag_broken (p : path) (config : dict string) (w : World) :
  tag_broken (fs w) p →
  ∃ msg w',
    read_func_tag p config w = (w', inl (JMCBuildError msg)) ∧ fs w' = fs w.
Proof.
  intros (s & Hfile & [Hloads | (d & Hloads & Hvalues)]).
  - unfold read_func_tag, bind, is_file, read_text. cbn [fs log].
    rewrite Hfile. cbn [fs log]. rewrite Hfile, Hloads. by eexists _, _.
  - unfold read_func_tag, bind, is_file, read_text. cbn [fs log].
    rewrite Hfile. cbn [fs log]. rewrite Hfile, Hloads.
    unfold strip_tag_values, json_getitem, getitem. rewrite Hvalues.
    by eexists _, _.
Qed.

Lemma Path_tags (output : string) :
  Path output // "data" // "minecraft" // "tags" // "functions"
  = Path output ++ ["data"; "minecraft"; "tags"; "functions"].
Proof.
  unfold path_join.
  change (Path "data") with ["data"]. change (Path "minecraft") with ["minecraft"].
  change (Path "tags") with ["tags"]. change (Path "functions") with ["functions"].
  by rewrite <- !app_assoc.
Qed.

Lemma tag_entries_not_dir (t : node) (tags : path) (m : gmap string node)
    (c : string) (d : dict json) (vs : list string) :
  fs_lookup tags t = Some (Dir m) →
  tag_entries t (tags ++ [c]) d vs →
  ∀ m', m !! c ≠ Some (Dir m').
Proof.
  intros Hdir Htag m' Hc. unfold tag_entries in Htag.
  rewrite (fs_lookup_child _ _ _ _ Hdir), Hc in Htag.
  by destruct Htag as [(? & _) | (s & ? & _)].
Qed.

Lemma write_function_tags_merged (dp : DataPack) (config : dict string)
    (w : World) (output ns : string) (m : gmap string node) (tags : path)
    (dl dt : dict json) (vl vt : list string) :
  getitem "output" config = inr output →
  getitem "namespace" config = inr ns →
  tags = Path output // "data" // "minecraft" // "tags" // "functions" →
  fs_lookup tags (fs w) = Some (Dir m) →
  tag_entries (fs w) (tags ++ ["load.json"]) dl vl →
  tag_entries (fs w) (tags ++ ["tick.json"]) dt vt →
  ∃ w',
    write_function_tags dp config w = (w', inr tt)
    ∧ names w' = names w
    ∧ fs_lookup (tags ++ ["load.json"]) (fs w')
      = Some (File (json_dumps (with_values dl
           (merged_values ns vl (ns +:+ ":" +:+ LOAD_NAME (names w))))))
    ∧ (has_tick_function (names w) dp = true →
       fs_lookup (tags ++ ["tick.json"]) (fs w')
       = Some (File (json_dumps (with_values dt
            (merged_values ns vt (ns +:+ ":" +:+ TICK_NAME (names w)))))))
    ∧ (has_tick_function (names w) dp = false →
       fs_lookup (tags ++ ["tick.json"]) (fs w')
       = fs_lookup (tags ++ ["tick.json"]) (fs w)).
Proof.
  intros Hout Hns Htags Hdir Hload Htick.
  pose proof (tag_entries_not_dir _ _ _ _ _ _ Hdir Hload) as Hl.
  pose proof (tag_entries_not_dir _ _ _ _ _ _ Hdir Htick) as Ht.
  destruct (read_func_tag_entries (tags ++ ["load.json"]) config
              (log (EvMkdir tags) w) ns dl vl Hns Hload)
    as (w1 & Hr1 & Hfs1 & Hn1).
  destruct (read_func_tag_entries (tags ++ ["tick.json"]) config w1 ns dt vt Hns)
    as (w2 & Hr2 & Hfs2 & Hn2); [by rewrite Hfs1|].
  cbn [names log] in Hn1.
  assert (fs_lookup tags (fs w2) = Some (Dir m)) as Hdir2
    by (by rewrite Hfs2, Hfs1).
  destruct (fs_write_child tags "load.json"
              (json_dumps (with_values dl
                 (filter (λ v, Py.startswith v (ns +:+ ":") = false) vl
                  ++ [ns +:+ ":" +:+ LOAD_NAME (names w)]))) (fs w2) m Hdir2 Hl)
    as (t3 & Hw3 & Hl3).
  unfold write_function_tags, bind, config_get, lift, get_names, mkdir.
  rewrite Hout. cbn [fs]. rewrite Hns. cbn [fs]. rewrite <- Htags.
  rewrite (fs_mkdir_present _ _ _ Hdir).
  replace (set_fs (fs w) w) with w by (by destruct w).
  unfold path_join.
  change (Path "load.json") with ["load.json"].
  change (Path "tick.json") with ["tick.json"].
  rewrite Hr1, Hr2. rewrite append_value_with_values.
  unfold write_text at 1. rewrite Hn2, Hn1, Hw3. cbn [names log set_fs].
  rewrite Hn2, Hn1.
  fold (has_tick_function (names w) dp).
  destruct (has_tick_function (names w) dp) eqn:Hhas.
  - rewrite append_value_with_values.
    destruct (fs_write_child tags "tick.json"
              (json_dumps (with_values dt
                 (filter (λ v, Py.startswith v (ns +:+ ":") = false) vt
                  ++ [ns +:+ ":" +:+ TICK_NAME (names w)]))) t3 _ Hl3)
      as (t4 & Hw4 & Hl4).
    { intros m' Hm'. rewrite lookup_insert_ne in Hm' by done. by eapply Ht. }
    unfold write_text. cbn [fs log set_fs]. rewrite Hw4.
    eexists. split; [done|]. cbn [names fs log set_fs].
    split; [by rewrite Hn2, Hn1|].
    rewrite !(fs_lookup_child _ _ _ _ Hl4).
    rewrite lookup_insert_ne by done. rewrite !lookup_insert_eq.
    done.
  - eexists. split; [done|]. cbn [names fs log set_fs].
    split; [by rewrite Hn2, Hn1|].
    rewrite !(fs_lookup_child _ _ _ _ Hl3), (fs_lookup_child _ _ _ _ Hdir).
    rewrite lookup_insert_eq, lookup_insert_ne by done. done.
Qed.

Lemma write_function_tags_broken (dp : DataPack) (config : dict string)
    (w : World) (output ns : string) (m : gmap string node) (tags : path) :
  getitem "output" config = inr output →
  getitem "namespace" config = inr ns →
  tags = Path output // "data" // "minecraft" // "tags" // "functions" →
  fs_lookup tags (fs w) = Some (Dir m) →
  tag_broken (fs w) (tags ++ ["load.json"])
  ∨ ((∃ dl vl, tag_entries (fs w) (tags ++ ["load.json"]) dl vl)
     ∧ tag_broken (fs w) (tags ++ ["tick.json"])) →
  ∃ msg w',
    write_function_tags dp config w = (w', inl (JMCBuildError msg))
    ∧ fs w' = fs w.
Proof.
  intros Hout Hns Htags Hdir Hbad.
  unfold write_function_tags, bind, config_get, lift, get_names, mkdir.
  rewrite Hout. cbn [fs]. rewrite Hns. cbn [fs]. rewrite <- Htags.
  rewrite (fs_mkdir_present _ _ _ Hdir).
  replace (set_fs (fs w) w) with w by (by destruct w).
  unfold path_join.
  change (Path "load.json") with ["load.json"].
  change (Path "tick.json") with ["tick.json"].
  destruct Hbad as [Hload | [(dl & vl & Hload) Htick]].
  - destruct (read_func_tag_broken (tags ++ ["load.json"]) config
                (log (EvMkdir tags) w) Hload) as (msg & w1 & Hr1 & Hfs1).
    rewrite Hr1. by exists msg, w1.
  - destruct (read_func_tag_entries (tags ++ ["load.json"]) config
                (log (EvMkdir tags) w) ns dl vl Hns Hload)
      as (w1 & Hr1 & Hfs1 & Hn1).
    destruct (read_func_tag_broken (tags ++ ["tick.json"]) config w1)
      as (msg & w2 & Hr2 & Hfs2); [by rewrite Hfs1|].
    rewrite Hr1, Hr2. exists msg, w2. split; [done|]. by rewrite Hfs2, Hfs1.
Qed.

Lemma build_unfold (dp : DataPack) (config : dict string) (w : World) :
  build dp config w
  = match write_function_tags (DataPack_build (names w) dp) config w with
    | (w1, inr _) =>
        (write_namespace_files (DataPack_build (names w) dp) config ;;;
         write_pack_mcmeta config) w1
    | (w1, inl e) => (w1, inl e)
    end.
Proof. reflexivity. Qed.

End TagFacts.


(** ** Runs on the sample inputs *)

(** C1 on the sample tree whose namespace holds [old.txt] only. *)
Lemma compile_refuses_uncertified_namespace_witness :
  ∃ w',
    compile (ext := sample_externals) sample_config false world_uncertified
    = (w', inl (JMCBuildError cert_not_found_msg))
    ∧ fs w' = fs world_uncertified
    ∧ names w' = names world_uncertified
    ∧ trace w'
      = trace world_uncertified ++
        [ EvIsDir sample_namespace; EvIsFile (sample_namespace ++ ["jmc.txt"]) ].
Proof.
  apply (compile_refuses_uncertified_namespace (ext := sample_externals)
           sample_config false world_uncertified "out" "this_ns"
           uncertified_entries).
  - reflexivity.
  - reflexivity.
  - vm_compute. reflexivity.
  - intros s. vm_compute. discriminate.
Defined.

(** C2, as amended, on the sample tree with a certificate. *)
Lemma compile_certified_order_witness :
  ∃ w1 content rest,
    read_cert (ext := sample_externals) sample_config
      (set_header Header_clear world_certified) = (w1, inr tt)
    ∧ trace w1
      = trace world_certified ++
        [ EvIsDir sample_namespace; EvIsFile (sample_namespace ++ ["jmc.txt"]);
          EvRead (sample_namespace ++ ["jmc.txt"]); EvRmtree sample_namespace;
          EvMkdir sample_namespace;
          EvWrite (sample_namespace ++ ["jmc.txt"]) content ]
    ∧ content = cert_config_to_string (cert_of_names (names w1))
    ∧ compile sample_config false world_certified
      = (read_header sample_config ;;;
         let* datapack := run_lexer sample_config in build datapack sample_config) w1
    ∧ trace (compile sample_config false world_certified).1 = trace w1 ++ rest.
Proof.
  apply (compile_certified_order (ext := sample_externals)
           sample_config false world_certified "out" "this_ns" earlier_cert
           certified_entries).
  - reflexivity.
  - reflexivity.
  - vm_compute. reflexivity.
  - vm_compute. reflexivity.
Defined.

(** C2 as the specification words it fails on the sample tree: the
    certificate is the sixth effect of the compilation, and the function
    file of the namespace is written nine effects later. *)
Lemma certificate_written_before_regeneration :
  ¬ cert_written_last sample_namespace (sample_namespace ++ ["jmc.txt"])
      (trace (compile (ext := sample_externals) sample_config false
                world_certified).1).
Proof.
  intros H.
  assert (14 < 5) as Hlt; [|lia].
  eapply (H 5 14 (sample_namespace ++ ["functions"; "main.mcfunction"])).
  - vm_compute. reflexivity.
  - vm_compute. reflexivity.
  - by exists ["functions"; "main.mcfunction"].
  - discriminate.
Qed.

(** C5 as the specification words it fails when the output has no tick
    function: [build] returns and [tick.json] still is the file it was,
    with the old entry of [this_ns] and without a new reference. *)
Lemma tick_tag_left_unmerged :
  let w' := (build (ext := sample_externals) datapack_without_tick
               sample_config world_certified).1 in
  (build (ext := sample_externals) datapack_without_tick sample_config
     world_certified).2 = inr tt
  ∧ fs_lookup (sample_tag_path ++ ["tick.json"]) (fs world_certified)
    = Some (File "values=this_ns:tick,other_ns:t")
  ∧ fs_lookup (sample_tag_path ++ ["tick.json"]) (fs w')
    = Some (File "values=this_ns:tick,other_ns:t")
  ∧ fs_lookup (sample_tag_path ++ ["tick.json"]) (fs w')
    ≠ Some (File (sample_dumps
         (with_values [ ("values", JArr [JStr "this_ns:tick"; JStr "other_ns:t"]) ]
         (merged_values "this_ns" ["this_ns:tick"; "other_ns:t"]
            ("this_ns" +:+ ":" +:+ TICK_NAME sample_names))))).
Proof.
  vm_compute. repeat split; discriminate.
Qed.

(** C6 on the sample tree: the names of the earlier build replace the
    defaults. *)
Lemma read_cert_keeps_reserved_names_witness :
  ∃ w',
    read_cert (ext := sample_externals) sample_config world_certified = (w', inr tt)
    ∧ names w' = earlier_names
    ∧ fs_lookup sample_namespace (fs w')
      = Some (Dir {[ "jmc.txt" := File earlier_cert ]}).
Proof.
  destruct (read_cert_keeps_reserved_names (ext := sample_externals)
              sample_config world_certified "out" "this_ns" earlier_cert
              certified_entries (cert_of_names earlier_names)
              "load" "tick" "private" "var" "int")
    as (w' & Hrun & Hnames & Hfs & _).
  - reflexivity.
  - reflexivity.
  - vm_compute. reflexivity.
  - vm_compute. reflexivity.
  - vm_compute. reflexivity.
  - reflexivity.
  - reflexivity.
  - reflexivity.
  - reflexivity.
  - reflexivity.
  - exists w'. split; [exact Hrun|]. split; [exact Hnames | exact Hfs].
Defined.

(** C10 on the sample tree whose certificate is the one line [LOAD]. *)
Lemma malformed_certificate_falls_back_witness :
  string_to_cert_config "LOAD" = inl ValueError
  ∧ ∃ w',
      read_cert (ext := sample_externals) sample_config
        (set_header Header_clear world_malformed) = (w', inr tt)
      ∧ names w' = sample_names
      ∧ fs_lookup sample_namespace (fs w')
        = Some (Dir {[ "jmc.txt" :=
                       File (cert_config_to_string (cert_of_names sample_names)) ]})
      ∧ compile sample_config false world_malformed
        = (read_header sample_config ;;;
           let* datapack := run_lexer sample_config in
           build datapack sample_config) w'.
Proof.
  apply (malformed_certificate_falls_back (ext := sample_externals)
           sample_config false world_malformed "out" "this_ns" "LOAD"
           malformed_entries).
  - reflexivity.
  - reflexivity.
  - vm_compute. reflexivity.
  - vm_compute. reflexivity.
  - exists "LOAD". split; [vm_compute; left | vm_compute; lia].
Defined.

(** C7 on an empty output model. *)
Lemma add_events_first_binding_witness :
  ∃ dp',
    add_events (bi := sample_builtins) "minecraft.fish_caught" ["say caught"]
      (empty_datapack "ns") = inr dp'
    ∧ scoreboards dp' = {[ "on_event_fish_ca" := "fish_caught" ]}
    ∧ ticks dp'
      = [ "execute as @a[scores={on_event_fish_ca=1..}] at @s run function ns:__private__/on_event/fish_caught" ].
Proof.
  destruct (add_events_first_binding (bi := sample_builtins)
              "minecraft.fish_caught" ["say caught"] (empty_datapack "ns"))
    as (dp' & Hrun & Hscore & _ & _ & Hticks & _).
  - simpl. apply not_elem_of_empty.
  - exists dp'. split; [exact Hrun|]. split; [exact Hscore | exact Hticks].
Defined.

(** C3 for [minecraft.fish_caught] and [fish_caught]. *)
Lemma add_events_same_criteria_merge_witness :
  ∃ dp1 dp2,
    add_events (bi := sample_builtins) "minecraft.fish_caught" ["say one"]
      (empty_datapack "ns") = inr dp1
    ∧ add_events (bi := sample_builtins) "fish_caught" ["say two"] dp1 = inr dp2
    ∧ scoreboards dp2 = {[ "on_event_fish_ca" := "fish_caught" ]}
    ∧ default ∅ (private_functions dp2 !! "on_event")
      = {[ "fish_caught" :=
           [ "scoreboard players set @s on_event_fish_ca 0"; "say one"; "say two" ] ]}
    ∧ ticks dp2
      = [ "execute as @a[scores={on_event_fish_ca=1..}] at @s run function ns:__private__/on_event/fish_caught" ].
Proof.
  destruct (add_events_same_criteria_merge (bi := sample_builtins)
              "minecraft.fish_caught" "fish_caught" ["say one"] ["say two"]
              (empty_datapack "ns"))
    as (dp1 & dp2 & H1 & H2 & Hscore & _ & Hfun & _ & Hticks & _).
  - reflexivity.
  - simpl. apply not_elem_of_empty.
  - exists dp1, dp2. split; [exact H1|]. split; [exact H2|].
    split; [exact Hscore|]. split; [exact Hfun | exact Hticks].
Defined.

(** C4: a plain stick without display name, lore and raw NBT. *)
Lemma create_item_without_components_raises_witness :
  create_item (bi := sample_builtins) stick_plain "itemType" "displayName"
    "lore" "nbt" None = inl (UnboundLocalError "final_nbt").
Proof.
  apply (proj2 (create_item_without_components_raises (bi := sample_builtins)
                  stick_plain "itemType" "displayName" "lore" "nbt" None
                  eq_refl eq_refl) "stick" [] []); reflexivity.
Defined.

(** C8: the stick named Excalibur, without raw NBT and with a raw NBT
    object that has [custom_name] and [Damage]. *)
Lemma create_item_display_name_witness :
  (∃ item,
     create_item (bi := sample_builtins) stick_named "itemType" "displayName"
       "lore" "nbt" None = inr item
     ∧ Py.startswith (item_type item) "stick[custom_name=" = true
     ∧ raw_nbt item = [])
  ∧ (∃ item,
       create_item (bi := sample_builtins) stick_named_nbt "itemType"
         "displayName" "lore" "nbt" None = inr item
       ∧ raw_nbt item = [ ("Damage", sample_token "Damage") ]).
Proof.
  destruct (create_item_display_name (bi := sample_builtins)) as [Hstick Hdrop].
  split.
  - destruct (Hstick stick_named (sample_text "Excalibur") "{}")
      as (item & Hrun & Hty & _ & Hnbt); try reflexivity.
    exists item. split; [exact Hrun|]. split; [|exact Hnbt].
    rewrite Hty. reflexivity.
  - destruct (Hdrop stick_named_nbt "itemType" "displayName" "lore" "nbt"
                "minecraft:stick" "Excalibur" (sample_text "Excalibur")
                "{Damage:Damage}" []
                [ ("custom_name", sample_token "custom_name");
                  ("Damage", sample_token "Damage") ])
      as (item & Hrun & Hnbt & _); try reflexivity.
    + apply (bool_decide_unpack _). vm_compute. exact I.
    + exists item. split; [exact Hrun | exact Hnbt].
Defined.

(** C9: overriding [Damage] of an item that has it. *)
Lemma override_of_existing_key_raises_witness :
  ∃ k v,
    create_new_item (bi := sample_builtins) damaged_item
      (Some [ ("Damage", sample_token "5") ]) None
    = inl (JMCValueError (k +:+ " is already inside the nbt") v).
Proof.
  destruct (override_of_existing_key_raises (bi := sample_builtins)
              [ ("Damage", sample_token "5") ]) as [Hcopy _].
  - simpl. apply NoDup_singleton.
  - destruct (Hcopy damaged_item None) as (k & v & _ & _ & Hrun).
    + exists "Damage". split; [left | reflexivity].
    + exists k, v. exact Hrun.
Defined.

(** * Further properties *)

(** ** Files that the tree operations leave alone *)

Section FrameFacts.
Implicit Types (p q : path) (t n : node) (m : gmap string node) (c s : string).

Lemma file_at_nil_dir m : file_at [] (Dir m) = None.
Proof. done. Qed.

Lemma file_at_cons c q m :
  file_at (c :: q) (Dir m)
  = match m !! c with Some n => file_at q n | None => None end.
Proof. unfold file_at. simpl. by destruct (m !! c). Qed.

Lemma file_at_under_file q s : q ≠ [] → file_at q (File s) = None.
Proof. by destruct q. Qed.

Lemma fs_lookup_fresh p : fs_lookup p (fresh_dirs p) = Some (Dir ∅).
Proof.
  induction p as [|c p IH]; [done|]. simpl. by rewrite lookup_singleton_eq.
Qed.

Lemma file_at_fresh p q : file_at q (fresh_dirs p) = None.
Proof.
  revert q. induction p as [|c p IH]; intros q; simpl.
  - destruct q; [done|]. rewrite file_at_cons. by rewrite lookup_empty.
  - destruct q as [|c' q]; [done|]. rewrite file_at_cons.
    destruct (decide (c = c')) as [->|Hne].
    + by rewrite lookup_singleton_eq.
    + by rewrite lookup_singleton_ne.
Qed.

(** [mkdir] neither makes nor removes a file. *)
Lemma fs_mkdir_frame exist_ok p t t' q :
  fs_mkdir exist_ok p t = inr t' → file_at q t' = file_at q t.
Proof.
  revert t t' q. induction p as [|c p IH]; intros t t' q.
  - destruct t as [?|m]; simpl; [done|]. destruct exist_ok; by intros [= <-].
  - destruct t as [?|m]; [done|]. rewrite fs_mkdir_cons.
    destruct (m !! c) as [n|] eqn:Hc.
    + destruct (fs_mkdir exist_ok p n) as [?|n'] eqn:Hn; [done|].
      intros [= <-]. destruct q as [|c' q]; [done|]. rewrite !file_at_cons.
      destruct (decide (c = c')) as [<-|Hne].
      * rewrite lookup_insert_eq, Hc. by eapply IH.
      * by rewrite lookup_insert_ne.
    + intros [= <-]. destruct q as [|c' q]; [done|]. rewrite !file_at_cons.
      destruct (decide (c = c')) as [<-|Hne].
      * by rewrite lookup_insert_eq, Hc, file_at_fresh.
      * by rewrite lookup_insert_ne.
Qed.

(** [write] changes the file it writes and no other. *)
Lemma fs_write_frame p s t t' q :
  fs_write p s t = inr t' → q ≠ p → file_at q t' = file_at q t.
Proof.
  revert t t' q. induction p as [|c p IH]; intros t t' q.
  - by destruct t.
  - destruct t as [?|m]; [done|]. destruct p as [|c0 p0].
    + simpl. intros Hw Hq.
      assert (t' = Dir (<[c := File s]> m)
              ∧ ∀ m', m !! c ≠ Some (Dir m')) as [-> Hnd].
      { destruct (m !! c) as [[?|?]|]; by simplify_eq. }
      destruct q as [|c' q]; [done|]. rewrite !file_at_cons.
      destruct (decide (c = c')) as [<-|Hne]; [|by rewrite lookup_insert_ne].
      rewrite lookup_insert_eq.
      assert (q ≠ []) as Hq' by (intros ->; done).
      rewrite file_at_under_file by done.
      destruct (m !! c) as [[?|m']|] eqn:Hc; [|by destruct (Hnd m')|done].
      by rewrite file_at_under_file.
    + rewrite fs_write_cons by done.
      destruct (m !! c) as [n|] eqn:Hc; [|done].
      destruct (fs_write (c0 :: p0) s n) as [?|n'] eqn:Hn; [done|].
      intros [= <-] Hq. destruct q as [|c' q]; [done|]. rewrite !file_at_cons.
      destruct (decide (c = c')) as [<-|Hne]; [|by rewrite lookup_insert_ne].
      rewrite lookup_insert_eq, Hc. eapply IH; [done|]. by intros ->.
Qed.

(** [rmtree] changes no file outside the directory it removes. *)
Lemma fs_rmtree_frame p t t' q :
  fs_rmtree p t = inr t' → ¬ p `prefix_of` q → file_at q t' = file_at q t.
Proof.
  revert t t' q. induction p as [|c p IH]; intros t t' q.
  - by destruct t.
  - destruct t as [?|m]; [done|]. destruct p as [|c0 p0].
    + simpl. destruct (m !! c) as [[?|m']|] eqn:Hc; try done.
      intros [= <-] Hq. destruct q as [|c' q]; [done|]. rewrite !file_at_cons.
      destruct (decide (c = c')) as [<-|Hne]; [|by rewrite lookup_delete_ne].
      destruct Hq. by exists q.
    + rewrite fs_rmtree_cons by done.
      destruct (m !! c) as [n|] eqn:Hc; [|done].
      destruct (fs_rmtree (c0 :: p0) n) as [?|n'] eqn:Hn; [done|].
      intros [= <-] Hq. destruct q as [|c' q]; [done|]. rewrite !file_at_cons.
      destruct (decide (c = c')) as [<-|Hne]; [|by rewrite lookup_insert_ne].
      rewrite lookup_insert_eq, Hc. eapply IH; [done|].
      intros [k Hk]. apply Hq. exists k. by rewrite Hk.
Qed.

(** [mkdir(parents=True)] of a path that is not there succeeds when none
    of its ancestors is a file. *)
Lemma fs_mkdir_absent p t :
  fs_lookup p t = None →
  (∀ q s, q `prefix_of` p → fs_lookup q t ≠ Some (File s)) →
  ∃ t', fs_mkdir false p t = inr t' ∧ fs_lookup p t' = Some (Dir ∅).
Proof.
  revert t. induction p as [|c p IH]; intros t Hnone Hpre; [done|].
  destruct t as [s|m]; [by destruct (Hpre [] s (prefix_nil _))|].
  rewrite fs_mkdir_cons. simpl in Hnone.
  destruct (m !! c) as [n|] eqn:Hc.
  - destruct (IH n Hnone) as (n' & Hm & Hl).
    { intros q s [k Hk] Hq. apply (Hpre (c :: q) s).
      - exists k. by rewrite Hk.
      - simpl. by rewrite Hc. }
    rewrite Hm. eexists. split; [done|]. simpl. by rewrite lookup_insert_eq.
  - eexists. split; [done|]. simpl. rewrite lookup_insert_eq.
    apply fs_lookup_fresh.
Qed.

(** [mkdir(exist_ok=False)] of a path that is a file. *)
Lemma fs_mkdir_on_file p t s :
  fs_lookup p t = Some (File s) → fs_mkdir false p t = inl FileExistsError.
Proof.
  revert t. induction p as [|c p IH]; intros t H; simpl in H.
  - by simplify_eq.
  - destruct t as [?|m]; [done|]. rewrite fs_mkdir_cons.
    destruct (m !! c) as [n|]; [|done]. by rewrite (IH n H).
Qed.

End FrameFacts.

(** ** The certificate protocol on every state of the namespace *)

Section ProtocolStates.
Context {ext : Externals}.

Lemma read_cert_certified_tree (config : dict string) (w : World)
    (output ns s : string) (m : gmap string node) (nsf : path) :
  getitem "output" config = inr output →
  getitem "namespace" config = inr ns →
  nsf = Path output // "data" // ns →
  fs_lookup nsf (fs w) = Some (Dir m) →
  m !! "jmc.txt" = Some (File s) →
  ∃ w' t1 t2,
    read_cert config w = (w', inr tt)
    ∧ fs_rmtree nsf (fs w) = inr t1
    ∧ fs_mkdir false nsf t1 = inr t2
    ∧ fs_write (nsf ++ ["jmc.txt"])
        (cert_config_to_string (cert_of_names (names w'))) t2 = inr (fs w')
    ∧ fs_lookup nsf (fs w')
      = Some (Dir {[ "jmc.txt" :=
                     File (cert_config_to_string (cert_of_names (names w'))) ]})
    ∧ names w'
      = adopt_names
          (match string_to_cert_config s with inr c => c | inl _ => [] end)
          (names w).
Proof.
  intros Hout Hns Hnsf Hdir Hcert.
  assert (nsf ≠ []) as Hne by (rewrite Hnsf; apply namespace_folder_nonempty).
  set (adopted := adopt_names
         (match string_to_cert_config s with inr c => c | inl _ => [] end)
         (names w)).
  destruct (fs_regenerate nsf "jmc.txt"
              (cert_config_to_string (cert_of_names adopted)) (fs w) m Hne Hdir)
    as (t1 & t2 & t3 & H1 & H2 & H3 & H4).
  assert (except_ValueError (string_to_cert_config s) []
          = inr (match string_to_cert_config s with inr c => c | inl _ => [] end))
    as Hexc.
  { destruct (string_to_cert_config s) as [e|c] eqn:E; [|done].
    apply cert_lines_error in E. by subst e. }
  unfold read_cert, config_get, lift, bind. rewrite Hout, Hns, <- Hnsf.
  unfold path_join. rewrite Path_cert. clear Hnsf.
  unfold get_names, is_dir. cbn [fs log]. rewrite Hdir.
  unfold is_file. cbn [fs log]. rewrite (fs_lookup_child _ _ _ _ Hdir), Hcert.
  cbn [negb]. unfold read_text. cbn [fs log].
  rewrite (fs_lookup_child _ _ _ _ Hdir), Hcert, Hexc.
  unfold put_names, get_cert, get_names, bind, ret, rmtree.
  cbn [fs log set_names names]. rewrite H1.
  unfold make_cert, bind, mkdir. cbn [fs log set_fs]. unfold parent.
  rewrite removelast_last. fold adopted. rewrite H2.
  unfold write_text. cbn [fs log set_fs]. rewrite H3.
  eexists _, t1, t2. split; [done|]. cbn [names header fs trace log set_fs set_names].
  done.
Qed.

Lemma file_at_only_entry (nsf q : path) (t : node) (c s : string) :
  fs_lookup nsf t = Some (Dir {[ c := File s ]}) →
  nsf `prefix_of` q → q ≠ nsf ++ [c] → file_at q t = None.
Proof.
  intros Hdir [k ->] Hq. unfold file_at. rewrite fs_lookup_app, Hdir. simpl.
  destruct k as [|c' k]; [done|]. simpl.
  destruct (decide (c = c')) as [<-|Hne].
  - rewrite lookup_singleton_eq. destruct k; [done | done].
  - by rewrite lookup_singleton_ne.
Qed.

(** X1: on a namespace folder that holds a certificate, [read_cert]
    returns whatever the certificate says; each reserved name is the one
    the certificate gives for its key and else the name in force before;
    afterwards the certificate is the only file under the namespace
    folder, and every file outside it has the content it had. *)
Theorem read_cert_replaces_namespace_only (config : dict string) (w : World)
    (output ns s : string) (m : gmap string node) :
  getitem "output" config = inr output →
  getitem "namespace" config = inr ns →
  let namespace_folder := Path output // "data" // ns in
  let cert_file := namespace_folder ++ ["jmc.txt"] in
  fs_lookup namespace_folder (fs w) = Some (Dir m) →
  m !! "jmc.txt" = Some (File s) →
  ∃ w',
    read_cert config w = (w', inr tt)
    ∧ names w'
      = adopt_names
          (match string_to_cert_config s with inr c => c | inl _ => [] end)
          (names w)
    ∧ file_at cert_file (fs w')
      = Some (cert_config_to_string (cert_of_names (names w')))
    ∧ (∀ q, namespace_folder `prefix_of` q → q ≠ cert_file →
            file_at q (fs w') = None)
    ∧ (∀ q, ¬ namespace_folder `prefix_of` q →
            file_at q (fs w') = file_at q (fs w)).
Proof.
  intros Hout Hns nsf cert Hdir Hcert.
  destruct (read_cert_certified_tree config w output ns s m nsf
              Hout Hns eq_refl Hdir Hcert)
    as (w' & t1 & t2 & Hrun & H1 & H2 & H3 & Hfs & Hnames).
  exists w'. split; [done|]. split; [done|]. split; [|split].
  - unfold file_at, cert. by rewrite (fs_lookup_child _ _ _ _ Hfs), lookup_singleton_eq.
  - intros q Hq Hne. by eapply file_at_only_entry.
  - intros q Hq.
    rewrite (fs_write_frame _ _ _ _ q H3), (fs_mkdir_frame _ _ _ _ q H2).
    + by apply (fs_rmtree_frame _ _ _ _ H1).
    + intros ->. apply Hq. by exists ["jmc.txt"].
Qed.

(** X2: when there is no namespace folder yet and no ancestor of it is
    a file, [read_cert] makes the folder with a certificate of the names
    in force, keeps these names, and touches no other file. *)
Theorem read_cert_creates_namespace (config : dict string) (w : World)
    (output ns : string) :
  getitem "output" config = inr output →
  getitem "namespace" config = inr ns →
  let namespace_folder := Path output // "data" // ns in
  let cert_file := namespace_folder ++ ["jmc.txt"] in
  fs_lookup namespace_folder (fs w) = None →
  (∀ q s, q `prefix_of` namespace_folder → fs_lookup q (fs w) ≠ Some (File s)) →
  ∃ w',
    read_cert config w = (w', inr tt)
    ∧ names w' = names w
    ∧ fs_lookup namespace_folder (fs w')
      = Some (Dir {[ "jmc.txt" :=
                     File (cert_config_to_string (cert_of_names (names w))) ]})
    ∧ (∀ q, q ≠ cert_file → file_at q (fs w') = file_at q (fs w))
    ∧ trace w'
      = trace w ++ [ EvIsDir namespace_folder; EvMkdir namespace_folder;
                     EvWrite cert_file
                       (cert_config_to_string (cert_of_names (names w))) ].
Proof.
  intros Hout Hns nsf cert Hnone Hpre.
  destruct (fs_mkdir_absent nsf (fs w) Hnone Hpre) as (t1 & Hmk & Hl1).
  destruct (fs_write_child nsf "jmc.txt"
              (cert_config_to_string (cert_of_names (names w))) t1 ∅ Hl1)
    as (t2 & Hw & Hl2); [intros m'; by rewrite lookup_empty|].
  unfold read_cert, config_get, lift, bind. rewrite Hout, Hns.
  subst cert. change (Path output // "data" // ns) with nsf. clearbody nsf.
  unfold path_join. rewrite Path_cert.
  unfold get_names, is_dir. cbn [fs log]. rewrite Hnone.
  unfold ret, make_cert, bind, mkdir. cbn [fs log]. unfold parent.
  rewrite removelast_last, Hmk.
  unfold write_text. cbn [fs log set_fs]. rewrite Hw.
  eexists. split; [done|]. cbn [names fs trace log set_fs].
  split; [done|]. split; [by rewrite Hl2, insert_empty|]. split.
  - intros q Hq. rewrite (fs_write_frame _ _ _ _ q Hw) by done.
    by apply (fs_mkdir_frame false nsf).
  - by rewrite <- !app_assoc.
Qed.

(** X3: when the path of the namespace folder is a regular file,
    [read_cert] stops with [FileExistsError] ([make_cert] makes the
    folder with [exist_ok=False]) and the file tree is unchanged. *)
Theorem read_cert_namespace_is_a_file (config : dict string) (w : World)
    (output ns s : string) :
  getitem "output" config = inr output →
  getitem "namespace" config = inr ns →
  let namespace_folder := Path output // "data" // ns in
  fs_lookup namespace_folder (fs w) = Some (File s) →
  ∃ w',
    read_cert config w = (w', inl (OSError FileExistsError))
    ∧ fs w' = fs w ∧ names w' = names w.
Proof.
  intros Hout Hns nsf Hfile.
  unfold read_cert, config_get, lift, bind. rewrite Hout, Hns.
  change (Path output // "data" // ns) with nsf. clearbody nsf.
  unfold path_join. rewrite Path_cert.
  unfold get_names, is_dir. cbn [fs log]. rewrite Hfile.
  unfold ret, make_cert, bind, mkdir. cbn [fs log]. unfold parent.
  rewrite removelast_last, (fs_mkdir_on_file _ _ _ Hfile).
  by eexists.
Qed.

Lemma read_header_keeps_tree (config : dict string) (w : World) :
  fs (read_header config w).1 = fs w ∧ names (read_header config w).1 = names w.
Proof.
  unfold read_header, config_get, lift, bind.
  destruct (getitem "target" config) as [?|target]; [done|].
  unfold is_file, read_text. cbn [fs log set_header].
  destruct (fs_lookup _ (fs w)) as [[s|?]|]; try done.
  cbn [fs log set_header]. 
  destruct (fs_lookup _ (fs w)) as [[s'|?]|]; try done.
  cbn [fs log set_header header].
  by destruct (parse_header _ _ _ _).
Qed.

(** X4: the namespace is destroyed before the source is read: when,
    in a compilation into a certified namespace, the header is read
    without error and the call of the lexer that [compile] makes raises
    [e], then [compile] raises [e], and what is left of the namespace
    folder is the fresh certificate. *)
Theorem failed_compile_leaves_certificate_only (config : dict string)
    (debug : bool) (w : World) (output ns s : string) (m : gmap string node)
    (e : exn) :
  getitem "output" config = inr output →
  getitem "namespace" config = inr ns →
  let namespace_folder := Path output // "data" // ns in
  fs_lookup namespace_folder (fs w) = Some (Dir m) →
  m !! "jmc.txt" = Some (File s) →
  let w1 := (read_cert config (set_header Header_clear w)).1 in
  let w2 := (read_header config w1).1 in
  (read_header config w1).2 = inr tt →
  Lexer config (names w2) (header w2) (fs w2) = inl e →
  compile config debug w = (w2, inl e)
  ∧ fs_lookup namespace_folder (fs w2)
    = Some (Dir {[ "jmc.txt" :=
                   File (cert_config_to_string (cert_of_names (names w2))) ]}).
Proof.
  intros Hout Hns nsf Hdir Hcert w1 w2 Hheader Hlex. subst w1 w2.
  destruct (read_cert_certified config (set_header Header_clear w)
              output ns s m nsf Hout Hns eq_refl Hdir Hcert)
    as (w1 & Hrun & _ & _ & Hfs & _).
  rewrite Hrun in *. simpl in *.
  destruct (read_header_keeps_tree config w1) as [Hfs2 Hn2].
  rewrite compile_unfold, Hrun. unfold bind, run_lexer.
  destruct (read_header config w1) as [w2 r]. simpl in *. subst r.
  rewrite Hlex. split; [done|]. by rewrite Hfs2, Hn2.
Qed.

End ProtocolStates.

Lemma read_cert_replaces_namespace_only_witness :
  ∃ w',
    read_cert (ext := sample_externals) sample_config world_certified
    = (w', inr tt)
    ∧ file_at ["main.jmc"] (fs w') = Some "say hi"
    ∧ file_at (sample_namespace ++ ["old.txt"]) (fs w') = None.
Proof.
  destruct (read_cert_replaces_namespace_only (ext := sample_externals)
              sample_config world_certified "out" "this_ns" earlier_cert
              certified_entries)
    as (w' & Hrun & _ & _ & Hin & Hout).
  - reflexivity.
  - reflexivity.
  - vm_compute. reflexivity.
  - vm_compute. reflexivity.
  - exists w'. split; [exact Hrun|]. split.
    + rewrite Hout; [reflexivity|]. intros [k Hk]. discriminate Hk.
    + apply Hin; [by exists ["old.txt"] | discriminate].
Defined.

Lemma read_cert_creates_namespace_witness :
  ∃ w',
    read_cert (ext := sample_externals) sample_config world_fresh = (w', inr tt)
    ∧ names w' = sample_names
    ∧ fs_lookup sample_namespace (fs w')
      = Some (Dir {[ "jmc.txt" :=
                     File (cert_config_to_string (cert_of_names sample_names)) ]}).
Proof.
  destruct (read_cert_creates_namespace (ext := sample_externals)
              sample_config world_fresh "out" "this_ns")
    as (w' & Hrun & Hnames & Hfs & _).
  - reflexivity.
  - reflexivity.
  - vm_compute. reflexivity.
  - intros q s [k Hk].
    change (Path "out" // "data" // "this_ns")
      with ["out"; "data"; "this_ns"] in Hk.
    destruct q as [|c1 [|c2 [|c3 [|c4 q]]]]; simpl in Hk; simplify_eq;
      vm_compute; discriminate.
  - exists w'. split; [exact Hrun|]. split; [exact Hnames | exact Hfs].
Defined.

Lemma read_cert_namespace_is_a_file_witness :
  ∃ w',
    read_cert (ext := sample_externals) sample_config world_namespace_is_file
    = (w', inl (OSError FileExistsError))
    ∧ fs w' = fs world_namespace_is_file.
Proof.
  destruct (read_cert_namespace_is_a_file (ext := sample_externals)
              sample_config world_namespace_is_file "out" "this_ns" "x")
    as (w' & Hrun & Hfs & _).
  - reflexivity.
  - reflexivity.
  - vm_compute. reflexivity.
  - exists w'. split; [exact Hrun | exact Hfs].
Defined.

Lemma failed_compile_leaves_certificate_only_witness :
  ∃ w',
    compile (ext := sample_externals) config_absent_target false world_certified
    = (w', inl (OSError FileNotFoundError))
    ∧ fs_lookup sample_namespace (fs w')
      = Some (Dir {[ "jmc.txt" := File earlier_cert ]}).
Proof.
  eexists.
  apply (failed_compile_leaves_certificate_only (ext := sample_externals)
           config_absent_target false world_certified "out" "this_ns"
           earlier_cert certified_entries (OSError FileNotFoundError)).
  - reflexivity.
  - reflexivity.
  - vm_compute. reflexivity.
  - vm_compute. reflexivity.
  - vm_compute. reflexivity.
  - vm_compute. reflexivity.
Defined.

(** ** The certificate text *)

Section CertText.

Lemma join_cons2 (sep x y : string) (l : list string) :
  Py.join sep (x :: y :: l) = x +:+ sep +:+ Py.join sep (y :: l).
Proof. done. Qed.

Lemma split_join_lines (lines : list string) :
  lines ≠ [] →
  (∀ l, l ∈ lines → occurs "010" l = false) →
  Py.split_on "010" (Py.join newline lines) = lines.
Proof.
  induction lines as [|x lines IH]; [done|]. intros _ Hno.
  destruct lines as [|y lines].
  - apply split_on_absent. apply Hno. left.
  - rewrite join_cons2. unfold newline at 1.
    change (String "010" "" +:+ Py.join newline (y :: lines))
      with (String "010"%char (Py.join newline (y :: lines))).
    rewrite split_on_app by (apply Hno; left).
    rewrite IH; [done|done|]. intros l Hl. apply Hno. by right.
Qed.

Lemma split_cert_line_clean (k v : string) :
  occurs "=" k = false → occurs "=" v = false →
  Py.split_on "=" (k +:+ "=" +:+ v) = [k; v].
Proof.
  intros Hk Hv. change ("=" +:+ v) with (String "="%char v).
  rewrite split_on_app by done. by rewrite split_on_absent.
Qed.

(** Parsing the lines written for [d] adds the entries of [d], in order,
    to the entries parsed so far. *)
Lemma cert_lines_written (d acc : dict string) :
  NoDup (acc.*1 ++ d.*1) →
  (∀ kv, kv ∈ d → clean_name kv.1 ∧ clean_name kv.2) →
  cert_lines (map (λ kv, kv.1 +:+ "=" +:+ kv.2) d) acc = inr (acc ++ d).
Proof.
  revert acc. induction d as [|[k v] d IH]; intros acc Hnd Hclean; simpl.
  - by rewrite app_nil_r.
  - destruct (Hclean (k, v)) as [(Hk1 & _ & Hk3) (Hv1 & _ & Hv3)]; [left|].
    simpl in *. rewrite split_cert_line_clean, Hk3, Hv3 by done.
    apply NoDup_app in Hnd as (Hacc & Hdis & Hd).
    rewrite dict_set_fresh by (intros Hin; apply (Hdis k Hin); left).
    rewrite IH.
    + by rewrite <- app_assoc.
    + rewrite fmap_app. simpl. apply NoDup_cons in Hd as [Hk Hd].
      apply NoDup_app. split; [|split; [|done]].
      * apply NoDup_app. split; [done|]. split; [|apply NoDup_singleton].
        intros x Hx Hx'. apply list_elem_of_singleton in Hx' as ->.
        apply (Hdis k Hx). left.
      * intros x Hx Hx'. apply elem_of_app in Hx as [Hx|Hx].
        -- apply (Hdis x Hx). by right.
        -- apply list_elem_of_singleton in Hx as ->. done.
    + intros kv Hkv. apply Hclean. by right.
Qed.

Lemma cert_line_no_newline (kv : string * string) :
  clean_name kv.1 → clean_name kv.2 →
  occurs "010" (kv.1 +:+ "=" +:+ kv.2) = false.
Proof.
  intros (_ & Hk & _) (_ & Hv & _). by rewrite !occurs_app, Hk, Hv.
Qed.

Lemma cert_roundtrip_dict (d : dict string) :
  d ≠ [] → NoDup d.*1 →
  (∀ kv, kv ∈ d → clean_name kv.1 ∧ clean_name kv.2) →
  string_to_cert_config (cert_config_to_string d) = inr d.
Proof.
  intros Hne Hnd Hclean. unfold string_to_cert_config, cert_config_to_string.
  rewrite split_join_lines.
  - by rewrite cert_lines_written.
  - by destruct d.
  - intros l Hl. apply list_elem_of_fmap in Hl as (kv & -> & Hkv).
    destruct (Hclean kv Hkv). by apply cert_line_no_newline.
Qed.

Lemma dict_set_keys {V} (k : string) (v : V) (d : dict V) :
  (dict_set k v d).*1 = if dict_mem k d then d.*1 else d.*1 ++ [k].
Proof.
  unfold dict_mem. induction d as [|[k0 v0] d IH]; [done|].
  cbn [dict_set dict_get].
  destruct (String.eqb k0 k) eqn:E; [done|].
  rewrite fmap_cons, IH. by destruct (dict_get k d).
Qed.

Lemma dict_set_NoDup {V} (k : string) (v : V) (d : dict V) :
  NoDup d.*1 → NoDup (dict_set k v d).*1.
Proof.
  intros Hnd. rewrite dict_set_keys. destruct (dict_mem k d) eqn:E; [done|].
  apply NoDup_app. split; [done|]. split; [|apply NoDup_singleton].
  intros x Hx Hx'. apply list_elem_of_singleton in Hx' as ->.
  apply dict_mem_true in Hx. congruence.
Qed.

Lemma dict_set_elem {V} (k : string) (v : V) (d : dict V) (kv : string * V) :
  kv ∈ dict_set k v d → kv = (k, v) ∨ kv ∈ d.
Proof.
  induction d as [|[k0 v0] d IH]; simpl.
  - intros H. apply list_elem_of_singleton in H. by left.
  - destruct (String.eqb k0 k) eqn:E.
    + apply String.eqb_eq in E. subst k0. intros H.
      apply elem_of_cons in H as [->|H]; [by left | right; by right].
    + intros H. apply elem_of_cons in H as [->|H]; [right; left|].
      destruct (IH H) as [->|H']; [by left | right; by right].
Qed.

Lemma dict_set_nonempty {V} (k : string) (v : V) (d : dict V) :
  dict_set k v d ≠ [].
Proof. destruct d as [|[k0 v0] d]; simpl; [done|]. by destruct (String.eqb k0 k). Qed.

(** What the loop of [string_to_cert_config] keeps true of the entries
    parsed so far. *)
Lemma cert_lines_wellformed (lines : list string) (acc cfg : dict string) :
  (∀ line, line ∈ lines → occurs "010" line = false) →
  NoDup acc.*1 →
  (∀ kv, kv ∈ acc → clean_name kv.1 ∧ clean_name kv.2) →
  cert_lines lines acc = inr cfg →
  (lines ≠ [] ∨ acc ≠ [] → cfg ≠ [])
  ∧ NoDup cfg.*1
  ∧ ∀ kv, kv ∈ cfg → clean_name kv.1 ∧ clean_name kv.2.
Proof.
  revert acc. induction lines as [|line rest IH]; intros acc Hlines Hnd Hclean; simpl.
  - intros [= <-]. split; [|done]. by intros [?|?].
  - destruct (Py.split_on "=" line) as [|key [|value [|? ?]]] eqn:E; try done.
    intros Hrun.
    assert (∀ piece, piece ∈ Py.split_on "=" line → clean_name (Py.strip piece))
      as Hpiece.
    { intros piece Hin. split; [|split].
      - apply strip_keeps_absent. by eapply split_on_pieces.
      - apply strip_keeps_absent.
        eapply split_on_keeps_absent; [|done]. apply Hlines. left.
      - apply strip_idemp. }
    destruct (IH (dict_set (Py.strip key) (Py.strip value) acc))
      as (Hne & Hnd' & Hclean'); [| | |done|].
    + intros l Hl. apply Hlines. by right.
    + by apply dict_set_NoDup.
    + intros kv Hkv. apply dict_set_elem in Hkv as [->|Hkv]; [|by apply Hclean].
      simpl. split; apply Hpiece; rewrite E; [left | right; left].
    + split; [|done]. intros _. apply Hne. right. apply dict_set_nonempty.
Qed.

(** X5: a certificate configuration with at least one entry, distinct
    keys, and keys and values free of [=], of line breaks and of blanks
    at their ends is read back from its text as it was written. *)
Theorem cert_config_roundtrip (d : dict string) :
  d ≠ [] → NoDup d.*1 →
  (∀ kv, kv ∈ d → clean_name kv.1 ∧ clean_name kv.2) →
  string_to_cert_config (cert_config_to_string d) = inr d.
Proof. apply cert_roundtrip_dict. Qed.

(** X6: whatever [string_to_cert_config] returns has at least one
    entry, distinct keys, and keys and values without [=], line break or
    outer blanks; so writing it with [cert_config_to_string] and reading
    the text again gives the same configuration. *)
Theorem string_to_cert_config_normal (s : string) (cfg : dict string) :
  string_to_cert_config s = inr cfg →
  cfg ≠ [] ∧ NoDup cfg.*1
  ∧ (∀ kv, kv ∈ cfg → clean_name kv.1 ∧ clean_name kv.2)
  ∧ string_to_cert_config (cert_config_to_string cfg) = inr cfg.
Proof.
  intros Hparse.
  destruct (cert_lines_wellformed (Py.split_on "010" s) [] cfg)
    as (Hne & Hnd & Hclean).
  - intros line. apply split_on_pieces.
  - apply NoDup_nil_2.
  - intros kv Hkv. by apply elem_of_nil in Hkv.
  - exact Hparse.
  - assert (cfg ≠ []) as Hne' by (apply Hne; left; apply split_on_nonempty).
    split; [done|]. split; [done|]. split; [done|].
    by apply cert_roundtrip_dict.
Qed.

Lemma split_on_trailing (sep : ascii) (s : string) :
  ∃ pieces, pieces ≠ []
            ∧ Py.split_on sep (s +:+ String sep "") = pieces ++ [""].
Proof.
  induction s as [|c s (pieces & Hne & IH)].
  - exists [""]. split; [done|]. simpl. by rewrite Ascii.eqb_refl.
  - rewrite append_cons. simpl. rewrite IH. destruct (Ascii.eqb c sep).
    + by exists ("" :: pieces).
    + destruct pieces as [|w ps]; [done|]. by exists (String c w :: ps).
Qed.

(** X7: [string_to_cert_config] raises nothing but [ValueError], and it
    raises it for the empty text and for every text that ends with a line
    break: a certificate saved with a final newline is malformed. *)
Theorem string_to_cert_config_final_newline :
  (∀ s e, string_to_cert_config s = inl e → e = ValueError)
  ∧ string_to_cert_config "" = inl ValueError
  ∧ ∀ s, string_to_cert_config (s +:+ newline) = inl ValueError.
Proof.
  split; [|split].
  - intros s e. apply cert_lines_error.
  - reflexivity.
  - intros s. apply cert_lines_malformed. exists "". unfold newline.
    destruct (split_on_trailing "010" s) as (pieces & _ & ->).
    split; [|simpl; lia]. apply elem_of_app. right. left.
Qed.

End CertText.

Lemma cert_config_roundtrip_witness :
  string_to_cert_config (cert_config_to_string [ ("LOAD", "load"); ("X", "") ])
  = inr [ ("LOAD", "load"); ("X", "") ].
Proof.
  apply cert_config_roundtrip.
  - discriminate.
  - apply (bool_decide_unpack _). vm_compute. exact I.
  - intros kv Hkv. apply elem_of_cons in Hkv as [-> | Hkv].
    + vm_compute. repeat split; reflexivity.
    + apply list_elem_of_singleton in Hkv as ->.
      vm_compute. repeat split; reflexivity.
Defined.

Lemma string_to_cert_config_normal_witness :
  string_to_cert_config (cert_config_to_string [ ("A", "2"); ("B", "c d") ])
  = inr [ ("A", "2"); ("B", "c d") ].
Proof.
  apply (string_to_cert_config_normal
           (" A = 1" +:+ newline +:+ "B=c d " +:+ newline +:+ "A=2")
           [ ("A", "2"); ("B", "c d") ]).
  vm_compute. reflexivity.
Defined.

(** ** Reading a function tag *)

Section TagReading.
Context {ext : Externals}.

Lemma strip_namespace_kept (config : dict string) (ns : string)
    (values kept : list json) :
  getitem "namespace" config = inr ns →
  strip_namespace config values = inr kept →
  ∀ x, x ∈ kept →
       x ∈ values ∧ ∃ s, x = JStr s ∧ Py.startswith s (ns +:+ ":") = false.
Proof.
  intros Hns. revert kept. induction values as [|v values IH]; intros kept; simpl.
  - intros [= <-] x Hx. by apply elem_of_nil in Hx.
  - destruct v as [| | |s| |]; try done. rewrite Hns. simpl.
    destruct (strip_namespace config values) as [?|rest]; [done|]. simpl.
    intros [= <-] x Hx.
    destruct (Py.startswith s (ns +:+ ":")) eqn:E.
    + destruct (IH rest eq_refl x Hx) as [Hin Hs]. split; [by right | done].
    + apply elem_of_cons in Hx as [-> | Hx].
      * split; [left | by exists s].
      * destruct (IH rest eq_refl x Hx) as [Hin Hs]. split; [by right | done].
Qed.

Lemma strip_namespace_not_string (config : dict string) (ns : string)
    (values : list json) :
  getitem "namespace" config = inr ns →
  (∃ x, x ∈ values ∧ ∀ s, x ≠ JStr s) →
  strip_namespace config values = inl AttributeError.
Proof.
  intros Hns. induction values as [|v values IH]; intros (x & Hx & Hnot).
  - by apply elem_of_nil in Hx.
  - simpl. destruct v as [| | |s| |]; try done. rewrite Hns. simpl.
    apply elem_of_cons in Hx as [-> | Hx]; [by destruct (Hnot s)|].
    rewrite IH; [done|]. by exists x.
Qed.

(** X8: [read_func_tag] only reads: whatever it returns or raises, the
    file tree and the reserved names are the ones it was given. When it
    returns, the result is an object whose [values] is a list of strings
    none of which starts with [<namespace>:]. *)
Theorem read_func_tag_only_reads (p : path) (config : dict string) (w : World)
    (ns : string) :
  getitem "namespace" config = inr ns →
  fs (read_func_tag p config w).1 = fs w
  ∧ names (read_func_tag p config w).1 = names w
  ∧ ∀ j, (read_func_tag p config w).2 = inr j →
      ∃ d l, j = JObj d ∧ dict_get "values" d = Some (JArr l)
             ∧ ∀ x, x ∈ l →
                 ∃ s, x = JStr s ∧ Py.startswith s (ns +:+ ":") = false.
Proof.
  intros Hns. unfold read_func_tag, bind, is_file, read_text. cbn [fs log].
  destruct (fs_lookup p (fs w)) as [[content|?]|] eqn:Hp; cbn [fs log].
  2,3: split; [done|]; split; [done|]; intros j [= <-];
       exists [("values", JArr [])], []; split; [done|]; split; [done|];
       intros x Hx; by apply elem_of_nil in Hx.
  rewrite Hp. destruct (json_loads content) as [j0|]; [|done].
  destruct (strip_tag_values config j0) as [e|j1] eqn:Hstrip.
  - by destruct e.
  - split; [done|]. split; [done|]. simpl. intros j [= <-].
    unfold strip_tag_values in Hstrip.
    destruct (json_getitem j0 "values") as [?|values]; [done|]. simpl in Hstrip.
    destruct (json_iter values) as [?|items]; [done|]. simpl in Hstrip.
    destruct (strip_namespace config items) as [?|kept] eqn:Hkept; [done|].
    simpl in Hstrip. destruct j0 as [| | | | |d]; try done.
    simplify_eq. exists (dict_set "values" (JArr kept) d), kept.
    split; [done|]. split; [apply dict_get_set_eq|].
    intros x Hx.
    by destruct (strip_namespace_kept config ns items kept Hns Hkept x Hx).
Qed.

(** X9: a tag file that parses but is no object, or whose [values] is
    null, a boolean or a number, makes [read_func_tag] raise [TypeError];
    one whose [values] list has an entry that is no string makes it raise
    [AttributeError]. Neither is turned into a build error. *)
Theorem read_func_tag_uncaught_errors (p : path) (config : dict string)
    (w : World) (content ns : string) (j : json) :
  getitem "namespace" config = inr ns →
  fs_lookup p (fs w) = Some (File content) →
  json_loads content = Some j →
  ((∀ d, j ≠ JObj d) → (read_func_tag p config w).2 = inl TypeError)
  ∧ (∀ d v, j = JObj d → dict_get "values" d = Some v →
       (v = JNull ∨ (∃ b, v = JBool b) ∨ (∃ n, v = JNum n)) →
       (read_func_tag p config w).2 = inl TypeError)
  ∧ (∀ d l, j = JObj d → dict_get "values" d = Some (JArr l) →
       (∃ x, x ∈ l ∧ ∀ s, x ≠ JStr s) →
       (read_func_tag p config w).2 = inl AttributeError).
Proof.
  intros Hns Hfile Hloads.
  unfold read_func_tag, bind, is_file, read_text. cbn [fs log].
  rewrite Hfile. cbn [fs log]. rewrite Hfile, Hloads.
  split; [|split].
  - intros Hobj. destruct j as [| | | | |d]; try done. by destruct (Hobj d).
  - intros d v -> Hv Hkind. unfold strip_tag_values, json_getitem, getitem.
    rewrite Hv. by destruct Hkind as [-> | [[b ->] | [n ->]]].
  - intros d l -> Hv Hbad. unfold strip_tag_values, json_getitem, getitem.
    rewrite Hv. cbn [res_bind json_iter].
    by rewrite (strip_namespace_not_string config ns l Hns Hbad).
Qed.

End TagReading.

Lemma read_func_tag_only_reads_witness :
  fs (read_func_tag (ext := sample_externals)
        (sample_tag_path ++ ["load.json"]) sample_config world_certified).1
  = fs world_certified.
Proof.
  apply (read_func_tag_only_reads (ext := sample_externals) _ sample_config
           world_certified "this_ns").
  reflexivity.
Defined.

(** ** Compiling twice *)

Section TagsTwice.
Context {ext : Externals}.

Lemma append_assoc (a b c : string) : (a +:+ b) +:+ c = a +:+ b +:+ c.
Proof. induction a as [|x a IH]; [done|]. by rewrite !append_cons, IH. Qed.

Lemma startswith_append (a c : string) : Py.startswith (a +:+ c) a = true.
Proof.
  unfold Py.startswith. induction a as [|x a IH].
  - by destruct c.
  - rewrite append_cons. simpl. by destruct (ascii_dec x x).
Qed.

Lemma own_reference_starts (ns name : string) :
  Py.startswith (ns +:+ ":" +:+ name) (ns +:+ ":") = true.
Proof. rewrite <- append_assoc. apply startswith_append. Qed.

Lemma merged_values_again (ns ref : string) (vs : list string) :
  Py.startswith ref (ns +:+ ":") = true →
  merged_values ns (merged_values ns vs ref) ref = merged_values ns vs ref.
Proof.
  intros Href. unfold merged_values. f_equal.
  rewrite filter_app, filter_cons, decide_False by (by rewrite Href).
  rewrite filter_nil, app_nil_r.
  induction vs as [|v vs IH]; [done|]. rewrite !filter_cons.
  case_decide as Hv; [|done]. by rewrite filter_cons, decide_True, IH.
Qed.

Lemma fs_lookup_parent (p : path) (c : string) (t n : node) :
  fs_lookup (p ++ [c]) t = Some n →
  ∃ m, fs_lookup p t = Some (Dir m) ∧ m !! c = Some n.
Proof.
  rewrite fs_lookup_app. destruct (fs_lookup p t) as [[?|m]|]; try done.
  simpl. destruct (m !! c) as [n'|] eqn:E; [|done]. intros [= <-]. by exists m.
Qed.

Lemma with_values_again (d : dict json) (vs vs' : list string) :
  with_values (dict_set "values" (JArr (JStr <$> vs)) d) vs' = with_values d vs'.
Proof. unfold with_values. by rewrite dict_set_set. Qed.

(** X10: when [json.loads] reads back the two objects that [json.dump]
    writes, the function tags do not grow from one compilation to the
    next: run on the tree it has just produced, [write_function_tags]
    writes both tag files with the content they already have. *)
Theorem function_tags_stable (dp : DataPack) (config : dict string) (w : World)
    (output ns : string) (m : gmap string node)
    (dl dt : dict json) (vl vt : list string) :
  getitem "output" config = inr output →
  getitem "namespace" config = inr ns →
  let tags := Path output // "data" // "minecraft" // "tags" // "functions" in
  let load1 :=
    with_values dl (merged_values ns vl (ns +:+ ":" +:+ LOAD_NAME (names w))) in
  let tick1 :=
    with_values dt (merged_values ns vt (ns +:+ ":" +:+ TICK_NAME (names w))) in
  json_loads (json_dumps load1) = Some load1 →
  json_loads (json_dumps tick1) = Some tick1 →
  fs_lookup tags (fs w) = Some (Dir m) →
  tag_entries (fs w) (tags ++ ["load.json"]) dl vl →
  tag_entries (fs w) (tags ++ ["tick.json"]) dt vt →
  ∃ w1 w2,
    write_function_tags dp config w = (w1, inr tt)
    ∧ write_function_tags dp config w1 = (w2, inr tt)
    ∧ fs_lookup (tags ++ ["load.json"]) (fs w2)
      = fs_lookup (tags ++ ["load.json"]) (fs w1)
    ∧ fs_lookup (tags ++ ["tick.json"]) (fs w2)
      = fs_lookup (tags ++ ["tick.json"]) (fs w1).
Proof.
  intros Hout Hns tags jl jt Hrl Hrt Hdir Hload Htick. subst jl jt.
  assert (tags = Path output // "data" // "minecraft" // "tags" // "functions")
    as Htags by reflexivity.
  clearbody tags.
  destruct (write_function_tags_merged dp config w output ns m tags
              dl dt vl vt Hout Hns Htags Hdir Hload Htick)
    as (w1 & Hrun1 & Hn1 & Hl1 & Ht1 & Hu1).
  destruct (fs_lookup_parent _ _ _ _ Hl1) as (m1 & Hdir1 & _).
  set (load1 := merged_values ns vl (ns +:+ ":" +:+ LOAD_NAME (names w))) in *.
  set (tick1 := merged_values ns vt (ns +:+ ":" +:+ TICK_NAME (names w))) in *.
  assert (tag_entries (fs w1) (tags ++ ["load.json"])
            (dict_set "values" (JArr (JStr <$> load1)) dl) load1) as Hload1.
  { right. eexists. split; [exact Hl1|]. split; [exact Hrl|].
    apply dict_get_set_eq. }
  destruct (has_tick_function (names w) dp) eqn:Hhas.
  - assert (tag_entries (fs w1) (tags ++ ["tick.json"])
              (dict_set "values" (JArr (JStr <$> tick1)) dt) tick1) as Htick1.
    { right. eexists. split; [by apply Ht1|]. split; [exact Hrt|].
      apply dict_get_set_eq. }
    destruct (write_function_tags_merged dp config w1 output ns m1 tags
                _ _ _ _ Hout Hns Htags Hdir1 Hload1 Htick1)
      as (w2 & Hrun2 & Hn2 & Hl2 & Ht2 & _).
    exists w1, w2. split; [done|]. split; [done|].
    rewrite Hn1 in Hl2, Ht2. fold load1 tick1 in Hl2, Ht2.
    rewrite Hl2, Hl1, Ht2, Ht1 by (done || by rewrite Hn1).
    rewrite !with_values_again.
    unfold load1, tick1. by rewrite !merged_values_again
      by apply own_reference_starts.
  - assert (tag_entries (fs w1) (tags ++ ["tick.json"]) dt vt) as Htick1.
    { unfold tag_entries. rewrite (Hu1 eq_refl). exact Htick. }
    destruct (write_function_tags_merged dp config w1 output ns m1 tags
                _ _ _ _ Hout Hns Htags Hdir1 Hload1 Htick1)
      as (w2 & Hrun2 & Hn2 & Hl2 & _ & Hu2).
    exists w1, w2. split; [done|]. split; [done|].
    rewrite Hn1 in Hl2. fold load1 in Hl2.
    rewrite Hl2, Hl1, Hu2 by (by rewrite Hn1).
    rewrite with_values_again. split; [|done].
    unfold load1. by rewrite merged_values_again by apply own_reference_starts.
Qed.

End TagsTwice.

Lemma function_tags_stable_witness :
  ∃ w1 w2,
    write_function_tags (ext := sample_externals) datapack_with_tick
      sample_config world_certified = (w1, inr tt)
    ∧ write_function_tags (ext := sample_externals) datapack_with_tick
        sample_config w1 = (w2, inr tt)
    ∧ fs_lookup (sample_tag_path ++ ["load.json"]) (fs w2)
      = fs_lookup (sample_tag_path ++ ["load.json"]) (fs w1)
    ∧ fs_lookup (sample_tag_path ++ ["tick.json"]) (fs w2)
      = fs_lookup (sample_tag_path ++ ["tick.json"]) (fs w1).
Proof.
  apply (function_tags_stable (ext := sample_externals) datapack_with_tick
           sample_config world_certified "out" "this_ns"
           (sample_tag_folder (Some "values=other_ns:foo,this_ns:old")
              (Some "values=this_ns:tick,other_ns:t"))
           [ ("values", JArr [JStr "other_ns:foo"; JStr "this_ns:old"]) ]
           [ ("values", JArr [JStr "this_ns:tick"; JStr "other_ns:t"]) ]
           ["other_ns:foo"; "this_ns:old"] ["this_ns:tick"; "other_ns:t"]).
  - reflexivity.
  - reflexivity.
  - vm_compute. reflexivity.
  - vm_compute. reflexivity.
  - vm_compute. reflexivity.
  - right. exists "values=other_ns:foo,this_ns:old".
    split; [vm_compute; reflexivity|]. split; reflexivity.
  - right. exists "values=this_ns:tick,other_ns:t".
    split; [vm_compute; reflexivity|]. split; reflexivity.
Defined.

Lemma read_func_tag_uncaught_errors_witness :
  (read_func_tag (ext := odd_externals) (sample_tag_path ++ ["load.json"])
     sample_config (odd_world "[]")).2 = inl TypeError
  ∧ (read_func_tag (ext := odd_externals) (sample_tag_path ++ ["load.json"])
       sample_config (odd_world "values=1")).2 = inl AttributeError.
Proof.
  split.
  - apply (read_func_tag_uncaught_errors (ext := odd_externals)
             (sample_tag_path ++ ["load.json"]) sample_config
             (odd_world "[]") "[]" "this_ns" (JArr [])); try reflexivity.
    discriminate.
  - eapply (proj2 (proj2 (read_func_tag_uncaught_errors (ext := odd_externals)
             (sample_tag_path ++ ["load.json"]) sample_config
             (odd_world "values=1") "values=1" "this_ns"
             (JObj [ ("values", JArr [JNum 1]) ]) eq_refl eq_refl eq_refl)));
      try reflexivity.
    exists (JNum 1). split; [left | discriminate].
Defined.

(** ** The manifest and the header *)

Section ManifestAndHeader.
Context {ext : Externals}.

Lemma Path_pack : Path "pack.mcmeta" = ["pack.mcmeta"].
Proof. reflexivity. Qed.

(** X11: [build] opens [pack.mcmeta] before it computes the manifest:
    when [pack_format] is missing or is no integer, or [description] is
    missing, [write_pack_mcmeta] raises and leaves an empty [pack.mcmeta];
    otherwise the file holds the manifest with the integer and the
    description. *)
Theorem write_pack_mcmeta_outcomes (config : dict string) (w : World)
    (output : string) (m : gmap string node) :
  getitem "output" config = inr output →
  fs_lookup (Path output) (fs w) = Some (Dir m) →
  (∀ m', m !! "pack.mcmeta" ≠ Some (Dir m')) →
  let pack := Path output ++ ["pack.mcmeta"] in
  let w' := (write_pack_mcmeta config w).1 in
  match getitem "pack_format" config with
  | inl e =>
      (write_pack_mcmeta config w).2 = inl e ∧ file_at pack (fs w') = Some ""
  | inr pack_format =>
      match py_int pack_format with
      | None =>
          (write_pack_mcmeta config w).2 = inl ValueError
          ∧ file_at pack (fs w') = Some ""
      | Some n =>
          match getitem "description" config with
          | inl e =>
              (write_pack_mcmeta config w).2 = inl e
              ∧ file_at pack (fs w') = Some ""
          | inr description =>
              (write_pack_mcmeta config w).2 = inr tt
              ∧ file_at pack (fs w')
                = Some (json_dumps
                    (JObj [ ("pack", JObj [ ("pack_format", JNum n);
                                            ("description", JStr description) ]) ]))
          end
      end
  end.
Proof.
  intros Hout Hdir Hnd pack w'. subst pack w'.
  destruct (fs_write_child (Path output) "pack.mcmeta" "" (fs w) m Hdir Hnd)
    as (t1 & Hw1 & Hl1).
  assert (file_at (Path output ++ ["pack.mcmeta"]) t1 = Some "") as Hempty.
  { unfold file_at. by rewrite (fs_lookup_child _ _ _ _ Hl1), lookup_insert_eq. }
  unfold write_pack_mcmeta, config_get, lift, bind, write_text. rewrite Hout.
  unfold path_join. rewrite Path_pack, Hw1. cbn [fs log set_fs].
  destruct (getitem "pack_format" config) as [e|pack_format];
    cbn [fst snd fs log set_fs]; [by split|].
  destruct (py_int pack_format) as [n|];
    cbn [fst snd fs log set_fs]; [|by split].
  destruct (getitem "description" config) as [e|description];
    cbn [fst snd fs log set_fs]; [by split|].
  destruct (fs_write_child (Path output) "pack.mcmeta"
              (json_dumps (JObj [ ("pack", JObj [ ("pack_format", JNum n);
                                  ("description", JStr description) ]) ]))
              t1 _ Hl1) as (t2 & Hw2 & Hl2).
  { intros m'. by rewrite lookup_insert_eq. }
  rewrite Hw2. cbn [fst snd fs log set_fs].
  split; [done|]. unfold file_at.
  by rewrite (fs_lookup_child _ _ _ _ Hl2), lookup_insert_eq.
Qed.

Lemma length_append (a b : string) :
  String.length (a +:+ b) = String.length a + String.length b.
Proof. induction a as [|c a IH]; [done|]. rewrite append_cons. simpl. by rewrite IH. Qed.

Lemma substring_prefix (a b : string) :
  String.substring 0 (String.length a) (a +:+ b) = a.
Proof.
  induction a as [|c a IH].
  - by destruct b.
  - rewrite append_cons. simpl. by rewrite IH.
Qed.

Lemma drop_last_suffix (stem suffix : string) :
  Py.drop_last (String.length suffix) (stem +:+ suffix) = stem.
Proof.
  unfold Py.drop_last. rewrite length_append.
  replace (String.length stem + String.length suffix - String.length suffix)
    with (String.length stem) by lia.
  apply substring_prefix.
Qed.

(** X12: for a target [<stem>.jmc], [read_header] looks for the file
    [<stem>.hjmc]. Without it nothing happens; with it, its content goes
    to [parse_header] together with the folder of the target, and an
    error of the parser is the error of [read_header]. The file tree is
    never changed. *)
Theorem read_header_of_target (config : dict string) (w : World) (stem : string) :
  getitem "target" config = inr (stem +:+ ".jmc") →
  let header_file := Path (stem +:+ ".hjmc") in
  let w' := (read_header config w).1 in
  fs w' = fs w
  ∧ match fs_lookup header_file (fs w) with
    | Some (File header_str) =>
        match parse_header header_str header_file
                (parent (Path (stem +:+ ".jmc")))
                (Header_add_file_read header_file (header w)) with
        | inr h => (read_header config w).2 = inr tt ∧ header w' = h
        | inl e => (read_header config w).2 = inl e
        end
    | _ => (read_header config w).2 = inr tt ∧ header w' = header w
    end.
Proof.
  intros Htarget header_file w'. subst header_file w'.
  unfold read_header, config_get, lift, bind. rewrite Htarget.
  change 4 with (String.length ".jmc"). rewrite drop_last_suffix.
  unfold is_file, read_text. cbn [fs log set_header].
  destruct (fs_lookup (Path (stem +:+ ".hjmc")) (fs w)) as [[s|?]|] eqn:Hf;
    cbn [fs log set_header header]; try done.
  rewrite Hf. cbn [fs log set_header header].
  by destruct (parse_header _ _ _ _).
Qed.

End ManifestAndHeader.

Lemma write_pack_mcmeta_outcomes_witness :
  (write_pack_mcmeta (ext := sample_externals)
     [ ("output", "out"); ("pack_format", "ten") ] world_certified).2
  = inl ValueError
  ∧ file_at ["out"; "pack.mcmeta"]
      (fs (write_pack_mcmeta (ext := sample_externals)
             [ ("output", "out"); ("pack_format", "ten") ] world_certified).1)
    = Some "".
Proof.
  apply (write_pack_mcmeta_outcomes (ext := sample_externals)
           [ ("output", "out"); ("pack_format", "ten") ] world_certified "out"
           {[ "data" := default (Dir ∅)
                (fs_lookup ["out"; "data"] (fs world_certified)) ]}).
  - reflexivity.
  - vm_compute. reflexivity.
  - intros m'. vm_compute. discriminate.
Defined.

Lemma read_header_of_target_witness :
  (read_header (ext := odd_externals) sample_config
     (mkWorld (ext := odd_externals) tree_with_header sample_names tt [])).2
  = inl (JMCSyntaxError "bad header" (sample_token "#")).
Proof.
  apply (read_header_of_target (ext := odd_externals) sample_config
           (mkWorld (ext := odd_externals) tree_with_header sample_names tt [])
           "main").
  reflexivity.
Defined.

(** ** Items that are built *)

Section ItemsBuilt.
Context {bi : Builtins}.

Lemma overlay_nbt_disjoint (error_token : option Token)
    (modify_nbt nbt : dict Token) :
  NoDup modify_nbt.*1 →
  (∀ k, k ∈ modify_nbt.*1 → k ∉ nbt.*1) →
  overlay_nbt error_token modify_nbt nbt = inr (nbt ++ modify_nbt).
Proof.
  revert nbt. induction modify_nbt as [|[key value] rest IH]; intros nbt Hnd Hdis.
  - simpl. by rewrite app_nil_r.
  - simpl in *. apply NoDup_cons in Hnd as [Hfresh Hnd].
    assert (key ∉ nbt.*1) as Hkey by (apply Hdis; left).
    assert (dict_mem key nbt = false) as ->.
    { destruct (dict_mem key nbt) eqn:E; [|done]. by apply dict_mem_true in E. }
    rewrite dict_set_fresh by done. rewrite IH; [by rewrite <- app_assoc|done|].
    intros k Hk. rewrite fmap_app. simpl. intros Hin.
    apply elem_of_app in Hin as [Hin|Hin].
    + apply (Hdis k); [by right | done].
    + apply list_elem_of_singleton in Hin as ->. done.
Qed.

(** X13: copying an Item with overrides whose keys are distinct and new
    to its NBT gives an Item of the same type whose NBT is the NBT of the
    original followed by the overrides, in their order. *)
Theorem create_new_item_appends (item : Item) (modify_nbt : dict Token)
    (error_token : option Token) (raw : string) :
  NoDup modify_nbt.*1 →
  (∀ k, k ∈ modify_nbt.*1 → k ∉ (raw_nbt item).*1) →
  token_dict_to_raw_js_object (raw_nbt item ++ modify_nbt) = inr raw →
  create_new_item item (Some modify_nbt) error_token
  = inr (mkItem (item_type item) raw (raw_nbt item ++ modify_nbt)).
Proof.
  intros Hnd Hdis Hraw. unfold create_new_item. simpl.
  rewrite overlay_nbt_disjoint by done. simpl. by rewrite Hraw.
Qed.

(** X14: [create_item] returns an Item as soon as the display name or
    the lore gives a bracket component: the item string is the type
    without [minecraft:] followed by the components in brackets, and the
    stored NBT is the raw object followed by the overrides, without the
    entries [custom_name] and [lore] of either. *)
Theorem create_item_with_components (self : JMCFunction)
    (item_type_param display_name_param lore_param nbt_param : string)
    (modify_nbt : option (dict Token)) (ty raw : string)
    (lore_json names : list string) (raw_object : dict Token) :
  getitem item_type_param (args self) = inr ty →
  read_lore self lore_param = inr lore_json →
  read_nbt self nbt_param = inr raw_object →
  NoDup (raw_object.*1 ++ (default [] modify_nbt).*1) →
  read_display_name self display_name_param = inr names →
  let components :=
    if nonempty lore_json
    then names ++ ["lore=[" +:+ Py.join "," lore_json +:+ "]"]
    else names in
  let stored :=
    filter (λ kv, excluded_key kv.1 = false)
      (raw_object ++ default [] modify_nbt) in
  components ≠ [] →
  token_dict_to_raw_js_object stored = inr raw →
  create_item self item_type_param display_name_param lore_param nbt_param
    modify_nbt
  = inr (mkItem (strip_minecraft ty +:+ "[" +:+ Py.join "," components +:+ "]")
           raw stored).
Proof.
  intros Hty Hlore Hnbt Hnd Hdn components stored Hne Hraw.
  subst components stored.
  apply NoDup_app in Hnd as Hparts. destruct Hparts as (Hraw_nd & Hdis & Hmod_nd).
  unfold create_item. rewrite Hty. simpl. rewrite Hlore. simpl.
  rewrite Hnbt. simpl.
  rewrite overlay_nbt_disjoint; [|done|].
  2: { intros k Hk Hin. by apply (Hdis k). }
  simpl. rewrite Hdn. simpl.
  set (components := if nonempty lore_json
                     then names ++ ["lore=[" +:+ Py.join "," lore_json +:+ "]"]
                     else names) in *.
  assert (nonempty components = true) as -> by (by destruct components).
  assert (copy_nbt (raw_object ++ default [] modify_nbt) (Some [])
          = inr (Some (filter (λ kv, excluded_key kv.1 = false)
                         (raw_object ++ default [] modify_nbt)))) as Hcopy.
  { rewrite copy_nbt_bound; [done|]. simpl. by rewrite fmap_app. }
  destruct (raw_object ++ default [] modify_nbt) as [|kv rest] eqn:Hall.
  - simpl. rewrite filter_nil in Hraw. by rewrite Hraw.
  - unfold nonempty at 1. rewrite Hcopy. simpl. by rewrite Hraw.
Qed.

End ItemsBuilt.

Lemma create_new_item_appends_witness :
  create_new_item (bi := sample_builtins) damaged_item
    (Some [ ("Unbreakable", sample_token "1b") ]) None
  = inr (mkItem "stick" "{Damage:1,Unbreakable:1b}"
           [ ("Damage", sample_token "1"); ("Unbreakable", sample_token "1b") ]).
Proof.
  apply (create_new_item_appends (bi := sample_builtins) damaged_item
           [ ("Unbreakable", sample_token "1b") ] None).
  - apply NoDup_singleton.
  - intros k Hk Hin. simpl in Hk, Hin.
    apply list_elem_of_singleton in Hk as ->.
    apply list_elem_of_singleton in Hin. discriminate.
  - reflexivity.
Defined.

Lemma create_item_with_components_witness :
  create_item (bi := sample_builtins) item_with_overrides "itemType"
    "displayName" "lore" "nbt"
    (Some [ ("custom_name", sample_token "x"); ("Count", sample_token "2") ])
  = inr (mkItem
           ("stick[lore=[" +:+ sample_text "a" +:+ "," +:+ sample_text "b" +:+ "]]")
           "{Damage:Damage,Count:2}"
           [ ("Damage", sample_token "Damage"); ("Count", sample_token "2") ]).
Proof.
  apply (create_item_with_components (bi := sample_builtins) item_with_overrides
           "itemType" "displayName" "lore" "nbt"
           (Some [ ("custom_name", sample_token "x"); ("Count", sample_token "2") ])
           "minecraft:stick" "{Damage:Damage,Count:2}"
           [sample_text "a"; sample_text "b"] []
           [ ("Damage", sample_token "Damage"); ("lore", sample_token "lore") ]).
  - reflexivity.
  - reflexivity.
  - reflexivity.
  - apply (bool_decide_unpack _). vm_compute. exact I.
  - reflexivity.
  - discriminate.
  - reflexivity.
Defined.

(** ** Event bindings one after the other *)

Section EventsInvariant.
Context {bi : Builtins}.

(** X15: in an output model where every bound criterion has its
    private function (the empty model is one), [add_events] raises
    nothing and gives a model of the same kind; so no sequence of
    bindings meets the [KeyError] of the lookup
    [private_functions["on_event"][count]]. Where a criterion is marked as
    bound and its function is missing, that lookup does raise. *)
Theorem add_events_keeps_consistent (criteria : string)
    (commands : list string) (dp : DataPack) :
  (∀ ns, events_consistent (empty_datapack ns))
  ∧ (events_consistent dp →
     ∃ dp', add_events criteria commands dp = inr dp' ∧ events_consistent dp')
  ∧ (("on_event", [event_criteria criteria]) ∈ used_command dp →
     on_event_functions dp !! event_count criteria = None →
     ∃ key, add_events criteria commands dp = inl (KeyError key)).
Proof.
  split; [|split].
  - intros ns crit Hin. simpl in Hin. by apply not_elem_of_empty in Hin.
  - intros Hcons.
    destruct (decide (("on_event", [event_criteria criteria]) ∈ used_command dp))
      as [Hused|Hnew].
    + destruct (Hcons _ Hused) as [func Hfunc].
      rewrite (add_events_again criteria commands func dp Hused Hfunc).
      eexists. split; [done|]. intros crit Hin. simpl in Hin.
      unfold on_event_functions. simpl. rewrite lookup_insert_eq. simpl.
      apply lookup_insert_is_Some'. right. by apply Hcons.
    + rewrite (add_events_first criteria commands dp Hnew).
      eexists. split; [done|]. intros crit Hin. simpl in Hin.
      unfold on_event_functions at 1. simpl. rewrite lookup_insert_eq. simpl.
      apply lookup_insert_is_Some'.
      apply elem_of_union in Hin as [Hin|Hin].
      * apply elem_of_singleton in Hin. injection Hin as ->. by left.
      * right. by apply Hcons.
  - intros Hused Hnone. unfold add_events, is_never_used.
    fold (event_criteria criteria). rewrite decide_True by done.
    fold (event_count criteria). unfold on_event_functions in Hnone.
    destruct (private_functions dp !! "on_event") as [category|]; simpl in *.
    + rewrite Hnone. by eexists.
    + by eexists.
Qed.

Lemma replace_colon_cons (c : ascii) (s : string) :
  Py.replace ":" "_" (String c s)
  = String (if Ascii.eqb c ":" then "_"%char else c) (Py.replace ":" "_" s).
Proof.
  destruct c as [[] [] [] [] [] [] [] []]; by destruct s.
Qed.

Lemma lower_char_idemp (c : ascii) :
  Py.lower_char (Py.lower_char c) = Py.lower_char c.
Proof. by destruct c as [[] [] [] [] [] [] [] []]. Qed.

Lemma lower_char_colon (c : ascii) :
  Ascii.eqb (Py.lower_char c) ":" = Ascii.eqb c ":".
Proof. by destruct c as [[] [] [] [] [] [] [] []]. Qed.

(** X16: the key under which [add_events] stores the private function,
    [criteria.lower().replace(":", "_")] after the vendor prefix is
    removed, has no colon and no upper-case letter, whatever the
    criterion. *)
Theorem event_key_shape (criteria : string) :
  let count :=
    Py.replace ":" "_" (Py.lower (Py.replace "minecraft." "" criteria)) in
  occurs ":" count = false ∧ Py.lower count = count.
Proof.
  intros count. subst count.
  generalize (Py.replace "minecraft." "" criteria). intros s.
  induction s as [|c s [IH1 IH2]]; [done|].
  cbn [Py.lower]. rewrite replace_colon_cons, lower_char_colon.
  cbn [occurs Py.lower]. rewrite IH1, IH2. split.
  - destruct (Ascii.eqb c ":") eqn:E; [done|].
    by rewrite lower_char_colon, E.
  - f_equal. destruct (Ascii.eqb c ":"); [done | apply lower_char_idemp].
Qed.

End EventsInvariant.

Lemma add_events_keeps_consistent_witness :
  ∃ dp1 dp2,
    add_events (bi := sample_builtins) "minecraft.fish_caught" ["say one"]
      (empty_datapack "ns") = inr dp1
    ∧ add_events (bi := sample_builtins) "Fish_Caught" ["say two"] dp1 = inr dp2
    ∧ events_consistent dp2.
Proof.
  destruct (add_events_keeps_consistent (bi := sample_builtins)
              "minecraft.fish_caught" ["say one"] (empty_datapack "ns"))
    as (Hempty & Hstep1 & _).
  destruct (Hstep1 (Hempty "ns")) as (dp1 & Hrun1 & Hcons1).
  destruct (add_events_keeps_consistent (bi := sample_builtins)
              "Fish_Caught" ["say two"] dp1) as (_ & Hstep2 & _).
  destruct (Hstep2 Hcons1) as (dp2 & Hrun2 & Hcons2).
  by exists dp1, dp2.
Defined.

(** ** Files of the namespace *)

Section NamespaceFiles.
Context {ext : Externals}.

Lemma for_each_nothing {A} (l : list A) (body : A → M unit) (w : World) :
  (∀ x, x ∈ l → body x w = (w, inr tt)) → for_each l body w = (w, inr tt).
Proof.
  induction l as [|x l IH]; intros H; [done|]. simpl. unfold bind.
  rewrite (H x) by left. apply IH. intros y Hy. apply H. by right.
Qed.

(** X17: [build] writes no file for a function whose content is empty
    and none for a JSON value that counts as false: on an output model
    that has only such entries, [write_namespace_files] returns without
    touching the file tree, not even to make the folder [functions]. *)
Theorem write_namespace_files_skips_empty (dp : DataPack)
    (config : dict string) (w : World) (output ns : string) :
  getitem "output" config = inr output →
  getitem "namespace" config = inr ns →
  (∀ kv, kv ∈ functions dp → Function_content kv.2 = "") →
  (∀ kv, kv ∈ jsons dp → json_truthy kv.2 = false) →
  write_namespace_files dp config w = (w, inr tt).
Proof.
  intros Hout Hns Hfun Hjson.
  unfold write_namespace_files, config_get, lift, bind. rewrite Hout, Hns.
  rewrite for_each_nothing.
  - apply for_each_nothing. intros kv Hkv. by rewrite (Hjson kv Hkv).
  - intros kv Hkv. by rewrite (Hfun kv Hkv).
Qed.

End NamespaceFiles.

Lemma write_namespace_files_skips_empty_witness :
  write_namespace_files (ext := sample_externals)
    (mkDataPack "this_ns" [ ("main", []); ("blank", [""]) ]
       [ ("advancements/a", JObj []) ] ∅ ∅ [] ∅)
    sample_config world_certified
  = (world_certified, inr tt).
Proof.
  apply (write_namespace_files_skips_empty (ext := sample_externals) _
           sample_config world_certified "out" "this_ns").
  - reflexivity.
  - reflexivity.
  - intros kv Hkv. simpl in Hkv.
    apply elem_of_cons in Hkv as [-> | Hkv]; [reflexivity|].
    apply list_elem_of_singleton in Hkv as ->. reflexivity.
  - intros kv Hkv. simpl in Hkv.
    apply list_elem_of_singleton in Hkv as ->. reflexivity.
Defined.

(** ** The function tags on every tree *)

Section TagsEverywhere.
Context {ext : Externals}.

(** [mkdir(parents=True, exist_ok=True)] succeeds when no part of the
    path is a regular file; the folder is there afterwards, and holds
    what it held before. *)
Lemma fs_mkdir_ready (p : path) (t : node) :
  (∀ q s, q `prefix_of` p → fs_lookup q t ≠ Some (File s)) →
  ∃ t0 m,
    fs_mkdir true p t = inr t0
    ∧ fs_lookup p t0 = Some (Dir m)
    ∧ ∀ c, m !! c = fs_lookup (p ++ [c]) t.
Proof.
  revert t. induction p as [|c0 p IH]; intros t Hpre.
  - destruct t as [s|m0]; [by destruct (Hpre [] s (prefix_nil _))|].
    exists (Dir m0), m0. split; [done|]. split; [done|].
    intros c. simpl. by destruct (m0 !! c).
  - destruct t as [s|m0]; [by destruct (Hpre [] s (prefix_nil _))|].
    rewrite fs_mkdir_cons. destruct (m0 !! c0) as [n|] eqn:Hc0.
    + destruct (IH n) as (n0 & m & Hmk & Hl & Hch).
      { intros q s [k Hk] Hq. apply (Hpre (c0 :: q) s).
        - exists k. by rewrite Hk.
        - simpl. by rewrite Hc0. }
      rewrite Hmk. exists (Dir (<[c0 := n0]> m0)), m.
      split; [done|]. split.
      * simpl. by rewrite lookup_insert_eq.
      * intros c. rewrite Hch. simpl. by rewrite Hc0.
    + exists (Dir (<[c0 := fresh_dirs p]> m0)), ∅.
      split; [done|]. split.
      * simpl. rewrite lookup_insert_eq. apply fs_lookup_fresh.
      * intros c. rewrite lookup_empty. simpl. by rewrite Hc0.
Qed.

Lemma tag_entries_moved (t t0 : node) (tags : path) (m : gmap string node)
    (c : string) (d : dict json) (vs : list string) :
  fs_lookup tags t0 = Some (Dir m) →
  m !! c = fs_lookup (tags ++ [c]) t →
  tag_entries t (tags ++ [c]) d vs → tag_entries t0 (tags ++ [c]) d vs.
Proof.
  intros Hdir Hc. unfold tag_entries.
  by rewrite (fs_lookup_child _ _ _ _ Hdir), Hc.
Qed.

Lemma tag_broken_moved (t t0 : node) (tags : path) (m : gmap string node)
    (c : string) :
  fs_lookup tags t0 = Some (Dir m) →
  m !! c = fs_lookup (tags ++ [c]) t →
  tag_broken t (tags ++ [c]) → tag_broken t0 (tags ++ [c]).
Proof.
  intros Hdir Hc. unfold tag_broken.
  by rewrite (fs_lookup_child _ _ _ _ Hdir), Hc.
Qed.

(** The tags part of [build] from the tree that [mkdir] gives. *)
Lemma write_function_tags_from (dp : DataPack) (config : dict string)
    (w : World) (output ns : string) (t0 : node) (m : gmap string node)
    (tags : path) (dl dt : dict json) (vl vt : list string) :
  getitem "output" config = inr output →
  getitem "namespace" config = inr ns →
  tags = Path output // "data" // "minecraft" // "tags" // "functions" →
  fs_mkdir true tags (fs w) = inr t0 →
  fs_lookup tags t0 = Some (Dir m) →
  tag_entries t0 (tags ++ ["load.json"]) dl vl →
  tag_entries t0 (tags ++ ["tick.json"]) dt vt →
  ∃ w',
    write_function_tags dp config w = (w', inr tt)
    ∧ fs_lookup (tags ++ ["load.json"]) (fs w')
      = Some (File (json_dumps (with_values dl
           (merged_values ns vl (ns +:+ ":" +:+ LOAD_NAME (names w))))))
    ∧ (has_tick_function (names w) dp = true →
       fs_lookup (tags ++ ["tick.json"]) (fs w')
       = Some (File (json_dumps (with_values dt
            (merged_values ns vt (ns +:+ ":" +:+ TICK_NAME (names w))))))).
Proof.
  intros Hout Hns Htags Hmk Hdir Hload Htick.
  pose proof (tag_entries_not_dir _ _ _ _ _ _ Hdir Hload) as Hl.
  pose proof (tag_entries_not_dir _ _ _ _ _ _ Hdir Htick) as Ht.
  destruct (read_func_tag_entries (tags ++ ["load.json"]) config
              (log (EvMkdir tags) (set_fs t0 w)) ns dl vl Hns Hload)
    as (w1 & Hr1 & Hfs1 & Hn1).
  destruct (read_func_tag_entries (tags ++ ["tick.json"]) config w1 ns dt vt Hns)
    as (w2 & Hr2 & Hfs2 & Hn2); [by rewrite Hfs1|].
  cbn [names log set_fs fs] in Hn1, Hfs1.
  assert (fs_lookup tags (fs w2) = Some (Dir m)) as Hdir2
    by (by rewrite Hfs2, Hfs1).
  destruct (fs_write_child tags "load.json"
              (json_dumps (with_values dl
                 (filter (λ v, Py.startswith v (ns +:+ ":") = false) vl
                  ++ [ns +:+ ":" +:+ LOAD_NAME (names w)]))) (fs w2) m Hdir2 Hl)
    as (t3 & Hw3 & Hl3).
  unfold write_function_tags, bind, config_get, lift, get_names, mkdir.
  rewrite Hout. cbn [fs]. rewrite Hns. cbn [fs]. rewrite <- Htags, Hmk.
  unfold path_join.
  change (Path "load.json") with ["load.json"].
  change (Path "tick.json") with ["tick.json"].
  rewrite Hr1, Hr2. rewrite append_value_with_values.
  unfold write_text at 1. rewrite Hn2, Hn1, Hw3. cbn [names log set_fs].
  rewrite Hn2, Hn1.
  fold (has_tick_function (names w) dp).
  destruct (has_tick_function (names w) dp) eqn:Hhas.
  - rewrite append_value_with_values.
    destruct (fs_write_child tags "tick.json"
              (json_dumps (with_values dt
                 (filter (λ v, Py.startswith v (ns +:+ ":") = false) vt
                  ++ [ns +:+ ":" +:+ TICK_NAME (names w)]))) t3 _ Hl3)
      as (t4 & Hw4 & Hl4).
    { intros m' Hm'. rewrite lookup_insert_ne in Hm' by done. by eapply Ht. }
    unfold write_text. cbn [fs log set_fs]. rewrite Hw4.
    eexists. split; [done|]. cbn [names fs log set_fs].
    rewrite !(fs_lookup_child _ _ _ _ Hl4).
    rewrite lookup_insert_ne by done. rewrite !lookup_insert_eq.
    done.
  - eexists. split; [done|]. cbn [names fs log set_fs].
    rewrite !(fs_lookup_child _ _ _ _ Hl3).
    rewrite lookup_insert_eq. done.
Qed.

End TagsEverywhere.

Section TagClaims.
Context {ext : Externals}.

(** C5, amended for [tick.json] and to the tag files the merge is
    written for: when no part of the path of the function-tags folder is
    a regular file ([build] makes the folder when it is missing) and each
    of the two tag files is either missing or an object whose [values] is
    a list of strings, [build] writes [load.json] with the entries that
    start with [<namespace>:] removed, the other entries and the other
    fields of the object kept as they are and in order, and the load
    reference of this compilation appended (a missing file counts as no
    entries); when the built output has a non-empty tick function,
    [tick.json] is written in the same way with the tick reference. A
    [load.json] that does not parse or parses to an object without
    [values], and such a [tick.json] beside a [load.json] that is missing
    or as above, make [build] stop with a build error before anything is
    written. *)
Theorem function_tags_merge (dp : DataPack) (config : dict string) (w : World)
    (output ns : string) :
  getitem "output" config = inr output →
  getitem "namespace" config = inr ns →
  let tags := Path output // "data" // "minecraft" // "tags" // "functions" in
  let load_tag := tags ++ ["load.json"] in
  let tick_tag := tags ++ ["tick.json"] in
  let built := DataPack_build (names w) dp in
  (∀ q s, q `prefix_of` tags → fs_lookup q (fs w) ≠ Some (File s)) →
  (∀ dl vl dt vt,
     tag_entries (fs w) load_tag dl vl →
     tag_entries (fs w) tick_tag dt vt →
     ∃ w',
       write_function_tags built config w = (w', inr tt)
       ∧ build dp config w
         = (write_namespace_files built config ;;; write_pack_mcmeta config) w'
       ∧ fs_lookup load_tag (fs w')
         = Some (File (json_dumps (with_values dl
              (merged_values ns vl (ns +:+ ":" +:+ LOAD_NAME (names w))))))
       ∧ (has_tick_function (names w) built = true →
          fs_lookup tick_tag (fs w')
          = Some (File (json_dumps (with_values dt
               (merged_values ns vt (ns +:+ ":" +:+ TICK_NAME (names w))))))))
  ∧ (tag_broken (fs w) load_tag
     ∨ ((∃ dl vl, tag_entries (fs w) load_tag dl vl)
        ∧ tag_broken (fs w) tick_tag) →
     ∃ msg w',
       build dp config w = (w', inl (JMCBuildError msg)) ∧ fs w' = fs w).
Proof.
  intros Hout Hns tags load_tag tick_tag built Hpre.
  subst load_tag tick_tag built.
  assert (tags = Path output // "data" // "minecraft" // "tags" // "functions")
    as Htags by reflexivity.
  clearbody tags. split.
  - intros dl vl dt vt Hload Htick.
    destruct (fs_mkdir_ready tags (fs w) Hpre) as (t0 & m & Hmk & Hdir & Hch).
    destruct (write_function_tags_from (DataPack_build (names w) dp) config w
                output ns t0 m tags dl dt vl vt Hout Hns Htags Hmk Hdir)
      as (w' & Hrun & Hl & Ht).
    + by apply (tag_entries_moved (fs w) t0 tags m).
    + by apply (tag_entries_moved (fs w) t0 tags m).
    + exists w'. split; [done|]. split; [by rewrite build_unfold, Hrun|].
      split; done.
  - intros Hbad.
    assert (∃ m, fs_lookup tags (fs w) = Some (Dir m)) as [m Hdir].
    { destruct Hbad as [(s & Hf & _) | [_ (s & Hf & _)]];
        destruct (fs_lookup_parent _ _ _ _ Hf) as (m & Hm & _); by exists m. }
    destruct (write_function_tags_broken (DataPack_build (names w) dp) config
                w output ns m tags Hout Hns Htags Hdir Hbad)
      as (msg & w' & Hrun & Hfs).
    exists msg, w'. split; [by rewrite build_unfold, Hrun | done].
Qed.

End TagClaims.

(** C5, as amended, on the sample tree with an output that has a tick
    function: both tag files lose the entry of [this_ns] and gain the new
    reference. *)
Lemma function_tags_merge_witness :
  ∃ w',
    write_function_tags (ext := sample_externals) datapack_with_tick
      sample_config world_certified = (w', inr tt)
    ∧ fs_lookup (sample_tag_path ++ ["load.json"]) (fs w')
      = Some (File "values=other_ns:foo,this_ns:__load__")
    ∧ fs_lookup (sample_tag_path ++ ["tick.json"]) (fs w')
      = Some (File "values=other_ns:t,this_ns:__tick__").
Proof.
  destruct (function_tags_merge (ext := sample_externals) datapack_with_tick
              sample_config world_certified "out" "this_ns")
    as [Hgood _].
  - reflexivity.
  - reflexivity.
  - intros q s [k Hk].
    change (Path "out" // "data" // "minecraft" // "tags" // "functions")
      with sample_tag_path in Hk. unfold sample_tag_path in Hk.
    destruct q as [|c1 [|c2 [|c3 [|c4 [|c5 [|c6 q]]]]]]; simpl in Hk;
      simplify_eq; vm_compute; discriminate.
  - destruct (Hgood [ ("values", JArr [JStr "other_ns:foo"; JStr "this_ns:old"]) ]
                ["other_ns:foo"; "this_ns:old"]
                [ ("values", JArr [JStr "this_ns:tick"; JStr "other_ns:t"]) ]
                ["this_ns:tick"; "other_ns:t"])
      as (w' & Hrun & _ & Hload & Htick).
    + right. exists "values=other_ns:foo,this_ns:old".
      split; [vm_compute; reflexivity|]. split; reflexivity.
    + right. exists "values=this_ns:tick,other_ns:t".
      split; [vm_compute; reflexivity|]. split; reflexivity.
    + exists w'. split; [exact Hrun|]. split; [exact Hload|].
      apply Htick. reflexivity.
Defined.
